(** * ai_quant: a shallow embedding of the trading pipeline's deterministic parts

    The Go sources model money, prices and quantities as [float64].  Unless a
    definition says otherwise they are embedded here as exact rationals [Q]
    (the real-number reading of the arithmetic); the indicator kit and the
    futures order sizing are embedded over IEEE binary64 ([PrimFloat], see
    [F64]) where rounding is observable.
    Network calls, the clock, UUIDs and JSON decoding are inputs of the
    embedded functions (oracles), so every function below is executable. *)

From Stdlib Require Import QArith Qround Qminmax Qabs.
From Stdlib Require Import List String Ascii Bool ZArith Lia Sorting.Sorted Sorting.Permutation.
From Stdlib Require Import Numbers.DecimalString.
From Stdlib Require Import Floats Uint63.
Import ListNotations.

Open Scope string_scope.
Open Scope Q_scope.

(* ------------------------------------------------------------------ *)
(** ** Go helpers: comparisons, formatting and string functions *)

Module Go.

(** Go's [<] and [<=] on (non-NaN) float64, as booleans on [Q]. *)
Definition ltb (a b : Q) : bool := negb (Qle_bool b a).
Definition leb (a b : Q) : bool := Qle_bool a b.

Lemma ltb_true a b : ltb a b = true <-> a < b.
Proof.
  unfold ltb. rewrite negb_true_iff. split; intro H.
  - apply Qnot_le_lt. intro H'. apply Qle_bool_iff in H'. congruence.
  - destruct (Qle_bool b a) eqn:E; [|reflexivity].
    apply Qle_bool_iff in E. exfalso. apply (Qlt_not_le a b); assumption.
Qed.

Lemma ltb_false a b : ltb a b = false <-> b <= a.
Proof.
  unfold ltb. rewrite negb_false_iff. apply Qle_bool_iff.
Qed.

Lemma leb_true a b : leb a b = true <-> a <= b.
Proof. apply Qle_bool_iff. Qed.

Lemma leb_false a b : leb a b = false <-> b < a.
Proof.
  unfold leb. split; intro H.
  - apply Qnot_le_lt. intro H'. apply Qle_bool_iff in H'. congruence.
  - destruct (Qle_bool a b) eqn:E; [|reflexivity].
    apply Qle_bool_iff in E. exfalso. apply (Qlt_not_le b a); assumption.
Qed.

(** Decimal rendering of a natural number. *)
Definition string_of_N (n : N) : string :=
  NilZero.string_of_uint (N.to_uint n).

Fixpoint pad_left (k : nat) (s : string) : string :=
  match k with
  | O => s
  | S k' => if (String.length s <? S k')%nat then "0" ++ pad_left k' s else s
  end.

(** [strconv.FormatFloat(q, 'f', d, 64)] / [fmt.Sprintf("%.<d>f", q)]:
    the value rounded to [d] decimals (to nearest) and printed with exactly
    [d] fractional digits. *)
Definition format_fixed (d : nat) (q : Q) : string :=
  let m := (10 ^ Z.of_nat d)%Z in
  let n := Qfloor (q * inject_Z m + (1 # 2)) in
  let a := Z.abs_N n in
  let ip := (a / Z.to_N m)%N in
  let fp := (a mod Z.to_N m)%N in
  (if (n <? 0)%Z then "-" else "") ++ string_of_N ip ++
  (match d with O => "" | _ => "." ++ pad_left d (string_of_N fp) end).

(** [strings.ToUpper] on ASCII text. *)
Definition upper_char (c : ascii) : ascii :=
  let n := nat_of_ascii c in
  if ((97 <=? n) && (n <=? 122))%nat then ascii_of_nat (n - 32) else c.

Fixpoint ToUpper (s : string) : string :=
  match s with
  | EmptyString => EmptyString
  | String c r => String (upper_char c) (ToUpper r)
  end.

(** [strings.HasPrefix(s, p)]. *)
Definition HasPrefix (s p : string) : bool := String.prefix p s.

(** [strings.ReplaceAll(s, "/", "")] and the rune loop of [pairToSymbol]. *)
Fixpoint drop_slash (s : string) : string :=
  match s with
  | EmptyString => EmptyString
  | String c r => if Ascii.eqb c "/"%char then drop_slash r else String c (drop_slash r)
  end.


End Go.

(* ------------------------------------------------------------------ *)
(** ** Go's float64 arithmetic (IEEE binary64, round-to-nearest-even) *)

Module F64.

Definition sf_of_Z (z : Z) : spec_float :=
  match z with
  | Z0 => S754_zero false
  | Zpos p => S754_finite false p 0
  | Zneg p => S754_finite true p 0
  end.

(** The float64 nearest to [q] (ties to even): the float64 a value of the
    model stands for; exact on every float64 value. *)
Definition of_Q (q : Q) : float :=
  SF2Prim (SFdiv FloatOps.prec FloatOps.emax (sf_of_Z (Qnum q)) (sf_of_Z (Zpos (Qden q)))).

(** [float64(i)] of a Go integer. *)
Definition of_Z (z : Z) : float := of_Q (inject_Z z).

(** The exact value of a finite float64 ([0] for infinities and NaN). *)
Definition to_Q (x : float) : Q :=
  match Prim2SF x with
  | S754_finite s m e =>
      let v := if s then Zneg m else Zpos m in
      match e with
      | Z0 => inject_Z v
      | Zpos p => inject_Z (v * 2 ^ Zpos p)
      | Zneg p => Qmake v (Z.to_pos (2 ^ Zpos p))
      end
  | _ => 0
  end.

(** [math.Floor]: zeros, infinities, NaN and values without a fractional
    bit are returned unchanged; otherwise the greatest integer below,
    which is a float64. *)
Definition Floor (x : float) : float :=
  match Prim2SF x with
  | S754_finite s m (Zneg p) => of_Z (Z.div (if s then Zneg m else Zpos m) (2 ^ Zpos p))
  | _ => x
  end.

(** Rounding to the nearest integer, halves to even. *)
Definition round_half_even (y : Q) : Z :=
  let f := Qfloor y in
  match Qcompare (y - inject_Z f) (1 # 2) with
  | Lt => f
  | Gt => (f + 1)%Z
  | Eq => if Z.even f then f else (f + 1)%Z
  end.

(** [strconv.FormatFloat(x, 'f', d, 64)]: the exact binary value rounded
    to [d] decimals (halves to even), the sign taken from the sign bit. *)
Definition FormatFloat (x : float) (d : nat) : string :=
  let digits (n : Z) :=
    let m := (10 ^ Z.of_nat d)%Z in
    let a := Z.to_N n in
    Go.string_of_N (a / Z.to_N m)%N ++
    (match d with O => "" | _ => "." ++ Go.pad_left d (Go.string_of_N (a mod Z.to_N m)%N) end) in
  match Prim2SF x with
  | S754_nan => "NaN"
  | S754_infinity s => if s then "-Inf" else "+Inf"
  | S754_zero s => (if s then "-" else "") ++ digits 0%Z
  | S754_finite s _ _ =>
      (if s then "-" else "") ++
      digits (round_half_even (Qabs (to_Q x) * inject_Z (10 ^ Z.of_nat d)))
  end.

End F64.

(* ------------------------------------------------------------------ *)
(** ** Domain types (internal/domain/types.go) *)

Module Domain.

(** [domain.Side]: the four declared constants. *)
Inductive Side := SideLong | SideShort | SideClose | SideNone.

Definition Side_eqb (a b : Side) : bool :=
  match a, b with
  | SideLong, SideLong | SideShort, SideShort
  | SideClose, SideClose | SideNone, SideNone => true
  | _, _ => false
  end.

Lemma Side_eqb_eq a b : Side_eqb a b = true <-> a = b.
Proof. destruct a, b; simpl; split; congruence. Qed.

Record Signal := mkSignal {
  sig_id : string;
  sig_cycle_id : string;
  sig_pair : string;
  sig_side : Side;
  sig_confidence : Q;
  sig_reason : string;
  sig_thinking : string;
  sig_prompt_tokens : Z;
  sig_completion_tokens : Z;
  sig_total_tokens : Z;
  sig_model_name : string;
  sig_ttl_seconds : Z
}.

Record PortfolioState := mkPortfolio {
  DailyPnLUSDT : Q;
  OpenExposureUSDT : Q
}.

Record RiskDecision := mkRiskDecision {
  rd_id : string;
  rd_cycle_id : string;
  rd_signal_id : string;
  Approved : bool;
  RejectReason : string;
  MaxStakeUSDT : Q
}.

Record Order := mkOrder {
  o_id : string;
  o_cycle_id : string;
  o_signal_id : string;
  ClientOrderID : string;
  o_pair : string;
  o_side : Side;
  StakeUSDT : Q;
  o_leverage : Z;
  o_status : string;
  ExchangeOrderID : string;
  FilledPrice : Q;
  FilledQuantity : Q;
  RawResponse : string
}.

Record Holding := mkHolding {
  h_pair : string;
  h_symbol : string;
  Quantity : Q;
  AvgPrice : Q;
  TotalCost : Q;
  h_source : string
}.

End Domain.

Import Domain.

(* ------------------------------------------------------------------ *)
(** ** Risk agent (internal/agent/risk/risk.go) *)

Module Risk.

Record RuleAgent := mkRuleAgent {
  maxSingleStakeUSDT : Q;
  maxDailyLossUSDT : Q;
  maxExposureUSDT : Q;
  minConfidence : Q;
  tradingMode : string;
  leverage : Z
}.

Record Input := mkInput {
  in_cycle_id : string;
  in_signal : Signal;
  in_portfolio : PortfolioState
}.

(** [RuleAgent.Evaluate]; [fresh_id] is the UUID drawn for the decision.
    The error result is the Go [error] ([None] for [nil]).  The futures
    branch before approval only logs, so it is omitted. *)
Definition Evaluate (a : RuleAgent) (fresh_id : string) (input : Input)
  : RiskDecision * option string :=
  let s := in_signal input in
  let p := in_portfolio input in
  let decision r st ok :=
    mkRiskDecision fresh_id (in_cycle_id input) (sig_id s) ok r st in
  if Side_eqb (sig_side s) SideNone then
    (decision "signal side is none" 0 false, None)
  else if Side_eqb (sig_side s) SideClose then
    if Go.ltb (sig_confidence s) (minConfidence a) then
      (decision ("close signal confidence " ++ Go.format_fixed 2 (sig_confidence s)
                 ++ " below min " ++ Go.format_fixed 2 (minConfidence a)) 0 false, None)
    else (decision "" 0 true, None)
  else if Go.ltb (sig_confidence s) (minConfidence a) then
    (decision ("signal confidence " ++ Go.format_fixed 2 (sig_confidence s)
               ++ " below min " ++ Go.format_fixed 2 (minConfidence a)) 0 false, None)
  else if Go.leb (DailyPnLUSDT p) (- Qabs (maxDailyLossUSDT a)) then
    (decision ("daily pnl " ++ Go.format_fixed 2 (DailyPnLUSDT p)
               ++ " below max loss limit -" ++ Go.format_fixed 2 (Qabs (maxDailyLossUSDT a)))
              0 false, None)
  else
    let remainingExposure := maxExposureUSDT a - OpenExposureUSDT p in
    if Go.leb remainingExposure 0 then
      (decision "max exposure limit reached" 0 false, None)
    else
      let ms := Qmin (maxSingleStakeUSDT a) remainingExposure in
      if Go.leb ms 0 then (decision "computed max stake is zero" ms false, None)
      else (decision "" ms true, None).

End Risk.

(* ------------------------------------------------------------------ *)
(** ** Position planner (position.agent, Generate) *)

Module Position.

Inductive StrategyType := StrategyFull | StrategyPyramid | StrategyGrid.

Record PositionBatch := mkBatch {
  BatchNo : nat;
  TriggerPrice : Q;
  Amount : Q;
  Percentage : Q;
  Status : string
}.

Record PositionStrategy := mkStrategy {
  ps_id : string;
  ps_cycle_id : string;
  ps_signal_id : string;
  ps_pair : string;
  ps_side : Side;
  Strategy : StrategyType;
  TotalAmount : Q;
  EntryLevels : nat;
  Batches : list PositionBatch;
  TakeProfitPercent : Q;
  StopLossPercent : Q;
  ps_reason : string
}.

Record Input := mkInput {
  in_cycle_id : string;
  in_signal_id : string;
  in_pair : string;
  in_side : Side;
  in_signal : Signal;
  in_max_stake : Q;
  in_current_price : Q;
  in_volatility : Q
}.

(** [selectStrategy]: the amount argument is unused by the source. *)
Definition selectStrategy (confidence amount : Q) : StrategyType :=
  if Go.leb (75 # 100) confidence then StrategyFull
  else if Go.leb (60 # 100) confidence then StrategyPyramid
  else StrategyGrid.

Definition generateFullStrategy (totalAmount currentPrice : Q) : list PositionBatch :=
  [mkBatch 1 currentPrice totalAmount 100 "pending"].

Definition generatePyramidStrategy (totalAmount currentPrice : Q) : list PositionBatch :=
  [mkBatch 1 currentPrice (totalAmount * (50 # 100)) 50 "pending";
   mkBatch 2 (currentPrice * (98 # 100)) (totalAmount * (30 # 100)) 30 "pending";
   mkBatch 3 (currentPrice * (96 # 100)) (totalAmount * (20 # 100)) 20 "pending"].

(** The [for i := 0; i < numBatches; i++] loop of [generateGridStrategy]. *)
Definition generateGridStrategy (totalAmount currentPrice : Q) : list PositionBatch :=
  let numBatches := 5%nat in
  let amountPerBatch := totalAmount / inject_Z (Z.of_nat numBatches) in
  map (fun i =>
         let priceOffset := 1 - inject_Z (Z.of_nat i) * (1 # 100) in
         mkBatch (S i) (currentPrice * priceOffset) amountPerBatch
                 (100 / inject_Z (Z.of_nat numBatches)) "pending")
      (seq 0 numBatches).

(** [agent.Generate]; [fresh_id] stands for [generateID()].  The source's
    [default:] error branch is unreachable: [selectStrategy] only returns
    the three strategies. *)
Definition Generate (fresh_id : string) (input : Input) : PositionStrategy :=
  if Side_eqb (in_side input) SideClose then
    mkStrategy fresh_id (in_cycle_id input) (in_signal_id input) (in_pair input)
      (in_side input) StrategyFull 0 1 [] 0 0 "平仓操作，无需建仓策略"
  else
    let c := sig_confidence (in_signal input) in
    let B := in_max_stake input in
    let p := in_current_price input in
    let '(batches, reason, tp, sl) :=
      match selectStrategy c B with
      | StrategyFull =>
          (generateFullStrategy B p,
           "高置信度(" ++ Go.format_fixed 2 c ++ ")，采用全仓策略一次性建仓", 5, 2)
      | StrategyPyramid =>
          (generatePyramidStrategy B p,
           "中等置信度(" ++ Go.format_fixed 2 c ++ ")，采用金字塔策略分批建仓，降低风险", 8, 3)
      | StrategyGrid =>
          (generateGridStrategy B p,
           "置信度(" ++ Go.format_fixed 2 c ++ ")较低或震荡行情，采用网格策略分散风险", 10, 4)
      end in
    mkStrategy fresh_id (in_cycle_id input) (in_signal_id input) (in_pair input)
      (in_side input) (selectStrategy c B) B (List.length batches) batches tp sl reason.

Definition sum_amounts (bs : list PositionBatch) : Q :=
  fold_right (fun b acc => Amount b + acc) 0 bs.

Definition sum_percentages (bs : list PositionBatch) : Q :=
  fold_right (fun b acc => Percentage b + acc) 0 bs.

End Position.

(* ------------------------------------------------------------------ *)
(** ** Holdings table and its reconciliation after a trade
       (store.SQLiteRepository holdings part, orchestrator.UpdateHoldingAfterTrade) *)

Module Holdings.

(** Stable insertion sort, descending for [ge]; models [ORDER BY ... DESC]. *)
Fixpoint insert_desc {A} (ge : A -> A -> bool) (x : A) (l : list A) : list A :=
  match l with
  | [] => [x]
  | y :: r => if ge x y then x :: y :: r else y :: insert_desc ge x r
  end.

Definition sort_desc {A} (ge : A -> A -> bool) (l : list A) : list A :=
  fold_left (fun acc x => insert_desc ge x acc) l [].

(** The [holdings] table: one row per pair ([UNIQUE(pair)]). *)
Definition Table := list Holding.

(** [UpsertHolding]: [INSERT ... ON CONFLICT(pair) DO UPDATE] of quantity,
    avg_price, total_cost and source (symbol keeps its first value). *)
Definition UpsertHolding (t : Table) (h : Holding) : Table :=
  if existsb (fun r => String.eqb (h_pair r) (h_pair h)) t then
    map (fun r => if String.eqb (h_pair r) (h_pair h)
                  then mkHolding (h_pair r) (h_symbol r) (Quantity h) (AvgPrice h)
                                 (TotalCost h) (h_source h)
                  else r) t
  else (t ++ [h])%list.

(** [ListHoldings]: [WHERE quantity > 0 ORDER BY total_cost DESC]. *)
Definition ListHoldings (t : Table) : list Holding :=
  sort_desc (fun a b => Go.leb (TotalCost b) (TotalCost a))
            (filter (fun r => Go.ltb 0 (Quantity r)) t).

Definition find_pair (pair : string) (l : list Holding) : option Holding :=
  find (fun r => String.eqb (h_pair r) pair) l.

(** [strings.Split(pair, "/")[0]]. *)
Fixpoint split_base (s : string) : string :=
  match s with
  | EmptyString => EmptyString
  | String c r => if Ascii.eqb c "/"%char then EmptyString else String c (split_base r)
  end.

(** The row [UpdateHoldingAfterTrade] upserts, given the holding the loop
    found for the order's pair ([existing]); [None] when nothing is written. *)
Definition holding_update (existing : option Holding) (o : Order) : option Holding :=
  let symbol := split_base (o_pair o) in
  match o_side o with
  | SideLong =>
      match existing with
      | Some e =>
          let newQty := Quantity e + FilledQuantity o in
          let newCost := TotalCost e + FilledQuantity o * FilledPrice o in
          Some (mkHolding (o_pair o) symbol newQty (newCost / newQty) newCost "local")
      | None =>
          Some (mkHolding (o_pair o) symbol (FilledQuantity o) (FilledPrice o)
                          (FilledQuantity o * FilledPrice o) "local")
      end
  | SideClose =>
      match existing with
      | Some e =>
          let q0 := Quantity e - FilledQuantity o in
          let newQty := if Go.ltb q0 0 then 0 else q0 in
          let r0 := FilledQuantity o / Quantity e in
          let ratio := if Go.ltb 1 r0 then 1 else r0 in
          let newCost := TotalCost e * (1 - ratio) in
          let avgPrice := if Go.ltb 0 newQty then newCost / newQty else 0 in
          Some (mkHolding (o_pair o) symbol newQty avgPrice newCost "local")
      | None => None
      end
  | _ => None
  end.

(** [Service.UpdateHoldingAfterTrade] on the holdings table.  The
    positivity guard makes the [Quantity e] divisor non-zero: [existing]
    comes from [ListHoldings], whose rows have a positive quantity. *)
Definition UpdateHoldingAfterTrade (t : Table) (o : Order) : Table :=
  if Go.leb (FilledPrice o) 0 || Go.leb (FilledQuantity o) 0 then t
  else
    match holding_update (find_pair (o_pair o) (ListHoldings t)) o with
    | Some h => UpsertHolding t h
    | None => t
    end.

End Holdings.

(* ------------------------------------------------------------------ *)
(** ** Execution agent (execution.BinanceExecutor, BinanceFuturesExecutor) *)

Module Exec.

(** A request parameter: a plain string, [strconv.FormatFloat(v, 'f', d, 64)]
    of a value, or the HMAC-SHA256 signature (keyed by the secret) of the
    parameters set before it. *)
Inductive ParamVal := PStr (s : string) | PDec (v : Q) (d : nat) | PSig (secret : string).

Record Request := mkRequest {
  req_method : string;
  req_url : string;
  req_params : list (string * ParamVal);
  req_api_key : string
}.

Definition signed (r : Request) : bool :=
  existsb (fun kv => String.eqb (fst kv) "signature") (req_params r).

Definition param (k : string) (r : Request) : option ParamVal :=
  option_map snd (find (fun kv => String.eqb (fst kv) k) (req_params r)).

(** The decoded JSON reply of an order endpoint (unparsable numbers read as
    0 for spot fills, [None] for futures [avgPrice]/[executedQty]). *)
Record OrderReply := mkReply {
  r_order_id : Z;
  r_status : string;
  r_fills : list (Q * Q);
  r_avg_price : option Q;
  r_executed_qty : option Q
}.

(** Outcome of [httpClient.Do] + [io.ReadAll] + [json.Unmarshal]. *)
Inductive HttpResult :=
| HttpBuildError                 (* http.NewRequestWithContext failed: nothing sent *)
| HttpTransportError             (* Do or ReadAll failed *)
| HttpReply (code : Z) (body : string) (decoded : option OrderReply).

(** The world an [Execute] call sees: the fresh UUIDs, the clock, the public
    ticker (price or error) and the order endpoint. *)
Record Env := mkEnv {
  env_order_id : string;
  env_client_suffix : string;
  env_now_ms : Z;
  env_ticker : string -> option Q;
  env_send : Request -> HttpResult
}.

Record Input := mkInput {
  in_cycle_id : string;
  in_signal_id : string;
  in_pair : string;
  in_side : Side;
  in_stake : Q;
  in_estimated_fill : Q;
  in_sell_quantity : Q
}.

(** What [Execute] returns, plus every request it issued, in order. *)
Record Outcome := mkOutcome {
  out_order : Order;
  out_err : option string;
  out_sent : list Request
}.

Definition string_of_Z (z : Z) : string := NilZero.string_of_int (Z.to_int z).

Definition dq : string := String (ascii_of_nat 34) EmptyString.

Definition set_status (o : Order) (st : string) : Order :=
  mkOrder (o_id o) (o_cycle_id o) (o_signal_id o) (ClientOrderID o) (o_pair o)
    (o_side o) (StakeUSDT o) (o_leverage o) st (ExchangeOrderID o)
    (FilledPrice o) (FilledQuantity o) (RawResponse o).

Definition set_fill (o : Order) (st exid : string) (price qty : Q) (raw : string) : Order :=
  mkOrder (o_id o) (o_cycle_id o) (o_signal_id o) (ClientOrderID o) (o_pair o)
    (o_side o) (StakeUSDT o) (o_leverage o) st exid price qty raw.

Definition mapBinanceStatus (s : string) : string :=
  if String.eqb s "FILLED" then "filled"
  else if String.eqb s "PARTIALLY_FILLED" then "partial_filled"
  else if String.eqb s "NEW" then "submitted"
  else if String.eqb s "CANCELED" || String.eqb s "REJECTED" || String.eqb s "EXPIRED"
  then "rejected"
  else s.

Definition pairToSymbol (pair : string) : string := Go.drop_slash pair.

(** [math.Floor(qty*m) / m]. *)
Definition floor_to (q : Q) (m : Z) : Q := inject_Z (Qfloor (q * inject_Z m)) / inject_Z m.

(** [getMinQuantity]. *)
Definition getMinQuantity (symbol : string) : Q :=
  let sym := Go.ToUpper symbol in
  if Go.HasPrefix sym "DOGE" then 1
  else if Go.HasPrefix sym "XRP" then 1
  else if Go.HasPrefix sym "BNB" then 1 # 100
  else if Go.HasPrefix sym "SOL" then 1 # 100
  else if Go.HasPrefix sym "ETH" then 1 # 10000
  else if Go.HasPrefix sym "BTC" then 1 # 100000
  else 1.

(** [quantityPrecision]: the floored quantity and the decimals it is
    printed with; the string is [PDec value decimals]. *)
Definition quantityPrecision (symbol : string) (qty : Q) : Q * nat :=
  let sym := Go.ToUpper symbol in
  if Go.HasPrefix sym "DOGE" then (inject_Z (Qfloor qty), 0%nat)
  else if Go.HasPrefix sym "XRP" then (floor_to qty 10, 1%nat)
  else if Go.HasPrefix sym "BNB" || Go.HasPrefix sym "SOL" then (floor_to qty 100, 2%nat)
  else if Go.HasPrefix sym "ETH" then (floor_to qty 10000, 4%nat)
  else if Go.HasPrefix sym "BTC" then (floor_to qty 100000, 5%nat)
  else (floor_to qty 100, 2%nat).

(** [futuresQuantityPrecision], in float64: [math.Floor(qty*m) / m] with
    every product and quotient rounded, printed by
    [strconv.FormatFloat(qty, 'f', decimals, 64)]. *)
Definition futuresQuantityPrecision (symbol : string) (qty : float) : string :=
  let sym := Go.ToUpper symbol in
  let floor_at (m : Z) :=
    PrimFloat.div (F64.Floor (PrimFloat.mul qty (F64.of_Z m))) (F64.of_Z m) in
  let '(q, decimals) :=
    if Go.HasPrefix sym "DOGE" then (F64.Floor qty, 0%nat)
    else if Go.HasPrefix sym "XRP" then (floor_at 10%Z, 1%nat)
    else if Go.HasPrefix sym "BNB" || Go.HasPrefix sym "SOL" then (floor_at 100%Z, 2%nat)
    else if Go.HasPrefix sym "ETH" then (floor_at 1000%Z, 3%nat)
    else if Go.HasPrefix sym "BTC" then (floor_at 1000%Z, 3%nat)
    else (floor_at 100%Z, 2%nat) in
  F64.FormatFloat q decimals.

(** The spec's [floor_to_precision] read over exact reals, with the futures
    precision table; compared below with what the code computes. *)
Definition floor_to_precision_spec (symbol : string) (qty : Q) : Q * nat :=
  let sym := Go.ToUpper symbol in
  if Go.HasPrefix sym "DOGE" then (inject_Z (Qfloor qty), 0%nat)
  else if Go.HasPrefix sym "XRP" then (floor_to qty 10, 1%nat)
  else if Go.HasPrefix sym "BNB" || Go.HasPrefix sym "SOL" then (floor_to qty 100, 2%nat)
  else if Go.HasPrefix sym "ETH" then (floor_to qty 1000, 3%nat)
  else if Go.HasPrefix sym "BTC" then (floor_to qty 1000, 3%nat)
  else (floor_to qty 100, 2%nat).

(** The price the dry-run path uses: the hint, or a positive ticker price
    when the hint is not positive; also returns the ticker request issued. *)
Definition dry_run_price (env : Env) (url : string) (est : Q) : Q * list Request :=
  if Go.leb est 0 then
    let req := mkRequest "GET" url [] "" in
    match env_ticker env url with
    | Some price => if Go.ltb 0 price then (price, [req]) else (est, [req])
    | None => (est, [req])
    end
  else (est, []).

(** The order endpoint's reply, shared by both variants; [fills] computes
    the filled price and quantity from a decoded reply. *)
Definition finish (order : Order) (req : Request) (res : HttpResult)
           (fills : Order -> OrderReply -> Order) : Outcome :=
  match res with
  | HttpBuildError => mkOutcome order (Some "构建请求失败") []
  | HttpTransportError =>
      mkOutcome (set_status order "failed") (Some "Binance 请求失败") [req]
  | HttpReply code body decoded =>
      let order := set_fill order (o_status order) (ExchangeOrderID order)
                            (FilledPrice order) (FilledQuantity order) body in
      if (300 <=? code)%Z then
        mkOutcome (set_status order "rejected")
                  (Some ("Binance HTTP " ++ string_of_Z code ++ ": " ++ body)) [req]
      else
        match decoded with
        | Some r => mkOutcome (fills order r) None [req]
        | None => mkOutcome order None [req]
        end
  end.

Record BinanceExecutor := mkSpot {
  sp_baseURL : string;
  sp_apiKey : string;
  sp_secretKey : string;
  sp_dryRun : bool
}.

Definition spot_fills (order : Order) (r : OrderReply) : Order :=
  let exid := string_of_Z (r_order_id r) in
  let st := mapBinanceStatus (r_status r) in
  let totalQty := fold_left (fun acc f => acc + snd f) (r_fills r) 0 in
  let totalCost := fold_left (fun acc f => acc + fst f * snd f) (r_fills r) 0 in
  match r_fills r with
  | [] => set_fill order st exid (FilledPrice order) (FilledQuantity order) (RawResponse order)
  | _ =>
      if Go.ltb 0 totalQty
      then set_fill order st exid (totalCost / totalQty) totalQty (RawResponse order)
      else set_fill order st exid (FilledPrice order) (FilledQuantity order) (RawResponse order)
  end.

(** [BinanceExecutor.Execute]. *)
Definition spot_Execute (e : BinanceExecutor) (env : Env) (input : Input) : Outcome :=
  let order := mkOrder (env_order_id env) (in_cycle_id input) (in_signal_id input)
                 ("aq" ++ env_client_suffix env) (in_pair input) (in_side input)
                 (in_stake input) 0 "created" "" 0 0 "" in
  if sp_dryRun e then
    let url := "https://api.binance.com/api/v3/ticker/price?symbol="
               ++ pairToSymbol (in_pair input) in
    let '(estimatedFill, sent) := dry_run_price env url (in_estimated_fill input) in
    let qty :=
      if Go.ltb 0 estimatedFill && Side_eqb (in_side input) SideLong
      then in_stake input / estimatedFill
      else if Go.ltb 0 (in_sell_quantity input) then in_sell_quantity input
      else 0 in
    mkOutcome
      (set_fill order "simulated_filled" ("dryrun-" ++ env_order_id env) estimatedFill qty
                ("{" ++ dq ++ "mode" ++ dq ++ ":" ++ dq ++ "dry_run" ++ dq ++ "}"))
      None sent
  else if String.eqb (sp_apiKey e) "" || String.eqb (sp_secretKey e) "" then
    mkOutcome (set_status order "rejected") (Some "交易所 API Key 未配置，无法实盘下单") []
  else
    let symbol := pairToSymbol (in_pair input) in
    let side := if Side_eqb (in_side input) SideClose then "SELL" else "BUY" in
    let params :=
      [("symbol", PStr symbol); ("side", PStr side); ("type", PStr "MARKET");
       ("newClientOrderId", PStr (ClientOrderID order));
       ("timestamp", PStr (string_of_Z (env_now_ms env)))] in
    let sized :=
      if String.eqb side "BUY" then
        inr (params ++ [("quoteOrderQty", PDec (in_stake input) 2)])%list
      else if Go.ltb 0 (in_sell_quantity input) then
        let '(qtyFloat, decimals) := quantityPrecision symbol (in_sell_quantity input) in
        if Go.leb qtyFloat 0 then
          inl ("卖出数量不足: " ++ Go.format_fixed 8 (in_sell_quantity input) ++ " "
               ++ symbol ++ " 低于最小交易量 " ++ Go.format_fixed 0 (getMinQuantity symbol)
               ++ "（灰尘持仓无法交易）")
        else inr (params ++ [("quantity", PDec qtyFloat decimals)])%list
      else inr (params ++ [("quoteOrderQty", PDec (in_stake input) 2)])%list in
    match sized with
    | inl msg => mkOutcome (set_status order "rejected") (Some msg) []
    | inr ps =>
        let req := mkRequest "POST" (sp_baseURL e ++ "/api/v3/order")
                     (ps ++ [("signature", PSig (sp_secretKey e))])%list (sp_apiKey e) in
        finish order req (env_send env req) spot_fills
    end.

Record BinanceFuturesExecutor := mkFutures {
  fu_baseURL : string;
  fu_apiKey : string;
  fu_secretKey : string;
  fu_dryRun : bool;
  fu_leverage : Z;
  fu_marginType : string
}.

(** [NewFutures]' clamping of the configured leverage. *)
Definition clamp_leverage (l : Z) : Z :=
  let l := if (l <? 1)%Z then 3%Z else l in
  if (20 <? l)%Z then 20%Z else l.

Definition futures_fills (order : Order) (r : OrderReply) : Order :=
  set_fill order (mapBinanceStatus (r_status r)) (string_of_Z (r_order_id r))
    (match r_avg_price r with Some p => p | None => FilledPrice order end)
    (match r_executed_qty r with Some q => q | None => FilledQuantity order end)
    (RawResponse order).

(** [BinanceFuturesExecutor.Execute]. *)
Definition futures_Execute (e : BinanceFuturesExecutor) (env : Env) (input : Input)
  : Outcome :=
  let lev := inject_Z (fu_leverage e) in
  let order := mkOrder (env_order_id env) (in_cycle_id input) (in_signal_id input)
                 ("aq" ++ env_client_suffix env) (in_pair input) (in_side input)
                 (in_stake input) (fu_leverage e) "created" "" 0 0 "" in
  if fu_dryRun e then
    let url := fu_baseURL e ++ "/fapi/v1/ticker/price?symbol="
               ++ Go.drop_slash (Go.ToUpper (in_pair input)) in
    let '(estimatedFill, sent) := dry_run_price env url (in_estimated_fill input) in
    let qty :=
      if Go.ltb 0 estimatedFill && Side_eqb (in_side input) SideLong
      then (in_stake input * lev) / estimatedFill
      else if Go.ltb 0 (in_sell_quantity input) then in_sell_quantity input
      else 0 in
    mkOutcome
      (set_fill order "simulated_filled" ("dryrun-futures-" ++ env_order_id env)
                estimatedFill qty
                ("{" ++ dq ++ "mode" ++ dq ++ ":" ++ dq ++ "dry_run" ++ dq ++ ","
                 ++ dq ++ "leverage" ++ dq ++ ":" ++ string_of_Z (fu_leverage e) ++ "}"))
      None sent
  else if String.eqb (fu_apiKey e) "" || String.eqb (fu_secretKey e) "" then
    mkOutcome (set_status order "rejected") (Some "交易所 API Key 未配置，无法实盘下单") []
  else
    let symbol := Go.drop_slash (Go.ToUpper (in_pair input)) in
    let side := if Side_eqb (in_side input) SideClose then "SELL" else "BUY" in
    let params :=
      [("symbol", PStr symbol); ("side", PStr side); ("type", PStr "MARKET");
       ("newClientOrderId", PStr (ClientOrderID order));
       ("timestamp", PStr (string_of_Z (env_now_ms env)))] in
    let sized :=
      if String.eqb side "BUY" then
        if Go.ltb 0 (in_estimated_fill input) then
          let rawQty := PrimFloat.div (PrimFloat.mul (F64.of_Q (in_stake input))
                                                     (F64.of_Z (fu_leverage e)))
                                      (F64.of_Q (in_estimated_fill input)) in
          inr (params ++ [("quantity", PStr (futuresQuantityPrecision symbol rawQty))])%list
        else inl "无法计算开仓数量：缺少价格数据"
      else
        let params := (params ++ [("reduceOnly", PStr "true")])%list in
        if Go.ltb 0 (in_sell_quantity input) then
          let qty := futuresQuantityPrecision symbol (F64.of_Q (in_sell_quantity input)) in
          inr (params ++ [("quantity", PStr qty)])%list
        else inl "平仓缺少数量参数" in
    match sized with
    | inl msg => mkOutcome (set_status order "rejected") (Some msg) []
    | inr ps =>
        let req := mkRequest "POST" (fu_baseURL e ++ "/fapi/v1/order")
                     (ps ++ [("signature", PSig (fu_secretKey e))])%list (fu_apiKey e) in
        finish order req (env_send env req) futures_fills
    end.

End Exec.

(* ------------------------------------------------------------------ *)
(** ** The LLM signal agent ([auth.LangChainAgent]) *)

Module SignalAgent.

(** [strings.TrimSpace] on ASCII white space (tab, LF, VT, FF, CR, space). *)
Definition is_space (c : ascii) : bool :=
  let n := nat_of_ascii c in
  (Nat.eqb n 32 || ((9 <=? n) && (n <=? 13)))%nat.

Fixpoint trim_left (s : string) : string :=
  match s with
  | EmptyString => EmptyString
  | String c r => if is_space c then trim_left r else s
  end.

Fixpoint trim_right (s : string) : string :=
  match s with
  | EmptyString => EmptyString
  | String c r =>
      let r' := trim_right r in
      if String.eqb r' "" && is_space c then EmptyString else String c r'
  end.

Definition TrimSpace (s : string) : string := trim_right (trim_left s).

(** [strings.ToLower] on ASCII text. *)
Definition lower_char (c : ascii) : ascii :=
  let n := nat_of_ascii c in
  if ((65 <=? n) && (n <=? 90))%nat then ascii_of_nat (n + 32) else c.

Fixpoint ToLower (s : string) : string :=
  match s with
  | EmptyString => EmptyString
  | String c r => String (lower_char c) (ToLower r)
  end.

(** [regexp.MustCompile(`(?s)\{.*\}`).FindString]: the leftmost match starts
    at the first ["{"] and, greedily, ends at the last ["}"] after it; [""]
    when there is none. *)
Fixpoint upto_last_close (t : string) : option string :=
  match t with
  | EmptyString => None
  | String c r =>
      match upto_last_close r with
      | Some p => Some (String c p)
      | None => if Ascii.eqb c "}"%char then Some (String c EmptyString) else None
      end
  end.

Fixpoint from_first_open (s : string) : option string :=
  match s with
  | EmptyString => None
  | String c r => if Ascii.eqb c "{"%char then Some s else from_first_open r
  end.

Definition FindString (s : string) : string :=
  match from_first_open s with
  | Some t => match upto_last_close t with Some m => m | None => "" end
  | None => ""
  end.

Record llmResponse := mkLLMResponse {
  lr_Signal : string;
  lr_Side : string;
  lr_Coin : string;
  lr_Confidence : Q;
  lr_Thinking : string;
  lr_Reason : string;
  lr_Justification : string;
  lr_TTLSeconds : Z
}.

(** [json.Unmarshal] into a fresh [llmResponse]: the error text or the
    decoded value. *)
Definition JsonDecoder := string -> string + llmResponse.

(** [parseLLMOutput]. *)
Definition parseLLMOutput (json : JsonDecoder) (raw : string) : string + llmResponse :=
  let clean := TrimSpace raw in
  match json clean with
  | inr out => inr out
  | inl _ =>
      let m := FindString clean in
      if String.eqb m "" then inl "大模型响应中未找到JSON对象"
      else match json m with
           | inl err => inl ("解析大模型JSON输出失败: " ++ err)
           | inr out => inr out
           end
  end.

(** [normalizeSide]. *)
Definition side_of (s : string) : option Side :=
  if String.eqb s "long" || String.eqb s "buy" || String.eqb s "buy_to_enter"
  then Some SideLong
  else if String.eqb s "close" || String.eqb s "sell" || String.eqb s "sell_to_exit"
  then Some SideClose
  else None.

Definition normalizeSide (side signal : string) : Side :=
  match side_of (ToLower (TrimSpace side)) with
  | Some s => s
  | None =>
      match side_of (ToLower (TrimSpace signal)) with
      | Some s => s
      | None => SideNone
      end
  end.

(** [trimReason]: at most 500 bytes. *)
Definition trimReason (reason : string) : string :=
  let clean := TrimSpace reason in
  if String.eqb clean "" then "模型未给出理由"
  else if (String.length clean <=? 500)%nat then clean
  else String.substring 0 500 clean.

Definition clamp (v min max : Q) : Q :=
  if Go.ltb v min then min else if Go.ltb max v then max else v.

Definition clampInt (v min max : Z) : Z :=
  if (v <? min)%Z then min else if (max <? v)%Z then max else v.

(** The dynamic values of [GenerationInfo] that [toInt] distinguishes. *)
Inductive Any := AnyNil | AnyInt (n : Z) | AnyInt64 (n : Z) | AnyFloat64 (x : Q)
               | AnyOther.

Definition toInt (v : Any) : Z :=
  match v with
  | AnyInt n | AnyInt64 n => n
  | AnyFloat64 x => Z.quot (Qnum x) (Zpos (Qden x))
  | AnyNil | AnyOther => 0
  end.

(** A Go [map[string]any]; [None] is the nil map, a missing key reads nil. *)
Definition lookup_any (info : list (string * Any)) (k : string) : Any :=
  match find (fun kv => String.eqb (fst kv) k) info with
  | Some (_, v) => v
  | None => AnyNil
  end.

Definition extractTokenUsage (info : option (list (string * Any))) : Z * Z * Z :=
  match info with
  | None => (0, 0, 0)%Z
  | Some m =>
      let prompt := toInt (lookup_any m "PromptTokens") in
      let completion := toInt (lookup_any m "CompletionTokens") in
      let total := toInt (lookup_any m "TotalTokens") in
      if (total =? 0)%Z && ((0 <? prompt)%Z || (0 <? completion)%Z)
      then (prompt, completion, prompt + completion)%Z
      else (prompt, completion, total)
  end.

Record Choice := mkChoice {
  ch_Content : string;
  ch_GenerationInfo : option (list (string * Any))
}.

(** [model.GenerateContent]: an error (with its text) or the choices. *)
Inductive LLMResult := LLMError (msg : string) | LLMResponse (choices : list Choice).

Record Agent := mkAgent {
  systemPrompt : string;
  tradingMode : string;
  leverage : Z;
  modelName : string
}.

Record Input := mkInput {
  in_CycleID : string;
  in_Pair : string;
  in_LastPrice : Q;
  in_Change24h : Q;
  in_Volume24h : Q;
  in_FundingRate : Q
}.

(** The world seen by one [Generate] call: the fresh UUID, the outcome of
    [buildUserPrompt] (its error text or the prompt; it reads the market
    client and the account callback), the model and the JSON decoder. *)
Record Env := mkEnv {
  env_uuid : string;
  env_user_prompt : string + string;
  env_model : string -> string -> LLMResult;
  env_json : JsonDecoder
}.

Definition nl : string := String (ascii_of_nat 10) EmptyString.

(** [buildSimplePrompt]. *)
Definition buildSimplePrompt (input : Input) : string :=
  "请分析并给出交易决策（交易对=" ++ in_Pair input ++ "）。" ++ nl ++
  "last_price=" ++ Go.format_fixed 8 (in_LastPrice input) ++
  " change_24h=" ++ Go.format_fixed 4 (in_Change24h input) ++
  " volume_24h=" ++ Go.format_fixed 4 (in_Volume24h input) ++
  " funding_rate=" ++ Go.format_fixed 6 (in_FundingRate input) ++ nl ++ nl ++
  "请严格输出 JSON，reason/justification 必须为中文。".

(** [fallbackGenerate]. *)
Definition fallbackGenerate (env : Env) (input : Input) (reason : string)
  : Signal * option string :=
  (mkSignal (env_uuid env) (in_CycleID input) (in_Pair input) SideNone 0
     ("大模型不可用，自动跳过本轮: " ++ trimReason reason) "" 0 0 0 "fallback" 60,
   None).

Section Generate.

(** [adaptSystemPrompt]: the configured system prompt, rewritten for
    futures mode by a fixed list of [strings.Replace] calls. *)
Variable adaptSystemPrompt : Agent -> string.

(** [LangChainAgent.Generate]. *)
Definition Generate (a : Agent) (env : Env) (input : Input) : Signal * option string :=
  let userPrompt :=
    match env_user_prompt env with
    | inl _ => buildSimplePrompt input
    | inr p => p
    end in
  let sysPrompt := adaptSystemPrompt a in
  match env_model env sysPrompt userPrompt with
  | LLMError msg => fallbackGenerate env input ("大模型调用失败: " ++ msg)
  | LLMResponse [] => fallbackGenerate env input "大模型返回空结果"
  | LLMResponse (choice :: _) =>
      let '(promptTokens, completionTokens, totalTokens) :=
        extractTokenUsage (ch_GenerationInfo choice) in
      match parseLLMOutput (env_json env) (ch_Content choice) with
      | inl err => fallbackGenerate env input ("解析大模型输出失败: " ++ err)
      | inr parsed =>
          let side := normalizeSide (lr_Side parsed) (lr_Signal parsed) in
          let confidence :=
            if Side_eqb side SideNone then Qmin (lr_Confidence parsed) (55 # 100)
            else lr_Confidence parsed in
          let reason :=
            if String.eqb (lr_Reason parsed) "" then lr_Justification parsed
            else lr_Reason parsed in
          let thinking :=
            if String.eqb (lr_Thinking parsed) "" &&
               (String.length (lr_Reason parsed) <? String.length (lr_Justification parsed))%nat
            then lr_Justification parsed else lr_Thinking parsed in
          (mkSignal (env_uuid env) (in_CycleID input) (in_Pair input) side
             (clamp confidence 0 1) (trimReason reason) thinking
             promptTokens completionTokens totalTokens (modelName a)
             (clampInt (lr_TTLSeconds parsed) 60 1800),
           None)
      end
  end.

End Generate.

End SignalAgent.

(* ------------------------------------------------------------------ *)
(** ** Indicators ([market.EMA], [market.MACD]) *)

Module Indicators.

Section Kit.

(** The float64 operations the indicator code uses; instantiated below
    with exact rationals and with IEEE binary64. *)
Variable R : Type.
Variables (add sub mul div : R -> R -> R) (zero one two : R).
(** [float64(i)] of a Go [int]. *)
Variable of_Z : Z -> R.

(** [out[i] = prices[i]*k + out[i-1]*(1-k)] for [i = 1 .. n-1]. *)
Fixpoint ema_from (k prev : R) (xs : list R) : list R :=
  match xs with
  | [] => []
  | x :: r =>
      let v := add (mul x k) (mul prev (sub one k)) in
      v :: ema_from k v r
  end.

(** [EMA(prices, period)]; [nil] is the empty list. *)
Definition EMA (prices : list R) (period : Z) : list R :=
  let n := Z.of_nat (List.length prices) in
  if (n =? 0)%Z || (period <=? 0)%Z then []
  else
    let k := div two (of_Z (period + 1)) in
    let seedLen := if (n <? period)%Z then n else period in
    let seed := fold_left add (firstn (Z.to_nat seedLen) prices) zero in
    match prices with
    | [] => []
    | _ :: rest =>
        let out0 := div seed (of_Z seedLen) in
        out0 :: ema_from k out0 rest
    end.

Fixpoint sub_each (a b : list R) : list R :=
  match a, b with
  | x :: a', y :: b' => sub x y :: sub_each a' b'
  | _, _ => []
  end.

(** [MACD(prices)]: [ema12[i] - ema26[i]] for [i < len(prices)]. *)
Definition MACD (prices : list R) : list R :=
  sub_each (EMA prices 12) (EMA prices 26).

End Kit.

(** Real-number reading: exact rationals. *)
Definition EMA_Q := EMA Q Qplus Qminus Qmult Qdiv 0 1 2 inject_Z.
Definition MACD_Q := MACD Q Qplus Qminus Qmult Qdiv 0 1 2 inject_Z.

(** Go's float64: IEEE binary64 with round-to-nearest-even. *)
Definition float_of_Z (z : Z) : float := PrimFloat.of_uint63 (Uint63.of_Z z).
Definition EMA_F :=
  EMA float PrimFloat.add PrimFloat.sub PrimFloat.mul PrimFloat.div
    (float_of_Z 0) (float_of_Z 1) (float_of_Z 2) float_of_Z.
Definition MACD_F :=
  MACD float PrimFloat.add PrimFloat.sub PrimFloat.mul PrimFloat.div
    (float_of_Z 0) (float_of_Z 1) (float_of_Z 2) float_of_Z.

(** The float64 nearest to 0.1 (Go's constant [0.1]). *)
Definition tenth : float := PrimFloat.div (float_of_Z 1) (float_of_Z 10).

(** [RSI(prices, period)] over exact rationals.  [changes] are the
    differences [prices[i] - prices[i-1]] for [i = 1 .. n-1]. *)
Fixpoint changes (prev : Q) (xs : list Q) : list Q :=
  match xs with
  | [] => []
  | x :: r => (x - prev) :: changes x r
  end.

(** [if avgLoss == 0 { 100 } else { 100 - 100/(1+avgGain/avgLoss) }]. *)
Definition rsi_of (avgGain avgLoss : Q) : Q :=
  if Qeq_bool avgLoss 0 then 100
  else 100 - 100 / (1 + avgGain / avgLoss).

(** The loop over the first [initLen] changes: [(avgGain, avgLoss)]
    before the division by [period]. *)
Definition init_sums (cs : list Q) : Q * Q :=
  fold_left (fun '(g, l) c => if Go.ltb 0 c then (g + c, l) else (g, l + Qabs c))
    cs (0, 0).

(** The Wilder-smoothing loop for [i = initLen+1 .. n-1]. *)
Fixpoint rsi_from (p avgGain avgLoss : Q) (cs : list Q) : list Q :=
  match cs with
  | [] => []
  | c :: r =>
      let gain := if Go.ltb 0 c then c else 0 in
      let loss := if Go.ltb 0 c then 0 else Qabs c in
      let g := (avgGain * (p - 1) + gain) / p in
      let l := (avgLoss * (p - 1) + loss) / p in
      rsi_of g l :: rsi_from p g l r
  end.

(** [out[0] = 50], [out[1 .. initLen-1]] filled with [out[initLen]],
    then [out[initLen]] and the smoothed values. *)
Definition RSI (prices : list Q) (period : Z) : list Q :=
  let n := List.length prices in
  if (n <? 2)%nat || (period <=? 0)%Z then repeat 0 n
  else
    let initLen := if (Z.of_nat n <=? period)%Z then (n - 1)%nat else Z.to_nat period in
    let cs := match prices with [] => [] | x :: r => changes x r end in
    let '(g, l) := init_sums (firstn initLen cs) in
    let p := inject_Z period in
    let v := rsi_of (g / p) (l / p) in
    50 :: repeat v (initLen - 1) ++ v :: rsi_from p (g / p) (l / p) (skipn initLen cs).

(** The true ranges [tr[i]] for [i = 1 .. n-1]: [highs[i]], [lows[i]]
    against the previous close. *)
Fixpoint true_ranges (prevClose : Q) (hs ls cs : list Q) : list Q :=
  match hs, ls, cs with
  | h :: hs', l :: ls', c :: cs' =>
      Qmax (h - l) (Qmax (Qabs (h - prevClose)) (Qabs (l - prevClose)))
        :: true_ranges c hs' ls' cs'
  | _, _, _ => []
  end.

(** [ATR(highs, lows, closes, period)]; [None] is Go's index-out-of-range
    panic when [highs] or [lows] is shorter than [closes]. *)
Definition ATR (highs lows closes : list Q) (period : Z) : option (list Q) :=
  let n := List.length closes in
  if (n <? 2)%nat || (period <=? 0)%Z then Some (repeat 0 n)
  else if (List.length highs <? n)%nat || (List.length lows <? n)%nat then None
  else
    match highs, lows, closes with
    | h0 :: hs, l0 :: ls, c0 :: cs =>
        Some (EMA_Q ((h0 - l0) :: true_ranges c0 hs ls cs) period)
    | _, _, _ => None
    end.

End Indicators.

(* ------------------------------------------------------------------ *)
(** ** News-title sanitizer ([sanitizeNewsTitle]) *)

Module Sanitizer.

(** The [strings.NewReplacer] argument pairs, in order. *)
Definition table : list (string * string) :=
  [("hack", "security incident"); ("Hack", "Security Incident");
   ("HACK", "SECURITY INCIDENT");
   ("scam", "fraud risk"); ("Scam", "Fraud Risk"); ("SCAM", "FRAUD RISK");
   ("kill", "eliminate"); ("Kill", "Eliminate");
   ("attack", "incident"); ("Attack", "Incident");
   ("bomb", "surge"); ("Bomb", "Surge");
   ("crash", "sharp decline"); ("Crash", "Sharp Decline");
   ("drug", "substance"); ("Drug", "Substance");
   ("terror", "risk event"); ("Terror", "Risk Event");
   ("war", "conflict"); ("War", "Conflict");
   ("weapon", "tool"); ("Weapon", "Tool");
   ("launder", "transfer"); ("Launder", "Transfer");
   ("ponzi", "pyramid scheme"); ("Ponzi", "Pyramid Scheme")].

Fixpoint drop (n : nat) (s : string) : string :=
  match n, s with
  | O, _ => s
  | S n', String _ r => drop n' r
  | S _, EmptyString => EmptyString
  end.

(** The generic replacer's lookup: among the old strings that are a prefix
    of the remaining input, the one listed first. *)
Definition lookup (pairs : list (string * string)) (s : string)
  : option (string * string) :=
  find (fun p => String.prefix (fst p) s) pairs.

(** [genericReplacer.Replace]: scan left to right; at each position
    replace the selected match and skip past it, otherwise copy one byte.
    [fuel] bounds the number of steps (the input length suffices, as every
    old string is non-empty). *)
Fixpoint replace_go (pairs : list (string * string)) (fuel : nat) (s : string) : string :=
  match fuel with
  | O => s
  | S f =>
      match s with
      | EmptyString => EmptyString
      | String c r =>
          match lookup pairs s with
          | Some (old, new) => new ++ replace_go pairs f (drop (String.length old) s)
          | None => String c (replace_go pairs f r)
          end
      end
  end.

Definition Replace (pairs : list (string * string)) (s : string) : string :=
  replace_go pairs (String.length s) s.

(** [sanitizeNewsTitle]. *)
Definition sanitizeNewsTitle (title : string) : string := Replace table title.

End Sanitizer.

(* ------------------------------------------------------------------ *)
(** ** Account endpoints of the executors ([FetchAccountBalances],
    [FetchFullBalance], [fetchFuturesBalance], [FetchPositionRisk],
    [FetchTradeHistory]) *)

Module Account.

Record Balance := mkBalance {
  b_Symbol : string;
  Free : Q;
  Locked : Q;
  Total : Q
}.

Record Trade := mkTrade {
  TradeID : Z;
  t_OrderID : Z;
  t_Symbol : string;
  t_Price : Q;
  t_Quantity : Q;
  t_QuoteQty : Q;
  IsBuyer : bool;
  t_Timestamp : Z
}.

(** The one signed GET each function issues: [http.NewRequestWithContext]
    or [httpClient.Do] failing with an error text, or a response with its
    status, the body [io.ReadAll] returned (and its error, if any) and the
    JSON decoding of the body (the decoder's error text, or the value;
    unparsable number strings already read as 0, as [strconv.ParseFloat]'s
    ignored error leaves them). *)
Inductive Reply (A : Type) :=
| NewRequestError (err : string)
| DoError (err : string)
| Response (code : Z) (body : string) (read_err : option string) (decoded : string + A).
Arguments NewRequestError {A} err.
Arguments DoError {A} err.
Arguments Response {A} code body read_err decoded.

(** A spot [balances] entry: asset, free, locked. *)
Record RawSpotBalance := mkRawSpot { rs_Asset : string; rs_Free : Q; rs_Locked : Q }.

(** The loop shared by the two spot functions: [total := free + locked],
    appended when [keep asset total]. *)
Fixpoint spot_collect (keep : string -> Q -> bool) (raw : list RawSpotBalance) : list Balance :=
  match raw with
  | [] => []
  | b :: r =>
      let total := rs_Free b + rs_Locked b in
      if keep (rs_Asset b) total
      then mkBalance (rs_Asset b) (rs_Free b) (rs_Locked b) total :: spot_collect keep r
      else spot_collect keep r
  end.

(** [BinanceExecutor.FetchAccountBalances]. *)
Definition FetchAccountBalances (e : Exec.BinanceExecutor) (res : Reply (list RawSpotBalance))
  : string + list Balance :=
  if String.eqb (Exec.sp_apiKey e) "" || String.eqb (Exec.sp_secretKey e) "" then
    inl "交易所 API Key 未配置，无法查询余额"
  else
    match res with
    | NewRequestError err => inl ("构建请求失败: " ++ err)
    | DoError err => inl ("Binance 请求失败: " ++ err)
    | Response code body (Some err) _ => inl ("读取响应失败: " ++ err)
    | Response code body None decoded =>
        if negb (code =? 200)%Z then
          inl ("Binance HTTP " ++ Exec.string_of_Z code ++ ": " ++ body)
        else
          match decoded with
          | inl err => inl ("解析响应失败: " ++ err)
          | inr raw =>
              inr (spot_collect
                     (fun asset total =>
                        Go.ltb 0 total && negb (String.eqb asset "USDT")
                        && negb (String.eqb asset "BNB") && negb (String.eqb asset "LDUSDT"))
                     raw)
          end
    end.

(** [BinanceExecutor.FetchFullBalance]: the same request, every asset
    with a positive total, errors returned unwrapped. *)
Definition FetchFullBalance (e : Exec.BinanceExecutor) (res : Reply (list RawSpotBalance))
  : string + list Balance :=
  if String.eqb (Exec.sp_apiKey e) "" || String.eqb (Exec.sp_secretKey e) "" then
    inl "交易所 API Key 未配置"
  else
    match res with
    | NewRequestError err => inl err
    | DoError err => inl err
    | Response code body (Some err) _ => inl err
    | Response code body None decoded =>
        if negb (code =? 200)%Z then
          inl ("Binance HTTP " ++ Exec.string_of_Z code ++ ": " ++ body)
        else
          match decoded with
          | inl err => inl err
          | inr raw => inr (spot_collect (fun _ total => Go.ltb 0 total) raw)
          end
    end.

(** A futures [/fapi/v2/balance] entry: asset, balance, availableBalance. *)
Record RawFuturesBalance := mkRawFutures { rf_Asset : string; rf_Balance : Q; rf_Available : Q }.

Fixpoint futures_collect (includeAll : bool) (raw : list RawFuturesBalance) : list Balance :=
  match raw with
  | [] => []
  | b :: r =>
      let total := rf_Balance b in
      let free := rf_Available b in
      if negb includeAll && Qeq_bool total 0 then futures_collect includeAll r
      else if includeAll || String.eqb (rf_Asset b) "USDT" || Go.ltb 0 total
      then mkBalance (rf_Asset b) free (total - free) total :: futures_collect includeAll r
      else futures_collect includeAll r
  end.

(** [BinanceFuturesExecutor.fetchFuturesBalance]; [FetchAccountBalances]
    passes [false], [FetchFullBalance] [true].  The body is read only for
    an error status, and its read error is ignored there. *)
Definition fetchFuturesBalance (e : Exec.BinanceFuturesExecutor) (includeAll : bool)
           (res : Reply (list RawFuturesBalance)) : string + list Balance :=
  if Exec.fu_dryRun e then inr [mkBalance "USDT" 1000 0 1000]
  else
    match res with
    | NewRequestError err => inl err
    | DoError err => inl err
    | Response code body _ decoded =>
        if (300 <=? code)%Z then inl ("HTTP " ++ Exec.string_of_Z code ++ ": " ++ body)
        else
          match decoded with
          | inl err => inl err
          | inr raw => inr (futures_collect includeAll raw)
          end
    end.

(** [strings.EqualFold] on ASCII text. *)
Definition EqualFold (s t : string) : bool := String.eqb (Go.ToUpper s) (Go.ToUpper t).

(** [BinanceFuturesExecutor.FetchPositionRisk]: the [positionAmt] of the
    first entry whose symbol matches, as an absolute value; 0 when none. *)
Definition FetchPositionRisk (e : Exec.BinanceFuturesExecutor) (pair : string)
           (res : Reply (list (string * Q))) : string + Q :=
  if Exec.fu_dryRun e then inr 0
  else
    let symbol := Go.drop_slash (Go.ToUpper pair) in
    match res with
    | NewRequestError err => inl err
    | DoError err => inl err
    | Response code body _ decoded =>
        if (300 <=? code)%Z then inl ("HTTP " ++ Exec.string_of_Z code ++ ": " ++ body)
        else
          match decoded with
          | inl err => inl err
          | inr positions =>
              match find (fun p => EqualFold (fst p) symbol) positions with
              | Some p => inr (Qabs (snd p))
              | None => inr 0
              end
          end
    end.

(** A spot [/api/v3/myTrades] entry. *)
Record RawTrade := mkRawTrade {
  rt_ID : Z;
  rt_OrderID : Z;
  rt_Price : Q;
  rt_Qty : Q;
  rt_QuoteQty : Q;
  rt_Time : Z;
  rt_IsBuyer : bool
}.

(** [BinanceExecutor.FetchTradeHistory], with the requests it issued
    ([now_ms] is [time.Now().UnixMilli()]). *)
Definition FetchTradeHistory (e : Exec.BinanceExecutor) (now_ms : Z) (pair : string) (limit : Z)
           (res : Reply (list RawTrade)) : list Exec.Request * (string + list Trade) :=
  if String.eqb (Exec.sp_apiKey e) "" || String.eqb (Exec.sp_secretKey e) "" then
    ([], inl "交易所 API Key 未配置")
  else
    let limit := if (limit <=? 0)%Z || (1000 <? limit)%Z then 500%Z else limit in
    let symbol := Exec.pairToSymbol pair in
    let req := Exec.mkRequest "GET" (Exec.sp_baseURL e ++ "/api/v3/myTrades")
                 [("symbol", Exec.PStr symbol); ("limit", Exec.PStr (Exec.string_of_Z limit));
                  ("timestamp", Exec.PStr (Exec.string_of_Z now_ms));
                  ("signature", Exec.PSig (Exec.sp_secretKey e))]
                 (Exec.sp_apiKey e) in
    match res with
    | NewRequestError err => ([], inl ("构建请求失败: " ++ err))
    | DoError err => ([req], inl ("Binance 请求失败: " ++ err))
    | Response code body (Some err) _ => ([req], inl ("读取响应失败: " ++ err))
    | Response code body None decoded =>
        if negb (code =? 200)%Z then
          ([req], inl ("Binance HTTP " ++ Exec.string_of_Z code ++ ": " ++ body))
        else
          match decoded with
          | inl err => ([req], inl ("解析响应失败: " ++ err))
          | inr raw =>
              ([req], inr (map (fun r => mkTrade (rt_ID r) (rt_OrderID r) symbol (rt_Price r)
                                          (rt_Qty r) (rt_QuoteQty r) (rt_IsBuyer r) (rt_Time r))
                             raw))
          end
    end.

End Account.

(* ------------------------------------------------------------------ *)
(** ** Rule-based signal agent ([RuleBasedAgent.Generate]) *)

Module RuleSignal.

(** [uuid] is the fresh signal id. *)
Definition Generate (uuid : string) (input : SignalAgent.Input) : Signal :=
  let change := SignalAgent.in_Change24h input in
  let funding := SignalAgent.in_FundingRate input in
  let '(side, confidence, reason) := (SideNone, 1 # 2, "市场中性，无明确方向") in
  let '(side, confidence, reason) :=
    if Go.leb (12 # 10) change && Go.leb funding (1 # 100) then
      (SideLong, SignalAgent.clamp ((55 # 100) + Qabs change / 25) (55 # 100) (9 # 10),
       "动量为正且资金费率可接受")
    else (side, confidence, reason) in
  let '(side, confidence, reason) :=
    if Go.leb change (- (12 # 10)) && Go.leb (- (1 # 100)) funding then
      (SideShort, SignalAgent.clamp ((55 # 100) + Qabs change / 25) (55 # 100) (9 # 10),
       "动量为负且资金费率可接受")
    else (side, confidence, reason) in
  mkSignal uuid (SignalAgent.in_CycleID input) (SignalAgent.in_Pair input) side confidence
    reason "" 0 0 0 "rule-based" 300.

End RuleSignal.

(* ------------------------------------------------------------------ *)
(** ** Scheduler pairs ([scheduler.New]) *)

Module Scheduler.



End Scheduler.

(* ------------------------------------------------------------------ *)
(** ** The orders table and what reads and writes it (store
    [InsertOrder], [OrderExistsByExchangeID], [ListPositions],
    [AggregateHoldingsFromOrders]; service [syncHoldingsFromOrders],
    [syncHoldingsFromExchange], [SyncTradesFromExchange]) *)

Module Store.

(** [string(side)]. *)
Definition side_string (s : Side) : string :=
  match s with
  | SideLong => "long"
  | SideShort => "short"
  | SideClose => "close"
  | SideNone => "none"
  end.

(** A row of [orders]; [None] is SQL [NULL]. *)
Record OrderRow := mkOrderRow {
  or_id : string;
  or_cycle_id : string;
  or_signal_id : string;
  or_client_order_id : string;
  or_pair : string;
  or_side : string;
  or_stake : Q;
  or_leverage : Z;
  or_status : string;
  or_exchange_order_id : option string;
  or_filled_price : option Q;
  or_filled_qty : option Q;
  or_raw_response : option string;
  or_created_at : Z
}.

Definition nullableString (v : string) : option string :=
  if String.eqb v "" then None else Some v.

Definition nullableFloat (v : Q) : option Q :=
  if Qeq_bool v 0 then None else Some v.

(** The row [InsertOrder] writes for [order] created at [created_at]. *)
Definition order_row (o : Order) (created_at : Z) : OrderRow :=
  mkOrderRow (o_id o) (o_cycle_id o) (o_signal_id o) (ClientOrderID o) (o_pair o)
    (side_string (o_side o)) (StakeUSDT o) (o_leverage o) (o_status o)
    (nullableString (ExchangeOrderID o)) (nullableFloat (FilledPrice o))
    (nullableFloat (FilledQuantity o)) (nullableString (RawResponse o)) created_at.

(** [SQLiteRepository.InsertOrder]: [None] is the constraint error of the
    [id] primary key or the [client_order_id UNIQUE] column (SQLite does
    not enforce the foreign keys unless asked to). *)
Definition InsertOrder (t : list OrderRow) (o : Order) (created_at : Z) : option (list OrderRow) :=
  if existsb (fun r => String.eqb (or_id r) (o_id o)
                       || String.eqb (or_client_order_id r) (ClientOrderID o)) t
  then None
  else Some (t ++ [order_row o created_at])%list.

(** [SQLiteRepository.OrderExistsByExchangeID]: a positive row count over
    [exchange_order_id = ?] ([NULL] never compares equal). *)
Definition OrderExistsByExchangeID (t : list OrderRow) (exid : string) : bool :=
  existsb (fun r => match or_exchange_order_id r with
                    | Some x => String.eqb x exid
                    | None => false
                    end) t.

Record SignalRow := mkSignalRow { sr_cycle_id : string; sr_reason : string; sr_confidence : Q }.
Record CycleStatusRow := mkCycleStatusRow { cs_id : string; cs_status : string }.

Record PositionView := mkPositionView {
  pv_OrderID : string;
  pv_CycleID : string;
  pv_Pair : string;
  pv_Side : string;
  pv_StakeUSDT : Q;
  pv_FilledPrice : Q;
  pv_FilledQuantity : Q;
  pv_Status : string;
  pv_ExchangeOrderID : string;
  pv_SignalReason : string;
  pv_Confidence : Q;
  pv_CycleStatus : string;
  pv_CreatedAt : Z
}.

(** The scan of one joined row, with the fallback quantity for a [NULL]
    [filled_qty]. *)
Definition scan_position (o : OrderRow) (s : SignalRow) (c : CycleStatusRow) : PositionView :=
  let price := match or_filled_price o with Some p => p | None => 0 end in
  let qty :=
    match or_filled_qty o with
    | Some q => q
    | None => if Go.ltb 0 price && Go.ltb 0 (or_stake o) then or_stake o / price else 0
    end in
  mkPositionView (or_id o) (or_cycle_id o) (or_pair o) (or_side o) (or_stake o) price qty
    (or_status o) (match or_exchange_order_id o with Some x => x | None => "" end)
    (sr_reason s) (sr_confidence s) (cs_status c) (or_created_at o).

(** [FROM orders o JOIN signals s ON s.cycle_id = o.cycle_id
    JOIN cycles c ON c.id = o.cycle_id]. *)
Definition join_positions (orders : list OrderRow) (signals : list SignalRow)
           (cycles : list CycleStatusRow) : list (OrderRow * SignalRow * CycleStatusRow) :=
  flat_map (fun o =>
    flat_map (fun s =>
      map (fun c => (o, s, c))
          (filter (fun c => String.eqb (cs_id c) (or_cycle_id o)) cycles))
      (filter (fun s => String.eqb (sr_cycle_id s) (or_cycle_id o)) signals))
    orders.

(** [SQLiteRepository.ListPositions]: [ORDER BY o.created_at DESC LIMIT ?]. *)
Definition ListPositions (orders : list OrderRow) (signals : list SignalRow)
           (cycles : list CycleStatusRow) (limit : Z) : list PositionView :=
  let limit := if (limit <=? 0)%Z then 50%Z else limit in
  let ordered := Holdings.sort_desc
                   (fun a b => (or_created_at (fst (fst b)) <=? or_created_at (fst (fst a)))%Z)
                   (join_positions orders signals cycles) in
  map (fun '(o, s, c) => scan_position o s c) (firstn (Z.to_nat limit) ordered).

(** The value of a [REAL] column the query has already required to be
    positive. *)
Definition num (v : option Q) : Q := match v with Some x => x | None => 0 end.

(** [WHERE status IN ('filled', 'simulated_filled') AND filled_qty > 0
    AND filled_price > 0 ORDER BY created_at ASC] (rows with equal
    [created_at] come in an unspecified order; here the later one first). *)
Definition aggregate_query (t : list OrderRow) : list OrderRow :=
  Holdings.sort_desc (fun a b => (or_created_at a <=? or_created_at b)%Z)
    (filter (fun r => (String.eqb (or_status r) "filled"
                       || String.eqb (or_status r) "simulated_filled")
                      && match or_filled_qty r with Some q => Go.ltb 0 q | None => false end
                      && match or_filled_price r with Some p => Go.ltb 0 p | None => false end)
            t).

(** The [pairMap] of per-pair accumulators [(qty, totalCost)], a Go map
    modelled as an association list in first-insertion order. *)
Definition PairMap := list (string * (Q * Q)).

Definition pm_get (k : string) (m : PairMap) : option (Q * Q) :=
  option_map snd (find (fun kv => String.eqb (fst kv) k) m).

Definition pm_set (k : string) (v : Q * Q) (m : PairMap) : PairMap :=
  if existsb (fun kv => String.eqb (fst kv) k) m
  then map (fun kv => if String.eqb (fst kv) k then (k, v) else kv) m
  else (m ++ [(k, v)])%list.

(** One iteration of the [rows.Next()] loop. *)
Definition acc_step (m : PairMap) (r : OrderRow) : PairMap :=
  let pair := or_pair r in
  let side := or_side r in
  let price := num (or_filled_price r) in
  let qty := num (or_filled_qty r) in
  let '(aqty, acost) := match pm_get pair m with Some a => a | None => (0, 0) end in
  let a' :=
    if String.eqb side "long" then (aqty + qty, acost + qty * price)
    else if String.eqb side "close" then
      let acost1 :=
        if Go.ltb 0 aqty then
          let ratio := qty / aqty in
          let ratio := if Go.ltb 1 ratio then 1 else ratio in
          acost - acost * ratio
        else acost in
      let aqty1 := aqty - qty in
      if Go.ltb aqty1 0 then (0, 0) else (aqty1, acost1)
    else (aqty, acost) in
  pm_set pair a' m.

(** The result loop: pairs with a positive quantity.  Go ranges over the
    map in an unspecified order; here in the order the pairs first
    appeared. *)
Fixpoint holdings_of (m : PairMap) : list Holding :=
  match m with
  | [] => []
  | (p, (q, c)) :: r =>
      if Go.leb q 0 then holdings_of r
      else mkHolding p (Holdings.split_base p) q (if Go.ltb 0 q then c / q else 0) c "local"
             :: holdings_of r
  end.

(** [SQLiteRepository.AggregateHoldingsFromOrders]. *)
Definition AggregateHoldingsFromOrders (t : list OrderRow) : list Holding :=
  holdings_of (fold_left acc_step (aggregate_query t) []).

(** [Service.syncHoldingsFromOrders]: upsert every aggregated holding. *)
Definition syncHoldingsFromOrders (ht : Holdings.Table) (t : list OrderRow) : Holdings.Table :=
  fold_left Holdings.UpsertHolding (AggregateHoldingsFromOrders t) ht.

(** [Service.syncHoldingsFromExchange], given the executor's
    [FetchAccountBalances] result; on its error it falls back to the
    orders. *)
Definition syncHoldingsFromExchange (ht : Holdings.Table) (balances : string + list Account.Balance)
           (t : list OrderRow) : Holdings.Table :=
  match balances with
  | inl _ => syncHoldingsFromOrders ht t
  | inr bs =>
      fold_left (fun ht b =>
                   Holdings.UpsertHolding ht
                     (mkHolding (Account.b_Symbol b ++ "/USDT") (Account.b_Symbol b)
                                (Account.Total b) 0 0 "exchange"))
                bs ht
  end.

(** [strings.Contains]. *)
Definition Contains (s sub : string) : bool :=
  match String.index 0 sub s with Some _ => true | None => false end.

(** [strings.TrimSuffix]. *)
Definition TrimSuffix (s suffix : string) : string :=
  let n := String.length s in
  let m := String.length suffix in
  if (m <=? n)%nat && String.eqb (String.substring (n - m) m s) suffix
  then String.substring 0 (n - m) s
  else s.

(** The order [SyncTradesFromExchange] builds for a trade, with [id] the
    fresh UUID. *)
Definition trade_order (id pair : string) (tr : Account.Trade) : Order :=
  let exID := "binance-" ++ Exec.string_of_Z (Account.TradeID tr) in
  let side := if Account.IsBuyer tr then SideLong else SideClose in
  let pairFmt :=
    if Contains pair "/" then pair
    else TrimSuffix (Account.t_Symbol tr) "USDT" ++ "/USDT" in
  mkOrder id "" "" ("binance-ord-" ++ Exec.string_of_Z (Account.t_OrderID tr)) pairFmt side
    (Account.t_QuoteQty tr) 0 "filled" exID (Account.t_Price tr) (Account.t_Quantity tr)
    ("{" ++ Exec.dq ++ "trade_id" ++ Exec.dq ++ ":" ++ Exec.string_of_Z (Account.TradeID tr)
     ++ "," ++ Exec.dq ++ "order_id" ++ Exec.dq ++ ":"
     ++ Exec.string_of_Z (Account.t_OrderID tr) ++ "}").

(** The import loop: [uuid k] is the [k]-th [uuid.NewString()] of the
    call; returns the number imported and the orders table. *)
Fixpoint import_trades (uuid : nat -> string) (k : nat) (pair : string)
         (t : list OrderRow) (trades : list Account.Trade) : Z * list OrderRow :=
  match trades with
  | [] => (0%Z, t)
  | tr :: rest =>
      let exID := "binance-" ++ Exec.string_of_Z (Account.TradeID tr) in
      if OrderExistsByExchangeID t exID then import_trades uuid k pair t rest
      else
        match InsertOrder t (trade_order (uuid k) pair tr) (Account.t_Timestamp tr) with
        | Some t' => let '(n, t'') := import_trades uuid (S k) pair t' rest in ((n + 1)%Z, t'')
        | None => import_trades uuid (S k) pair t rest
        end
  end.

(** [Service.SyncTradesFromExchange], given the executor's
    [FetchTradeHistory(pair, 500)] result: the count imported and the
    orders and holdings tables afterwards. *)
Definition SyncTradesFromExchange (t : list OrderRow) (ht : Holdings.Table) (uuid : nat -> string)
           (pair : string) (fetched : string + list Account.Trade)
  : string + (Z * list OrderRow * Holdings.Table) :=
  match fetched with
  | inl err => inl ("获取交易记录失败: " ++ err)
  | inr trades =>
      let '(imported, t') := import_trades uuid 0 pair t trades in
      inr (imported, t', if (0 <? imported)%Z then syncHoldingsFromOrders ht t' else ht)
  end.

End Store.

(* ------------------------------------------------------------------ *)
(** ** Paginated cycle listing (store [ListCycles], handler [listCycles]) *)

Module Cycles.

(** A row of the joined query; [created_at] as its sort key. *)
Record CycleRow := mkCycleRow {
  cr_id : string;
  cr_created_at : Z
}.

(** Go's 64-bit [int] arithmetic wraps. *)
Definition wrap64 (z : Z) : Z := ((z + 2 ^ 63) mod 2 ^ 64 - 2 ^ 63)%Z.

(** [SQLiteRepository.ListCycles]: [ORDER BY c.created_at DESC LIMIT ?
    OFFSET ?] over the joined rows (SQLite reads a negative OFFSET as 0;
    the LIMIT is positive here). *)
Definition ListCycles (rows : list CycleRow) (page pageSize : Z) : list CycleRow :=
  let page := if (page <? 1)%Z then 1%Z else page in
  let pageSize := if (pageSize <=? 0)%Z then 15%Z else pageSize in
  let offset := wrap64 ((page - 1) * pageSize) in
  let ordered := Holdings.sort_desc
                   (fun a b => (cr_created_at b <=? cr_created_at a)%Z) rows in
  firstn (Z.to_nat pageSize) (skipn (Z.to_nat (Z.max 0 offset)) ordered).

(** [strconv.Atoi]: an optional sign and at least one decimal digit,
    within the 64-bit range. *)
Fixpoint digits_val (s : string) (acc : Z) : option Z :=
  match s with
  | EmptyString => Some acc
  | String c r =>
      let n := nat_of_ascii c in
      if ((48 <=? n) && (n <=? 57))%nat
      then digits_val r (acc * 10 + Z.of_nat (n - 48))%Z
      else None
  end.

Definition Atoi (s : string) : option Z :=
  let v :=
    match s with
    | EmptyString => None
    | String c r =>
        if Ascii.eqb c "-"%char then
          (if String.eqb r "" then None else option_map Z.opp (digits_val r 0))
        else if Ascii.eqb c "+"%char then
          (if String.eqb r "" then None else digits_val r 0)
        else digits_val s 0
    end in
  match v with
  | Some n => if ((- 2 ^ 63 <=? n) && (n <? 2 ^ 63))%Z then Some n else None
  | None => None
  end.

(** [Handler.listCycles]' reading of the [page] and [page_size] query
    parameters ([c.Query] gives [""] when absent). *)
Definition handler_params (page_q page_size_q : string) : Z * Z :=
  let page :=
    if String.eqb page_q "" then 1%Z
    else match Atoi page_q with
         | Some n => if (0 <? n)%Z then n else 1%Z
         | None => 1%Z
         end in
  let pageSize :=
    if String.eqb page_size_q "" then 15%Z
    else match Atoi page_size_q with
         | Some n => if (0 <? n)%Z && (n <=? 100)%Z then n else 15%Z
         | None => 15%Z
         end in
  (page, pageSize).

(** The rows the handler returns: [Service.ListCycles] passes the
    parameters to the store unchanged. *)
Definition listCycles (rows : list CycleRow) (page_q page_size_q : string)
  : list CycleRow :=
  let '(page, pageSize) := handler_params page_q page_size_q in
  ListCycles rows page pageSize.

(** Row [a] may precede row [b] in a [created_at DESC] listing. *)
Definition created_desc (a b : CycleRow) : Prop :=
  (cr_created_at b <= cr_created_at a)%Z.

(** [n] rows with distinct creation times. *)
Definition sample_rows (n : nat) : list CycleRow :=
  map (fun i => mkCycleRow ("cycle-" ++ Exec.string_of_Z (Z.of_nat i)) (Z.of_nat i))
      (seq 0 n).

End Cycles.

(* ------------------------------------------------------------------ *)
(** ** Quantities and predicates the properties are stated with *)

Module Measures.

(** Every accumulator of a [pairMap] has a non-negative quantity and cost. *)
Definition acc_ok (m : Store.PairMap) : Prop :=
  Forall (fun kv => 0 <= fst (snd kv) /\ 0 <= snd (snd kv)) m.

(** No pair is a key of a [pairMap] twice. *)
Definition keys_nodup (m : Store.PairMap) : Prop := NoDup (map fst m).

(** The [client_order_id] [SyncTradesFromExchange] gives the order of a trade. *)
Definition trade_client (tr : Account.Trade) : string :=
  "binance-ord-" ++ Exec.string_of_Z (Account.t_OrderID tr).

(** The [exchange_order_id] [SyncTradesFromExchange] gives the order of a trade. *)
Definition trade_exid (tr : Account.Trade) : string :=
  "binance-" ++ Exec.string_of_Z (Account.TradeID tr).

(** A trade an orders table already accounts for: its exchange id is
    present, or its client order id is taken. *)
Definition trade_covered (t : list Store.OrderRow) (tr : Account.Trade) : Prop :=
  Store.OrderExistsByExchangeID t (trade_exid tr) = true \/
  In (trade_client tr) (map Store.or_client_order_id t).

(** The holding [syncHoldingsFromExchange] upserts for a balance. *)
Definition exchange_holding (b : Account.Balance) : Holding :=
  mkHolding (Account.b_Symbol b ++ "/USDT") (Account.b_Symbol b) (Account.Total b) 0 0 "exchange".

(** The row filter of [AggregateHoldingsFromOrders]' query. *)
Definition agg_counted (r : Store.OrderRow) : bool :=
  (String.eqb (Store.or_status r) "filled" || String.eqb (Store.or_status r) "simulated_filled")
  && match Store.or_filled_qty r with Some q => Go.ltb 0 q | None => false end
  && match Store.or_filled_price r with Some p => Go.ltb 0 p | None => false end.

(** The sum of [f] over rows. *)
Definition qsum (f : Store.OrderRow -> Q) (rows : list Store.OrderRow) : Q :=
  fold_right (fun r acc => f r + acc) 0 rows.

End Measures.

Import Measures.

(** Concrete executors, environments and inputs used as test vectors. *)
Module Samples.

(** Every ticker fetch fails and the order endpoint is unreachable. *)
Definition no_network : Exec.Env :=
  Exec.mkEnv "9f0c2a4e-0000-4000-8000-000000000001" "9f0c2a4e" 1700000000000
    (fun _ => None) (fun _ => Exec.HttpTransportError).

(** The order endpoint answers 200 with a body it cannot decode. *)
Definition accepting : Exec.Env :=
  Exec.mkEnv "9f0c2a4e-0000-4000-8000-000000000002" "5b1d7e90" 1700000000000
    (fun _ => None) (fun _ => Exec.HttpReply 200 "{}" None).

Definition spot_dry : Exec.BinanceExecutor :=
  Exec.mkSpot "https://api.binance.com" "" "" true.

Definition spot_live : Exec.BinanceExecutor :=
  Exec.mkSpot "https://api.binance.com" "api-key" "api-secret" false.

Definition futures_dry : Exec.BinanceFuturesExecutor :=
  Exec.mkFutures "https://fapi.binance.com" "" "" true 3 "CROSSED".

Definition futures_live : Exec.BinanceFuturesExecutor :=
  Exec.mkFutures "https://fapi.binance.com" "api-key" "api-secret" false 5 "CROSSED".

Definition long_negative_hint : Exec.Input :=
  Exec.mkInput "cycle-1" "signal-1" "DOGE/USDT" SideLong 50 (-1) 0.

Definition xrp_dust_sell : Exec.Input :=
  Exec.mkInput "cycle-2" "signal-2" "XRP/USDT" SideClose 10 0 (1 # 2).

Definition eth_long : Exec.Input :=
  Exec.mkInput "cycle-3" "signal-3" "ETH/USDT" SideLong 20 50 0.

(** A 58 USDT long on BNB/USDT with a 1000 USDT price hint. *)
Definition bnb_long : Exec.Input :=
  Exec.mkInput "cycle-5" "signal-5" "BNB/USDT" SideLong 58 1000 0.

(** Closing 0.5 ETH. *)
Definition eth_close : Exec.Input :=
  Exec.mkInput "cycle-6" "signal-6" "eth/usdt" SideClose 20 0 (1 # 2).

(** A model that answers with prose and no JSON object, and a decoder that
    accepts nothing. *)
Definition prose_model : SignalAgent.Env :=
  SignalAgent.mkEnv "3c5e8f10-0000-4000-8000-000000000003" (inl "timeout")
    (fun _ _ => SignalAgent.LLMResponse
                  [SignalAgent.mkChoice "I would hold for now." None])
    (fun _ => inl "invalid character").

Definition spot_agent : SignalAgent.Agent :=
  SignalAgent.mkAgent "You are a trading assistant." "spot" 1 "gpt-4o-mini".

Definition btc_input : SignalAgent.Input :=
  SignalAgent.mkInput "cycle-4" "BTC/USDT" 65000 (12 # 10) 1000 (1 # 10000).

Definition long_signal : Signal :=
  mkSignal "signal-5" "cycle-5" "SOL/USDT" SideLong (80 # 100) "breakout" "" 0 0 0
    "gpt-4o-mini" 300.

Definition sol_plan : Position.Input :=
  Position.mkInput "cycle-5" "signal-5" "SOL/USDT" SideLong long_signal 100 150 (2 # 100).

Definition eth_holding : Holding :=
  mkHolding "ETH/USDT" "ETH" 2 100 200 "exchange".

Definition eth_buy : Order :=
  mkOrder "order-6" "cycle-6" "signal-6" "aq6" "ETH/USDT" SideLong 110 0 "filled" "42"
    110 1 "".

(** A UUID source that never repeats: the [k]-th UUID carries [k] marks. *)
Fixpoint tally (k : nat) : string :=
  match k with O => EmptyString | S k => String "1" (tally k) end.

Definition trade_uuid (k : nat) : string := "uuid-" ++ tally k.

(** Three DOGE trades; the first two fill the same order 42. *)
Definition doge_trades : list Account.Trade :=
  [Account.mkTrade 101 42 "DOGEUSDT" (1 # 10) 100 10 true 1000;
   Account.mkTrade 102 42 "DOGEUSDT" (1 # 10) 50 5 true 1001;
   Account.mkTrade 103 43 "DOGEUSDT" (12 # 100) 150 18 false 2000].

(** A submitted BNB buy with a price but no filled quantity yet. *)
Definition pending_bnb : Order :=
  mkOrder "order-7" "cycle-7" "signal-7" "aq7" "BNB/USDT" SideLong 60 0 "submitted" "" 600 0 "".

(** A second filled ETH buy. *)
Definition eth_buy2 : Order :=
  mkOrder "order-8" "cycle-8" "signal-8" "aq8" "ETH/USDT" SideLong 90 0 "filled" "43" 90 1 "".

End Samples.

(* ================================================================== *)
(** * Properties *)

Ltac qcontra :=
  match goal with
  | H : ?x < ?y, H' : ?y <= ?x |- _ => exfalso; exact (Qlt_not_le _ _ H H')
  | H : 0 < Qmin _ ?r, H' : ?r <= 0 |- _ =>
      exfalso; apply Q.min_glb_lt_iff in H; destruct H as [_ H];
      exact (Qlt_not_le _ _ H H')
  end.

(** C1: the risk agent's [Evaluate] never returns an error; a side-none
    signal is rejected with max stake 0; a close is approved iff its
    confidence reaches the minimum, with max stake 0; a long is approved iff
    its confidence reaches the minimum, the daily PnL is above -|max daily
    loss| and cap = min(max single stake, max exposure - open exposure) is
    positive, and then its max stake is cap; every rejection has a non-empty
    reason. *)
Theorem risk_evaluate_correct :
  forall (a : Risk.RuleAgent) (fresh_id : string) (input : Risk.Input),
  let d := fst (Risk.Evaluate a fresh_id input) in
  let s := Risk.in_signal input in
  let p := Risk.in_portfolio input in
  let cap := Qmin (Risk.maxSingleStakeUSDT a)
                  (Risk.maxExposureUSDT a - OpenExposureUSDT p) in
  snd (Risk.Evaluate a fresh_id input) = None /\
  (sig_side s = SideNone -> Approved d = false /\ MaxStakeUSDT d = 0) /\
  (sig_side s = SideClose ->
     (Approved d = true <-> Risk.minConfidence a <= sig_confidence s) /\
     MaxStakeUSDT d = 0) /\
  (sig_side s = SideLong ->
     (Approved d = true <->
        Risk.minConfidence a <= sig_confidence s /\
        - Qabs (Risk.maxDailyLossUSDT a) < DailyPnLUSDT p /\
        0 < cap) /\
     (Approved d = true -> MaxStakeUSDT d = cap /\ MaxStakeUSDT d <= cap)) /\
  (Approved d = false -> RejectReason d <> "").
Proof.
  intros a fresh_id [cid s p]. cbn zeta.
  unfold Risk.Evaluate; cbn [Risk.in_signal Risk.in_portfolio].
  destruct (sig_side s) eqn:Hs; cbn [Side_eqb].
  - (* long *)
    destruct (Go.ltb (sig_confidence s) (Risk.minConfidence a)) eqn:Hc.
    { apply Go.ltb_true in Hc. cbn. intuition (try discriminate). qcontra. }
    apply Go.ltb_false in Hc.
    destruct (Go.leb (DailyPnLUSDT p) (- Qabs (Risk.maxDailyLossUSDT a))) eqn:Hl.
    { apply Go.leb_true in Hl. cbn. intuition (try discriminate). qcontra. }
    apply Go.leb_false in Hl.
    destruct (Go.leb (Risk.maxExposureUSDT a - OpenExposureUSDT p) 0) eqn:He.
    { apply Go.leb_true in He. cbn. intuition (try discriminate). qcontra. }
    apply Go.leb_false in He.
    destruct (Go.leb (Qmin (Risk.maxSingleStakeUSDT a)
                  (Risk.maxExposureUSDT a - OpenExposureUSDT p)) 0) eqn:Hm.
    { apply Go.leb_true in Hm. cbn. intuition (try discriminate). qcontra. }
    apply Go.leb_false in Hm. cbn.
    intuition (try discriminate). apply Qle_refl.
  - (* short: evaluated like long, nothing claimed about it *)
    repeat match goal with
    | |- context [if ?b then _ else _] => destruct b
    end; cbn; intuition discriminate.
  - (* close *)
    destruct (Go.ltb (sig_confidence s) (Risk.minConfidence a)) eqn:Hc; cbn.
    + apply Go.ltb_true in Hc. intuition (try discriminate). qcontra.
    + apply Go.ltb_false in Hc. intuition (try discriminate).
  - (* none *)
    cbn. intuition discriminate.
Qed.


Lemma selectStrategy_spec (c B : Q) :
  (75 # 100 <= c -> Position.selectStrategy c B = Position.StrategyFull) /\
  (60 # 100 <= c -> c < 75 # 100 -> Position.selectStrategy c B = Position.StrategyPyramid) /\
  (c < 60 # 100 -> Position.selectStrategy c B = Position.StrategyGrid).
Proof.
  unfold Position.selectStrategy. repeat split; intros.
  - apply Go.leb_true in H. rewrite H. reflexivity.
  - apply Go.leb_false in H0. apply Go.leb_true in H. rewrite H0, H. reflexivity.
  - assert (Hf : Go.leb (75 # 100) c = false).
    { apply Go.leb_false. apply Qlt_trans with (60 # 100); [assumption|reflexivity]. }
    apply Go.leb_false in H. rewrite Hf, H. reflexivity.
Qed.

(** C2: for a long, the planner picks full (one batch of 100% at p, TP 5%,
    SL 2%) when c >= 0.75, pyramid (50/30/20% at p, 0.98p, 0.96p, TP 8%,
    SL 3%) when 0.60 <= c < 0.75, and grid (five batches of 20% at p, 0.99p,
    ..., 0.96p, TP 10%, SL 4%) when c < 0.60; the batch amounts sum exactly
    to the budget B, the percentages to 100, the batch numbers are 1..N and
    every batch is pending. *)
Theorem planner_schedule :
  forall (fresh_id : string) (input : Position.Input),
  Position.in_side input = SideLong ->
  let st := Position.Generate fresh_id input in
  let c := sig_confidence (Position.in_signal input) in
  let B := Position.in_max_stake input in
  let p := Position.in_current_price input in
  let bs := Position.Batches st in
  (75 # 100 <= c ->
     Position.Strategy st = Position.StrategyFull /\
     Forall2 Qeq (map Position.Percentage bs) [100] /\
     Forall2 Qeq (map Position.TriggerPrice bs) [p] /\
     Position.TakeProfitPercent st == 5 /\ Position.StopLossPercent st == 2) /\
  (60 # 100 <= c -> c < 75 # 100 ->
     Position.Strategy st = Position.StrategyPyramid /\
     Forall2 Qeq (map Position.Percentage bs) [50; 30; 20] /\
     Forall2 Qeq (map Position.TriggerPrice bs) [p; (98 # 100) * p; (96 # 100) * p] /\
     Position.TakeProfitPercent st == 8 /\ Position.StopLossPercent st == 3) /\
  (c < 60 # 100 ->
     Position.Strategy st = Position.StrategyGrid /\
     Forall2 Qeq (map Position.Percentage bs) [20; 20; 20; 20; 20] /\
     Forall2 Qeq (map Position.TriggerPrice bs)
       [p; (99 # 100) * p; (98 # 100) * p; (97 # 100) * p; (96 # 100) * p] /\
     Position.TakeProfitPercent st == 10 /\ Position.StopLossPercent st == 4) /\
  Position.sum_amounts bs == B /\
  Position.sum_percentages bs == 100 /\
  map Position.BatchNo bs = seq 1 (List.length bs) /\
  Forall (fun b => Position.Status b = "pending") bs.
Proof.
  intros fresh_id input Hside. cbn zeta.
  unfold Position.Generate. rewrite Hside. cbn [Side_eqb].
  set (c := sig_confidence (Position.in_signal input)).
  set (B := Position.in_max_stake input).
  set (p := Position.in_current_price input).
  destruct (selectStrategy_spec c B) as [Hfull [Hpyr Hgrid]].
  destruct (Position.selectStrategy c B) eqn:Hs; cbn;
  repeat split; intros;
  first
    [ match goal with
      | H1 : 60 # 100 <= c, H2 : c < 75 # 100 |- _ =>
          pose proof (Hpyr H1 H2); congruence
      | H : 75 # 100 <= c |- _ => pose proof (Hfull H); congruence
      | H : c < 60 # 100 |- _ => pose proof (Hgrid H); congruence
      end
    | repeat constructor; (reflexivity || ring || field) ].
Qed.

Lemma planner_schedule_witness :
  Position.in_side Samples.sol_plan = SideLong /\
  Position.Strategy (Position.Generate "plan-5" Samples.sol_plan) = Position.StrategyFull.
Proof.
  split; [reflexivity|].
  destruct (planner_schedule "plan-5" Samples.sol_plan eq_refl) as [Hf _].
  apply Hf. vm_compute. discriminate.
Defined.

Lemma insert_desc_In {A} (ge : A -> A -> bool) (x y : A) (l : list A) :
  In y (Holdings.insert_desc ge x l) <-> x = y \/ In y l.
Proof.
  induction l as [|z r IH]; cbn; [tauto|].
  destruct (ge x z); cbn; [tauto|]. rewrite IH. tauto.
Qed.

Lemma sort_desc_In {A} (ge : A -> A -> bool) (y : A) (l : list A) :
  In y (Holdings.sort_desc ge l) <-> In y l.
Proof.
  unfold Holdings.sort_desc.
  assert (G : forall acc, In y (fold_left (fun acc x => Holdings.insert_desc ge x acc) l acc)
                          <-> In y acc \/ In y l).
  { induction l as [|x r IH]; intros acc; cbn; [tauto|].
    rewrite IH, insert_desc_In. tauto. }
  rewrite G. cbn. tauto.
Qed.

Lemma find_pair_listed (t : Holdings.Table) (p : string) (h : Holding) :
  Holdings.find_pair p (Holdings.ListHoldings t) = Some h ->
  h_pair h = p /\ 0 < Quantity h /\ In h t.
Proof.
  unfold Holdings.find_pair. intros Hf.
  apply find_some in Hf. destruct Hf as [Hin Hp].
  apply String.eqb_eq in Hp.
  unfold Holdings.ListHoldings in Hin. apply sort_desc_In in Hin.
  apply filter_In in Hin. destruct Hin as [Hin Hq].
  apply Go.ltb_true in Hq. auto.
Qed.

Lemma find_pair_upsert (t : Holdings.Table) (h' : Holding) :
  existsb (fun r => String.eqb (h_pair r) (h_pair h')) t = true ->
  exists r, Holdings.find_pair (h_pair h') (Holdings.UpsertHolding t h') = Some r /\
            Quantity r = Quantity h' /\ AvgPrice r = AvgPrice h' /\
            TotalCost r = TotalCost h'.
Proof.
  intros He. unfold Holdings.UpsertHolding. rewrite He.
  revert He.
  induction t as [|x r IH]; cbn; [discriminate|].
  destruct (String.eqb (h_pair x) (h_pair h')) eqn:E; cbn.
  - intros _. exists (mkHolding (h_pair x) (h_symbol x) (Quantity h') (AvgPrice h')
                        (TotalCost h') (h_source h')).
    unfold Holdings.find_pair. cbn. rewrite E. auto.
  - intros Hr. apply IH in Hr. destruct Hr as [r0 [Hf Hr0]].
    exists r0. split; [|exact Hr0].
    unfold Holdings.find_pair in *. cbn. rewrite E. exact Hf.
Qed.

Lemma In_existsb_pair (t : Holdings.Table) (h : Holding) (p : string) :
  In h t -> h_pair h = p -> existsb (fun r => String.eqb (h_pair r) p) t = true.
Proof.
  intros Hin Hp. apply existsb_exists. exists h. split; [exact Hin|].
  apply String.eqb_eq. exact Hp.
Qed.

Lemma holding_update_pair (e : option Holding) (o : Order) (h' : Holding) :
  Holdings.holding_update e o = Some h' -> h_pair h' = o_pair o.
Proof.
  unfold Holdings.holding_update.
  destruct (o_side o), e; cbn; intros H; try discriminate; inversion H; reflexivity.
Qed.

Lemma update_writes_row (t : Holdings.Table) (o : Order) (h h' : Holding) :
  0 < FilledPrice o -> 0 < FilledQuantity o ->
  Holdings.find_pair (o_pair o) (Holdings.ListHoldings t) = Some h ->
  Holdings.holding_update (Some h) o = Some h' ->
  exists r, Holdings.find_pair (o_pair o) (Holdings.UpdateHoldingAfterTrade t o) = Some r /\
            Quantity r = Quantity h' /\ AvgPrice r = AvgPrice h' /\
            TotalCost r = TotalCost h'.
Proof.
  intros Hp Hq Hf Hu.
  unfold Holdings.UpdateHoldingAfterTrade.
  assert (E1 : Go.leb (FilledPrice o) 0 = false) by (apply Go.leb_false; exact Hp).
  assert (E2 : Go.leb (FilledQuantity o) 0 = false) by (apply Go.leb_false; exact Hq).
  rewrite E1, E2. cbn [orb]. rewrite Hf, Hu.
  pose proof (holding_update_pair _ _ _ Hu) as Hpair.
  destruct (find_pair_listed _ _ _ Hf) as [Hhp [_ Hin]].
  rewrite <- Hpair. apply find_pair_upsert.
  apply In_existsb_pair with h; [exact Hin|]. congruence.
Qed.

(** Every row [holding_update] writes satisfies [avg_price = total_cost /
    quantity] (with [x / 0 = 0] for the zeroed row).  The exchange sync
    writes [0 / 0] and the order aggregation writes [cost / qty], so this
    relation holds of every row of the table. *)
Lemma holding_update_consistent (e : option Holding) (o : Order) (h' : Holding) :
  0 < FilledQuantity o ->
  (forall x, e = Some x -> 0 < Quantity x) ->
  Holdings.holding_update e o = Some h' ->
  AvgPrice h' == TotalCost h' / Quantity h'.
Proof.
  intros Hq He Hu. unfold Holdings.holding_update in Hu.
  destruct (o_side o); try discriminate.
  - destruct e as [x|]; injection Hu as <-; cbn; [reflexivity|].
    field. intro Z0. rewrite Z0 in Hq. discriminate.
  - destruct e as [x|]; [|discriminate]. injection Hu as <-; cbn.
    set (q0 := Quantity x - FilledQuantity o).
    set (nq := if Go.ltb q0 0 then 0 else q0).
    destruct (Go.ltb 0 nq) eqn:E.
    + reflexivity.
    + apply Go.ltb_false in E.
      assert (Hnq : 0 <= nq).
      { unfold nq. destruct (Go.ltb q0 0) eqn:E'; [apply Qle_refl|].
        apply Go.ltb_false in E'. exact E'. }
      assert (Z0 : nq == 0) by (apply Qle_antisym; assumption).
      rewrite Z0. unfold Qdiv. change (/ 0) with 0.
      rewrite Qmult_0_r. reflexivity.
Qed.

(** C3: applying an order with positive fill price and quantity to a listed
    holding: a long adds the filled quantity, adds filled_qty * filled_price
    to the cost and sets avg = cost / quantity; a partial close (filled_qty <
    qty) keeps the average price of a consistent holding (avg = cost / qty,
    which every writer of the table maintains); a full close leaves
    quantity, cost and average price 0. *)
Theorem holdings_reconcile :
  forall (t : Holdings.Table) (o : Order) (h : Holding),
  0 < FilledPrice o -> 0 < FilledQuantity o ->
  Holdings.find_pair (o_pair o) (Holdings.ListHoldings t) = Some h ->
  let row := Holdings.find_pair (o_pair o) (Holdings.UpdateHoldingAfterTrade t o) in
  (o_side o = SideLong ->
     exists r, row = Some r /\
       Quantity r = Quantity h + FilledQuantity o /\
       TotalCost r = TotalCost h + FilledQuantity o * FilledPrice o /\
       AvgPrice r = TotalCost r / Quantity r /\
       TotalCost r - TotalCost h == FilledQuantity o * FilledPrice o) /\
  (o_side o = SideClose -> FilledQuantity o < Quantity h ->
     AvgPrice h == TotalCost h / Quantity h ->
     exists r, row = Some r /\ AvgPrice r == AvgPrice h) /\
  (o_side o = SideClose -> Quantity h <= FilledQuantity o ->
     exists r, row = Some r /\ Quantity r == 0 /\ TotalCost r == 0 /\ AvgPrice r == 0).
Proof.
  intros t o h Hp Hq Hf. cbn zeta.
  destruct (find_pair_listed _ _ _ Hf) as [_ [Hqh _]].
  split; [|split].
  - intros Hs.
    destruct (Holdings.holding_update (Some h) o) as [h'|] eqn:Hu;
      [|unfold Holdings.holding_update in Hu; rewrite Hs in Hu; discriminate].
    destruct (update_writes_row _ _ _ _ Hp Hq Hf Hu) as [r [Hr [E1 [E2 E3]]]].
    exists r. unfold Holdings.holding_update in Hu. rewrite Hs in Hu.
    injection Hu as <-. cbn in *. rewrite E1, E2, E3.
    split; [exact Hr|]. repeat split; try reflexivity. ring.
  - intros Hs Hlt Havg.
    destruct (Holdings.holding_update (Some h) o) as [h'|] eqn:Hu;
      [|unfold Holdings.holding_update in Hu; rewrite Hs in Hu; discriminate].
    destruct (update_writes_row _ _ _ _ Hp Hq Hf Hu) as [r [Hr [E1 [E2 E3]]]].
    exists r. split; [exact Hr|]. rewrite E2.
    unfold Holdings.holding_update in Hu. rewrite Hs in Hu.
    injection Hu as <-. cbn.
    assert (Hpos : 0 < Quantity h - FilledQuantity o).
    { apply Qlt_minus_iff in Hlt. exact Hlt. }
    assert (N1 : Go.ltb (Quantity h - FilledQuantity o) 0 = false).
    { apply Go.ltb_false. apply Qlt_le_weak. exact Hpos. }
    assert (N2 : Go.ltb 1 (FilledQuantity o / Quantity h) = false).
    { apply Go.ltb_false. apply Qle_shift_div_r; [exact Hqh|].
      rewrite Qmult_1_l. apply Qlt_le_weak. exact Hlt. }
    rewrite N1, N2.
    assert (N3 : Go.ltb 0 (Quantity h - FilledQuantity o) = true).
    { apply Go.ltb_true. exact Hpos. }
    rewrite N3, Havg. field.
    split; intro Z0;
      first [ rewrite Z0 in Hpos; exact (Qlt_irrefl 0 Hpos)
            | rewrite Z0 in Hqh; exact (Qlt_irrefl 0 Hqh) ].
  - intros Hs Hge.
    destruct (Holdings.holding_update (Some h) o) as [h'|] eqn:Hu;
      [|unfold Holdings.holding_update in Hu; rewrite Hs in Hu; discriminate].
    destruct (update_writes_row _ _ _ _ Hp Hq Hf Hu) as [r [Hr [E1 [E2 E3]]]].
    exists r. split; [exact Hr|]. rewrite E1, E2, E3.
    unfold Holdings.holding_update in Hu. rewrite Hs in Hu.
    injection Hu as <-. cbn.
    assert (Hnq : (if Go.ltb (Quantity h - FilledQuantity o) 0 then 0
                   else Quantity h - FilledQuantity o) == 0).
    { destruct (Go.ltb (Quantity h - FilledQuantity o) 0) eqn:E; [reflexivity|].
      apply Go.ltb_false in E. apply Qle_antisym; [|exact E].
      apply Qle_minus_iff in Hge. apply Qle_minus_iff.
      setoid_replace (0 + - (Quantity h - FilledQuantity o))
        with (FilledQuantity o + - Quantity h) by ring. exact Hge. }
    assert (Hratio : (if Go.ltb 1 (FilledQuantity o / Quantity h) then 1
                      else FilledQuantity o / Quantity h) == 1).
    { destruct (Go.ltb 1 (FilledQuantity o / Quantity h)) eqn:E; [reflexivity|].
      apply Go.ltb_false in E. apply Qle_antisym; [exact E|].
      apply Qle_shift_div_l; [exact Hqh|]. rewrite Qmult_1_l. exact Hge. }
    assert (Hc : TotalCost h * (1 - (if Go.ltb 1 (FilledQuantity o / Quantity h) then 1
                      else FilledQuantity o / Quantity h)) == 0).
    { rewrite Hratio. ring. }
    split; [exact Hnq|]. split; [exact Hc|].
    destruct (Go.ltb 0 (if Go.ltb (Quantity h - FilledQuantity o) 0 then 0
                        else Quantity h - FilledQuantity o)) eqn:E; [|reflexivity].
    apply Go.ltb_true in E. rewrite Hnq in E. exfalso. exact (Qlt_irrefl 0 E).
Qed.

Lemma holdings_reconcile_witness :
  exists r,
    Holdings.find_pair "ETH/USDT"
      (Holdings.UpdateHoldingAfterTrade [Samples.eth_holding] Samples.eth_buy) = Some r /\
    Quantity r = 2 + 1 /\ TotalCost r = 200 + 1 * 110.
Proof.
  destruct (holdings_reconcile [Samples.eth_holding] Samples.eth_buy Samples.eth_holding
              ltac:(reflexivity) ltac:(reflexivity) ltac:(vm_compute; reflexivity))
    as [Hl _].
  destruct (Hl eq_refl) as [r [Hr [Hq [Hc _]]]].
  exists r. split; [exact Hr|]. split; [exact Hq|exact Hc].
Defined.

Lemma dry_run_price_spec (env : Exec.Env) (url : string) (est : Q) :
  let '(fill, sent) := Exec.dry_run_price env url est in
  (List.length sent <= 1)%nat /\ Forall (fun r => r = Exec.mkRequest "GET" url [] "") sent /\
  (0 < est -> fill = est /\ sent = []) /\
  (est <= 0 -> (forall p, Exec.env_ticker env url = Some p -> p <= 0) -> fill = est).
Proof.
  unfold Exec.dry_run_price.
  destruct (Go.leb est 0) eqn:E.
  - apply Go.leb_true in E.
    assert (Hcontra : 0 < est -> False) by (intro H; exact (Qlt_not_le _ _ H E)).
    destruct (Exec.env_ticker env url) as [price|] eqn:T;
      [destruct (Go.ltb 0 price) eqn:P|].
    + apply Go.ltb_true in P.
      split; [cbn; lia|]. split; [repeat constructor|]. split; [intro H; contradiction (Hcontra H)|].
      intros _ Hp. exfalso. apply (Qlt_not_le _ _ P). apply Hp. reflexivity.
    + split; [cbn; lia|]. split; [repeat constructor|].
      split; [intro H; contradiction (Hcontra H)|].
      reflexivity.
    + split; [cbn; lia|]. split; [repeat constructor|].
      split; [intro H; contradiction (Hcontra H)|].
      reflexivity.
  - apply Go.leb_false in E.
    split; [cbn; lia|]. split; [constructor|]. split; [auto|].
    intros H. exfalso. exact (Qlt_not_le _ _ E H).
Qed.

(** C10 (amended): in dry-run mode both executors return no error, mark the
    order simulated_filled and never issue a signed request (whatever the
    credentials): they issue at most one request, an unsigned GET of the
    public ticker URL with no parameters and no API key.  When the hint is not positive and the public ticker yields
    no positive price, the filled price is the hint itself and the filled
    quantity is the sell quantity when positive, else 0. *)
Theorem dry_run_total :
  forall (env : Exec.Env) (input : Exec.Input),
  (forall e : Exec.BinanceExecutor, Exec.sp_dryRun e = true ->
     let out := Exec.spot_Execute e env input in
     let url := "https://api.binance.com/api/v3/ticker/price?symbol="
                ++ Exec.pairToSymbol (Exec.in_pair input) in
     Exec.out_err out = None /\
     o_status (Exec.out_order out) = "simulated_filled" /\
     Forall (fun r => Exec.signed r = false) (Exec.out_sent out) /\
     (List.length (Exec.out_sent out) <= 1)%nat /\
     Forall (fun r => Exec.req_method r = "GET" /\ Exec.req_url r = url /\
                      Exec.req_params r = [] /\ Exec.req_api_key r = "") (Exec.out_sent out) /\
     (Exec.in_estimated_fill input <= 0 ->
      (forall p, Exec.env_ticker env url = Some p -> p <= 0) ->
      FilledPrice (Exec.out_order out) = Exec.in_estimated_fill input /\
      FilledQuantity (Exec.out_order out) =
        (if Go.ltb 0 (Exec.in_sell_quantity input) then Exec.in_sell_quantity input else 0))) /\
  (forall e : Exec.BinanceFuturesExecutor, Exec.fu_dryRun e = true ->
     let out := Exec.futures_Execute e env input in
     let url := Exec.fu_baseURL e ++ "/fapi/v1/ticker/price?symbol="
                ++ Go.drop_slash (Go.ToUpper (Exec.in_pair input)) in
     Exec.out_err out = None /\
     o_status (Exec.out_order out) = "simulated_filled" /\
     Forall (fun r => Exec.signed r = false) (Exec.out_sent out) /\
     (List.length (Exec.out_sent out) <= 1)%nat /\
     Forall (fun r => Exec.req_method r = "GET" /\ Exec.req_url r = url /\
                      Exec.req_params r = [] /\ Exec.req_api_key r = "") (Exec.out_sent out) /\
     (Exec.in_estimated_fill input <= 0 ->
      (forall p, Exec.env_ticker env url = Some p -> p <= 0) ->
      FilledPrice (Exec.out_order out) = Exec.in_estimated_fill input /\
      FilledQuantity (Exec.out_order out) =
        (if Go.ltb 0 (Exec.in_sell_quantity input) then Exec.in_sell_quantity input else 0))).
Proof.
  intros env input. split.
  - intros e Hd. cbn zeta. unfold Exec.spot_Execute. rewrite Hd.
    match goal with |- context [Exec.dry_run_price env ?u ?x] =>
      pose proof (dry_run_price_spec env u x) as Hs;
      destruct (Exec.dry_run_price env u x) as [fill sent] end.
    destruct Hs as [Hlen [Hreq [_ Hnp]]]. cbn.
    split; [reflexivity|]. split; [reflexivity|].
    split; [eapply Forall_impl; [|exact Hreq]; intros r ->; reflexivity|].
    split; [exact Hlen|].
    split; [eapply Forall_impl; [|exact Hreq]; intros r ->; repeat split|].
    intros He Ht. specialize (Hnp He Ht). subst fill. split; [reflexivity|].
    assert (L : Go.ltb 0 (Exec.in_estimated_fill input) = false)
      by (apply Go.ltb_false; exact He).
    rewrite L. reflexivity.
  - intros e Hd. cbn zeta. unfold Exec.futures_Execute. rewrite Hd.
    match goal with |- context [Exec.dry_run_price env ?u ?x] =>
      pose proof (dry_run_price_spec env u x) as Hs;
      destruct (Exec.dry_run_price env u x) as [fill sent] end.
    destruct Hs as [Hlen [Hreq [_ Hnp]]]. cbn.
    split; [reflexivity|]. split; [reflexivity|].
    split; [eapply Forall_impl; [|exact Hreq]; intros r ->; reflexivity|].
    split; [exact Hlen|].
    split; [eapply Forall_impl; [|exact Hreq]; intros r ->; repeat split|].
    intros He Ht. specialize (Hnp He Ht). subst fill. split; [reflexivity|].
    assert (L : Go.ltb 0 (Exec.in_estimated_fill input) = false)
      by (apply Go.ltb_false; exact He).
    rewrite L. reflexivity.
Qed.

Lemma dry_run_total_witness :
  Exec.sp_dryRun Samples.spot_dry = true /\
  FilledPrice (Exec.out_order
    (Exec.spot_Execute Samples.spot_dry Samples.no_network Samples.long_negative_hint)) = -1.
Proof.
  destruct (dry_run_total Samples.no_network Samples.long_negative_hint) as [Hs _].
  split; [reflexivity|].
  destruct (Hs Samples.spot_dry eq_refl) as [_ [_ [_ [_ [_ H]]]]].
  apply H.
  - discriminate.
  - intros p Hp. discriminate.
Defined.

(** C10 counterexample: a dry-run long whose hint is -1 and whose ticker fetch
    fails is simulated_filled with filled_price -1, not 0. *)
Lemma dry_run_negative_hint_counterexample :
  let out := Exec.spot_Execute Samples.spot_dry Samples.no_network
                               Samples.long_negative_hint in
  o_status (Exec.out_order out) = "simulated_filled" /\
  ~ (FilledPrice (Exec.out_order out) == 0).
Proof.
  cbn. split; [reflexivity|]. discriminate.
Qed.

Lemma finish_sent (order : Order) (req : Exec.Request) (res : Exec.HttpResult)
      (fills : Order -> Exec.OrderReply -> Order) :
  Exec.out_sent (Exec.finish order req res fills) =
  match res with Exec.HttpBuildError => [] | _ => [req] end.
Proof.
  destruct res as [| |code body [r|]]; cbn; try reflexivity;
    destruct (300 <=? code)%Z; reflexivity.
Qed.

(** C5 (amended): a live futures long with a positive price hint sends only
    the order request, whose quantity is [futuresQuantityPrecision] of the
    float64 quotient fl(fl(stake * leverage) / estimated_fill), floored in
    float64 (and it is sent whenever credentials are configured and the
    request can be built); with a non-positive hint the order is rejected
    and nothing is sent. *)
Theorem futures_open_sizing (e : Exec.BinanceFuturesExecutor) (env : Exec.Env)
        (input : Exec.Input) :
  Exec.fu_dryRun e = false ->
  Exec.in_side input = SideLong ->
  let out := Exec.futures_Execute e env input in
  let symbol := Go.drop_slash (Go.ToUpper (Exec.in_pair input)) in
  let rawQty := PrimFloat.div (PrimFloat.mul (F64.of_Q (Exec.in_stake input))
                                             (F64.of_Z (Exec.fu_leverage e)))
                              (F64.of_Q (Exec.in_estimated_fill input)) in
  (0 < Exec.in_estimated_fill input ->
   forall r, In r (Exec.out_sent out) ->
   Exec.req_url r = Exec.fu_baseURL e ++ "/fapi/v1/order" /\
   Exec.param "quantity" r = Some (Exec.PStr (Exec.futuresQuantityPrecision symbol rawQty))) /\
  (0 < Exec.in_estimated_fill input ->
   Exec.fu_apiKey e <> "" -> Exec.fu_secretKey e <> "" ->
   (forall r, Exec.env_send env r <> Exec.HttpBuildError) ->
   Exec.out_sent out <> []) /\
  (Exec.in_estimated_fill input <= 0 ->
   o_status (Exec.out_order out) = "rejected" /\ Exec.out_sent out = []).
Proof.
  intros Hd Hs. cbn zeta. unfold Exec.futures_Execute. rewrite Hd, Hs.
  destruct (String.eqb (Exec.fu_apiKey e) "" || String.eqb (Exec.fu_secretKey e) "")
    eqn:Hc.
  - split; [intros _ r Hr; destruct Hr|].
    split; [|intros _; split; reflexivity].
    intros _ Ha Hk _. exfalso.
    apply orb_true_iff in Hc as [Hc|Hc]; apply String.eqb_eq in Hc; contradiction.
  - cbn [Side_eqb String.eqb Ascii.eqb Bool.eqb].
    destruct (Go.ltb 0 (Exec.in_estimated_fill input)) eqn:Hl.
    + apply Go.ltb_true in Hl.
      rewrite finish_sent.
      split; [|split].
      * intros _ r Hr.
        destruct (Exec.env_send env _); cbn in Hr;
          try contradiction; destruct Hr as [<-|[]]; split; reflexivity.
      * intros _ _ _ Hb.
        match goal with |- context [Exec.env_send env ?rq] =>
          specialize (Hb rq); destruct (Exec.env_send env rq) end;
          [contradiction|discriminate|discriminate].
      * intros Hle. exfalso. exact (Qlt_not_le _ _ Hl Hle).
    + apply Go.ltb_false in Hl.
      split; [intros Hlt; exfalso; exact (Qlt_not_le _ _ Hlt Hl)|].
      split; [intros Hlt; exfalso; exact (Qlt_not_le _ _ Hlt Hl)|].
      intros _. split; reflexivity.
Qed.

Lemma futures_open_sizing_witness :
  Exec.fu_dryRun Samples.futures_live = false /\
  Exec.in_side Samples.eth_long = SideLong /\
  Exec.out_sent (Exec.futures_Execute Samples.futures_live Samples.accepting Samples.eth_long)
    <> [] /\
  (forall r, In r (Exec.out_sent
     (Exec.futures_Execute Samples.futures_live Samples.accepting Samples.eth_long)) ->
   Exec.param "quantity" r = Some (Exec.PStr "2.000")).
Proof.
  destruct (futures_open_sizing Samples.futures_live Samples.accepting Samples.eth_long
              eq_refl eq_refl) as [Hq [Hn _]].
  split; [reflexivity|]. split; [reflexivity|]. split.
  - apply Hn; [reflexivity|discriminate|discriminate|intros r; discriminate].
  - intros r Hr. destruct (Hq ltac:(reflexivity) r Hr) as [_ Hp].
    rewrite Hp. vm_compute. reflexivity.
Defined.

(** C5 counterexample: a live futures long of 58 USDT at leverage 5 on
    BNB/USDT with a 1000 USDT hint sends quantity "0.28": in float64
    58*5/1000 is just below 0.29 and its product by 100 is
    28.999999999999996, which floors to 28; floor_to_precision of the exact
    quotient 0.29 is 0.29. *)
Lemma futures_open_sizing_counterexample :
  let out := Exec.futures_Execute Samples.futures_live Samples.accepting Samples.bnb_long in
  Exec.fu_leverage Samples.futures_live = 5%Z /\
  map (Exec.param "quantity") (Exec.out_sent out) = [Some (Exec.PStr "0.28")] /\
  fst (Exec.floor_to_precision_spec "BNBUSDT" (58 * 5 / 1000)) == 29 # 100 /\
  Go.format_fixed 2 (fst (Exec.floor_to_precision_spec "BNBUSDT" (58 * 5 / 1000))) = "0.29".
Proof.
  cbv zeta. split; [reflexivity|]. split; [vm_compute; reflexivity|].
  split; vm_compute; reflexivity.
Qed.

(** C4 (code bug): a live spot sell of 0.5 XRP floors to 0.5 at XRP's one
    decimal, which is below XRP's minimum quantity 1, yet the executor does
    not reject it: it sends a signed order request carrying quantity 0.5 and
    reports no error whenever the request can be built. *)
Theorem spot_dust_not_rejected (env : Exec.Env) :
  (forall r, Exec.env_send env r <> Exec.HttpBuildError) ->
  let out := Exec.spot_Execute Samples.spot_live env Samples.xrp_dust_sell in
  exists r q,
    Exec.out_sent out = [r] /\ Exec.signed r = true /\
    Exec.req_url r = "https://api.binance.com/api/v3/order" /\
    Exec.param "quantity" r = Some (Exec.PDec q 1) /\
    q == Exec.in_sell_quantity Samples.xrp_dust_sell /\
    0 < q /\ q < Exec.getMinQuantity "XRPUSDT".
Proof.
  intros Hb. cbn zeta. unfold Exec.spot_Execute.
  cbn -[Exec.finish Exec.env_send].
  assert (Hq : Exec.quantityPrecision "XRPUSDT" (1 # 2) = (5 # 10, 1%nat))
    by (vm_compute; reflexivity).
  rewrite Hq. cbn -[Exec.finish Exec.env_send].
  match goal with |- context [Exec.finish _ ?rq (Exec.env_send env ?rq) _] =>
    specialize (Hb rq); exists rq, (5 # 10); rewrite finish_sent;
    destruct (Exec.env_send env rq); [contradiction| |]
  end;
  repeat split; reflexivity.
Qed.


Lemma spot_dust_not_rejected_witness :
  exists r q,
    Exec.out_sent (Exec.spot_Execute Samples.spot_live Samples.accepting
                                     Samples.xrp_dust_sell) = [r] /\
    Exec.signed r = true /\
    Exec.req_url r = "https://api.binance.com/api/v3/order" /\
    Exec.param "quantity" r = Some (Exec.PDec q 1) /\
    q == Exec.in_sell_quantity Samples.xrp_dust_sell /\
    0 < q /\ q < Exec.getMinQuantity "XRPUSDT".
Proof.
  apply (spot_dust_not_rejected Samples.accepting).
  intros r. discriminate.
Defined.

Lemma trimReason_nonempty (r : string) : SignalAgent.trimReason r <> "".
Proof.
  unfold SignalAgent.trimReason.
  destruct (String.eqb (SignalAgent.TrimSpace r) "") eqn:E; [discriminate|].
  apply String.eqb_neq in E.
  destruct (String.length (SignalAgent.TrimSpace r) <=? 500)%nat; [exact E|].
  destruct (SignalAgent.TrimSpace r) as [|c t]; [contradiction|].
  cbn. discriminate.
Qed.

(** C6: whenever the model call fails, returns no choices, or its first
    choice cannot be parsed as JSON, [Generate] returns no error and the
    fallback signal: side none, confidence 0, model name "fallback", TTL 60
    seconds, and a reason made of the fixed operator-facing prefix
    "大模型不可用，自动跳过本轮: " followed by a non-empty detail. *)
Theorem signal_fallback (adaptSystemPrompt : SignalAgent.Agent -> string)
        (a : SignalAgent.Agent) (env : SignalAgent.Env) (input : SignalAgent.Input) :
  let userPrompt :=
    match SignalAgent.env_user_prompt env with
    | inl _ => SignalAgent.buildSimplePrompt input
    | inr p => p
    end in
  let res := SignalAgent.env_model env (adaptSystemPrompt a) userPrompt in
  ((exists msg, res = SignalAgent.LLMError msg) \/
   res = SignalAgent.LLMResponse [] \/
   (exists c cs err, res = SignalAgent.LLMResponse (c :: cs) /\
      SignalAgent.parseLLMOutput (SignalAgent.env_json env) (SignalAgent.ch_Content c)
        = inl err)) ->
  let out := SignalAgent.Generate adaptSystemPrompt a env input in
  snd out = None /\
  sig_side (fst out) = SideNone /\
  sig_confidence (fst out) = 0 /\
  sig_model_name (fst out) = "fallback" /\
  sig_ttl_seconds (fst out) = 60%Z /\
  exists detail, sig_reason (fst out) = "大模型不可用，自动跳过本轮: " ++ detail /\
                 detail <> "".
Proof.
  cbn zeta. intros H. unfold SignalAgent.Generate.
  destruct H as [[msg Hm]|[He|[c [cs [err [Hr Hp]]]]]].
  - rewrite Hm. cbn. repeat split.
    eexists. split; [reflexivity|apply trimReason_nonempty].
  - rewrite He. cbn. repeat split.
    eexists. split; [reflexivity|apply trimReason_nonempty].
  - rewrite Hr.
    destruct (SignalAgent.extractTokenUsage (SignalAgent.ch_GenerationInfo c))
      as [[pt ct] tt].
    rewrite Hp. cbn. repeat split.
    eexists. split; [reflexivity|apply trimReason_nonempty].
Qed.

Lemma signal_fallback_witness :
  let out := SignalAgent.Generate SignalAgent.systemPrompt Samples.spot_agent
               Samples.prose_model Samples.btc_input in
  snd out = None /\ sig_side (fst out) = SideNone /\ sig_confidence (fst out) = 0 /\
  sig_model_name (fst out) = "fallback" /\ sig_ttl_seconds (fst out) = 60%Z /\
  exists detail, sig_reason (fst out) = "大模型不可用，自动跳过本轮: " ++ detail /\
                 detail <> "".
Proof.
  apply (signal_fallback SignalAgent.systemPrompt Samples.spot_agent
           Samples.prose_model Samples.btc_input).
  right. right.
  exists (SignalAgent.mkChoice "I would hold for now." None), [],
         "大模型响应中未找到JSON对象".
  split; reflexivity.
Defined.

Lemma Forall_firstn_any {A} (P : A -> Prop) (m : nat) (l : list A) :
  Forall P l -> Forall P (firstn m l).
Proof.
  revert l. induction m as [|m IH]; intros [|x l] H; cbn; try constructor.
  - inversion H; assumption.
  - inversion H; subst. apply IH. assumption.
Qed.

Lemma fold_sum_const (v : Q) (l : list Q) (acc : Q) :
  Forall (fun x => x == v) l ->
  fold_left Qplus l acc == acc + inject_Z (Z.of_nat (List.length l)) * v.
Proof.
  revert acc. induction l as [|x l IH]; intros acc H; cbn [fold_left List.length].
  - cbn. ring.
  - inversion H as [|? ? Hx Hl]; subst.
    rewrite (IH (acc + x) Hl), Nat2Z.inj_succ, <- Z.add_1_r, inject_Z_plus, Hx. ring.
Qed.

Lemma ema_from_const (v k prev : Q) (xs : list Q) :
  prev == v -> Forall (fun x => x == v) xs ->
  List.length (Indicators.ema_from Q Qplus Qminus Qmult 1 k prev xs) = List.length xs /\
  Forall (fun y => y == v) (Indicators.ema_from Q Qplus Qminus Qmult 1 k prev xs).
Proof.
  revert prev. induction xs as [|x xs IH]; intros prev Hp H; cbn.
  - split; [reflexivity|constructor].
  - inversion H as [|? ? Hx Hl]; subst.
    assert (Hv : x * k + prev * (1 - k) == v) by (rewrite Hx, Hp; ring).
    destruct (IH _ Hv Hl) as [Hlen Hall].
    split; [rewrite Hlen; reflexivity|constructor; assumption].
Qed.

Lemma EMA_Q_const (v : Q) (prices : list Q) (p : Z) :
  prices <> [] -> Forall (fun x => x == v) prices -> (1 <= p)%Z ->
  List.length (Indicators.EMA_Q prices p) = List.length prices /\
  Forall (fun y => y == v) (Indicators.EMA_Q prices p).
Proof.
  intros Hne H Hp. unfold Indicators.EMA_Q, Indicators.EMA.
  destruct prices as [|x0 rest] eqn:Hpr; [contradiction|].
  set (n := Z.of_nat (List.length (x0 :: rest))).
  assert (Hn : (1 <= n)%Z) by (unfold n; cbn [List.length]; lia).
  replace ((n =? 0)%Z || (p <=? 0)%Z) with false
    by (symmetry; apply orb_false_iff; split; apply Z.eqb_neq + apply Z.leb_gt; lia).
  set (seedLen := if (n <? p)%Z then n else p).
  assert (Hs1 : (1 <= seedLen)%Z) by (unfold seedLen; destruct (n <? p)%Z; lia).
  assert (Hsn : (seedLen <= n)%Z)
    by (unfold seedLen; destruct (n <? p)%Z eqn:E; [lia|apply Z.ltb_ge in E; lia]).
  assert (Hlen : List.length (firstn (Z.to_nat seedLen) (x0 :: rest)) = Z.to_nat seedLen).
  { apply firstn_length_le. unfold n in Hsn. lia. }
  assert (Hseed : fold_left Qplus (firstn (Z.to_nat seedLen) (x0 :: rest)) 0
                  == inject_Z seedLen * v).
  { rewrite (fold_sum_const v _ 0 (Forall_firstn_any _ _ _ H)), Hlen, Z2Nat.id by lia.
    ring. }
  inversion H as [|? ? Hx0 Hrest]; subst.
  assert (Hout0 : fold_left Qplus (firstn (Z.to_nat seedLen) (x0 :: rest)) 0
                  / inject_Z seedLen == v).
  { rewrite Hseed. field. unfold Qeq. cbn. lia. }
  destruct (ema_from_const v (2 / inject_Z (p + 1)) _ rest Hout0 Hrest) as [Hl Ha].
  split.
  - cbn [List.length]. rewrite Hl. reflexivity.
  - constructor; assumption.
Qed.

Lemma sub_each_zero (v : Q) (a b : list Q) :
  Forall (fun y => y == v) a -> Forall (fun y => y == v) b ->
  List.length a = List.length b ->
  List.length (Indicators.sub_each Q Qminus a b) = List.length a /\
  Forall (fun y => y == 0) (Indicators.sub_each Q Qminus a b).
Proof.
  revert b. induction a as [|x a IH]; intros [|y b] Ha Hb Hl; cbn in *;
    try discriminate; [split; [reflexivity|constructor]|].
  inversion Ha; inversion Hb; subst.
  destruct (IH b) as [IHl IHa]; [assumption|assumption|lia|].
  split; [rewrite IHl; reflexivity|].
  constructor; [|assumption].
  match goal with H1 : x == v, H2 : y == v |- _ => rewrite H1, H2 end. ring.
Qed.

(** C7 (amended): in exact (real-number) arithmetic, for a non-empty series
    whose values all equal [v], [EMA(p)] for every [p >= 1] has the series'
    length and equals [v] at every index, and [MACD] has the series' length
    and is 0 at every index.  (In float64 this holds only up to rounding.) *)
Theorem ema_constant_series (v : Q) (prices : list Q) :
  prices <> [] -> Forall (fun x => x == v) prices ->
  (forall p : Z, (1 <= p)%Z ->
     List.length (Indicators.EMA_Q prices p) = List.length prices /\
     Forall (fun y => y == v) (Indicators.EMA_Q prices p)) /\
  List.length (Indicators.MACD_Q prices) = List.length prices /\
  Forall (fun y => y == 0) (Indicators.MACD_Q prices).
Proof.
  intros Hne H.
  destruct (EMA_Q_const v prices 12 Hne H ltac:(lia)) as [L12 A12].
  destruct (EMA_Q_const v prices 26 Hne H ltac:(lia)) as [L26 A26].
  split; [intros p Hp; exact (EMA_Q_const v prices p Hne H Hp)|].
  unfold Indicators.MACD_Q, Indicators.MACD.
  fold (Indicators.EMA_Q prices 12) (Indicators.EMA_Q prices 26).
  destruct (sub_each_zero v _ _ A12 A26 ltac:(congruence)) as [Ls As].
  split; [congruence|exact As].
Qed.

Lemma ema_constant_series_witness :
  (forall p : Z, (1 <= p)%Z ->
     List.length (Indicators.EMA_Q [3 # 2; 3 # 2; 3 # 2] p) = 3%nat /\
     Forall (fun y => y == 3 # 2) (Indicators.EMA_Q [3 # 2; 3 # 2; 3 # 2] p)) /\
  List.length (Indicators.MACD_Q [3 # 2; 3 # 2; 3 # 2]) = 3%nat /\
  Forall (fun y => y == 0) (Indicators.MACD_Q [3 # 2; 3 # 2; 3 # 2]).
Proof.
  apply (ema_constant_series (3 # 2) [3 # 2; 3 # 2; 3 # 2]).
  - discriminate.
  - repeat constructor.
Defined.

(** C7 counterexample: in float64 (Go's arithmetic), EMA with period 3 of the
    constant series [0.1; 0.1; 0.1] starts with 0.10000000000000002, not 0.1,
    and the MACD of twenty-six copies of 0.1 is not 0 everywhere. *)
Lemma ema_float_constant_counterexample :
  let x := Indicators.tenth in
  List.length (Indicators.EMA_F [x; x; x] 3) = 3%nat /\
  PrimFloat.eqb (hd x (Indicators.EMA_F [x; x; x] 3)) x = false /\
  existsb (fun y => negb (PrimFloat.eqb y (Indicators.float_of_Z 0)))
    (Indicators.MACD_F (repeat x 26)) = true.
Proof.
  vm_compute. split; [reflexivity|]. split; reflexivity.
Qed.

(** C8 (amended): every substitute the sanitizer writes is left unchanged by
    the sanitizer (no substitute contains a replaced term); the sanitizer is
    nevertheless not idempotent on all titles, since a substitute next to
    surrounding text can form a new term. *)
Theorem sanitizer_substitutes_fixed :
  Forall (fun p => Sanitizer.sanitizeNewsTitle (snd p) = snd p) Sanitizer.table.
Proof.
  vm_compute. repeat constructor.
Qed.

(** C8 counterexample: "waterror" sanitizes to "warisk event", which
    sanitizes again to "conflictisk event". *)
Lemma sanitizer_not_idempotent_counterexample :
  Sanitizer.sanitizeNewsTitle "waterror" = "warisk event" /\
  Sanitizer.sanitizeNewsTitle (Sanitizer.sanitizeNewsTitle "waterror")
    = "conflictisk event".
Proof.
  vm_compute. split; reflexivity.
Qed.

Lemma insert_desc_hd (x y : Cycles.CycleRow) (l : list Cycles.CycleRow) :
  HdRel Cycles.created_desc y l -> Cycles.created_desc y x ->
  HdRel Cycles.created_desc y
    (Holdings.insert_desc (fun a b => (Cycles.cr_created_at b <=? Cycles.cr_created_at a)%Z)
       x l).
Proof.
  intros Hh Hyx. destruct l as [|z l]; cbn; [constructor; exact Hyx|].
  destruct (Cycles.cr_created_at z <=? Cycles.cr_created_at x)%Z;
    constructor; [exact Hyx|inversion Hh; assumption].
Qed.

Lemma insert_desc_sorted (x : Cycles.CycleRow) (l : list Cycles.CycleRow) :
  Sorted Cycles.created_desc l ->
  Sorted Cycles.created_desc
    (Holdings.insert_desc (fun a b => (Cycles.cr_created_at b <=? Cycles.cr_created_at a)%Z)
       x l).
Proof.
  induction l as [|y l IH]; intros H; cbn.
  - repeat constructor.
  - destruct (Cycles.cr_created_at y <=? Cycles.cr_created_at x)%Z eqn:E.
    + apply Z.leb_le in E. constructor; [exact H|constructor; exact E].
    + apply Z.leb_gt in E. apply Sorted_inv in H as [Hs Hh].
      constructor; [exact (IH Hs)|].
      apply insert_desc_hd; [exact Hh|unfold Cycles.created_desc; lia].
Qed.

Lemma sort_desc_sorted (l acc : list Cycles.CycleRow) :
  Sorted Cycles.created_desc acc ->
  Sorted Cycles.created_desc
    (fold_left (fun acc x => Holdings.insert_desc
       (fun a b => (Cycles.cr_created_at b <=? Cycles.cr_created_at a)%Z) x acc) l acc).
Proof.
  revert acc. induction l as [|x l IH]; intros acc H; cbn; [exact H|].
  apply IH, insert_desc_sorted, H.
Qed.

Lemma Sorted_skipn_rows (n : nat) (l : list Cycles.CycleRow) :
  Sorted Cycles.created_desc l -> Sorted Cycles.created_desc (skipn n l).
Proof.
  revert l. induction n as [|n IH]; intros [|x l] H; cbn; try exact H; try constructor.
  apply IH. apply Sorted_inv in H as [H _]. exact H.
Qed.

Lemma Sorted_firstn_rows (n : nat) (l : list Cycles.CycleRow) :
  Sorted Cycles.created_desc l -> Sorted Cycles.created_desc (firstn n l).
Proof.
  revert l. induction n as [|n IH]; intros [|x l] H; cbn; try constructor.
  - apply Sorted_inv in H as [H _]. apply IH, H.
  - apply Sorted_inv in H as [_ Hh].
    destruct n, l; cbn; constructor. inversion Hh; assumption.
Qed.

(** C9 (amended): the store's [ListCycles] uses page size 15 when the given
    one is not positive and otherwise the given one, with no upper bound; it
    returns at most that many rows, sorted by [created_at] descending.  The
    HTTP handler only passes page sizes in [1, 100] (15 when the parameter is
    absent, unparsable or out of range) and pages >= 1, so a listing through
    the handler has at most 100 rows. *)
Theorem list_cycles_page_size :
  (forall (rows : list Cycles.CycleRow) (page pageSize : Z),
     let eff := if (pageSize <=? 0)%Z then 15%Z else pageSize in
     let out := Cycles.ListCycles rows page pageSize in
     (1 <= eff)%Z /\
     Sorted Cycles.created_desc out /\
     (List.length out <= Z.to_nat eff)%nat) /\
  (forall (rows : list Cycles.CycleRow) (page_q page_size_q : string),
     let '(page, pageSize) := Cycles.handler_params page_q page_size_q in
     (1 <= page)%Z /\ (1 <= pageSize <= 100)%Z /\
     (forall n, Cycles.Atoi page_size_q = Some n -> (1 <= n <= 100)%Z -> pageSize = n) /\
     (pageSize = 15%Z \/ Cycles.Atoi page_size_q = Some pageSize) /\
     (List.length (Cycles.listCycles rows page_q page_size_q) <= 100)%nat).
Proof.
  split.
  - intros rows page pageSize. cbn zeta.
    assert (H1 : (1 <= (if (pageSize <=? 0)%Z then 15 else pageSize))%Z)
      by (destruct (pageSize <=? 0)%Z eqn:E; [lia|apply Z.leb_gt in E; lia]).
    split; [exact H1|]. unfold Cycles.ListCycles. split.
    + apply Sorted_firstn_rows, Sorted_skipn_rows. unfold Holdings.sort_desc.
      apply sort_desc_sorted. constructor.
    + apply firstn_le_length.
  - intros rows page_q page_size_q. unfold Cycles.listCycles.
    destruct (Cycles.handler_params page_q page_size_q) as [page pageSize] eqn:Hp.
    unfold Cycles.handler_params in Hp. injection Hp as Hpage HpageSize.
    assert (Hpg : (1 <= page)%Z).
    { subst page. destruct (String.eqb page_q ""); [lia|].
      destruct (Cycles.Atoi page_q) as [n|]; [|lia].
      destruct (0 <? n)%Z eqn:E; [apply Z.ltb_lt in E|]; lia. }
    assert (Hsz : (1 <= pageSize <= 100)%Z /\
                  (forall n, Cycles.Atoi page_size_q = Some n -> (1 <= n <= 100)%Z ->
                             pageSize = n) /\
                  (pageSize = 15%Z \/ Cycles.Atoi page_size_q = Some pageSize)).
    { subst pageSize. destruct (String.eqb page_size_q "") eqn:Es.
      - apply String.eqb_eq in Es. subst page_size_q.
        split; [lia|]. split; [intros n Hn; discriminate|left; reflexivity].
      - destruct (Cycles.Atoi page_size_q) as [m|] eqn:Ea.
        + destruct ((0 <? m)%Z && (m <=? 100)%Z) eqn:E.
          * apply andb_true_iff in E as [E1 E2].
            apply Z.ltb_lt in E1. apply Z.leb_le in E2.
            split; [lia|]. split; [intros n Hn _; congruence|right; reflexivity].
          * split; [lia|]. split; [|left; reflexivity].
            intros n Hn Hr. injection Hn as <-. exfalso.
            assert (Hb : ((0 <? m)%Z && (m <=? 100)%Z) = true)
              by (apply andb_true_iff; split; [apply Z.ltb_lt|apply Z.leb_le]; lia).
            congruence.
        + split; [lia|]. split; [intros n Hn; discriminate|left; reflexivity]. }
    destruct Hsz as [Hb [Hv Ho]].
    split; [exact Hpg|]. split; [exact Hb|]. split; [exact Hv|]. split; [exact Ho|].
    unfold Cycles.ListCycles.
    eapply Nat.le_trans; [apply firstn_le_length|].
    destruct (pageSize <=? 0)%Z eqn:E; [apply Z.leb_le in E; lia|lia].
Qed.

(** C9 counterexample: asked directly for page 1 with page size 101 over 101
    cycles, the store returns 101 rows. *)
Lemma list_cycles_unbounded_counterexample :
  List.length (Cycles.ListCycles (Cycles.sample_rows 101) 1 101) = 101%nat.
Proof.
  vm_compute. reflexivity.
Qed.

(* ------------------------------------------------------------------ *)
(** ** Further properties of the code *)

Lemma fold_sum_lower lo l acc :
  Forall (Qle lo) l -> acc + inject_Z (Z.of_nat (List.length l)) * lo <= fold_left Qplus l acc.
Proof.
  revert acc; induction l as [|x r IH]; intros acc H; cbn.
  - ring_simplify. apply Qle_refl.
  - inversion H; subst. specialize (IH (acc + x) H3).
    eapply Qle_trans; [|exact IH].
    rewrite Zpos_P_of_succ_nat, <- Z.add_1_r, inject_Z_plus.
    setoid_replace (acc + (inject_Z (Z.of_nat (List.length r)) + inject_Z 1) * lo)
      with (acc + lo + inject_Z (Z.of_nat (List.length r)) * lo) by (unfold inject_Z; ring).
    apply Qplus_le_compat; [apply Qplus_le_compat|]; [apply Qle_refl|assumption|apply Qle_refl].
Qed.

Lemma fold_sum_upper hi l acc :
  Forall (fun x => x <= hi) l -> fold_left Qplus l acc <= acc + inject_Z (Z.of_nat (List.length l)) * hi.
Proof.
  revert acc; induction l as [|x r IH]; intros acc H; cbn.
  - ring_simplify. apply Qle_refl.
  - inversion H; subst. specialize (IH (acc + x) H3).
    eapply Qle_trans; [exact IH|].
    rewrite Zpos_P_of_succ_nat, <- Z.add_1_r, inject_Z_plus.
    setoid_replace (acc + (inject_Z (Z.of_nat (List.length r)) + inject_Z 1) * hi)
      with (acc + hi + inject_Z (Z.of_nat (List.length r)) * hi) by (unfold inject_Z; ring).
    apply Qplus_le_compat; [apply Qplus_le_compat|]; [apply Qle_refl|assumption|apply Qle_refl].
Qed.

(** A convex combination [x*k + prev*(1-k)] stays between the bounds. *)

Lemma convex_lower lo k x prev :
  0 <= k -> k <= 1 -> lo <= x -> lo <= prev -> lo <= x * k + prev * (1 - k).
Proof.
  intros Hk0 Hk1 Hx Hp.
  apply Qle_minus_iff.
  setoid_replace (x * k + prev * (1 - k) + - lo) with ((x - lo) * k + (prev - lo) * (1 - k)) by ring.
  apply Qle_minus_iff in Hx, Hp, Hk1.
  apply (Qplus_le_compat 0 _ 0 _); apply Qmult_le_0_compat; auto.
  all: unfold Qminus; assumption.
Qed.

Lemma convex_upper hi k x prev :
  0 <= k -> k <= 1 -> x <= hi -> prev <= hi -> x * k + prev * (1 - k) <= hi.
Proof.
  intros Hk0 Hk1 Hx Hp.
  apply Qle_minus_iff.
  setoid_replace (hi + - (x * k + prev * (1 - k))) with ((hi - x) * k + (hi - prev) * (1 - k)) by ring.
  apply Qle_minus_iff in Hx, Hp, Hk1.
  apply (Qplus_le_compat 0 _ 0 _); apply Qmult_le_0_compat; auto.
  all: unfold Qminus; assumption.
Qed.

Lemma ema_from_bounds (P : Q -> Prop) k prev xs :
  (forall x p, P x -> P p -> P (x * k + p * (1 - k))) ->
  P prev -> Forall P xs -> Forall P (Indicators.ema_from Q Qplus Qminus Qmult 1 k prev xs).
Proof.
  intros Hstep; revert prev; induction xs as [|x r IH]; intros prev Hp Hxs; cbn; constructor.
  - inversion Hxs; subst. apply Hstep; assumption.
  - inversion Hxs; subst. apply IH; [apply Hstep|]; assumption.
Qed.

Lemma ema_from_length k prev xs :
  List.length (Indicators.ema_from Q Qplus Qminus Qmult 1 k prev xs) = List.length xs.
Proof. revert prev; induction xs; intros; cbn; [reflexivity|f_equal; apply IHxs]. Qed.

Lemma ema_k_range period : (1 <= period)%Z -> 0 <= 2 / inject_Z (period + 1) <= 1.
Proof.
  intros Hp. assert (H2 : 0 < inject_Z (period + 1)) by (change 0 with (inject_Z 0); rewrite <- Zlt_Qlt; lia).
  split.
  - apply Qle_shift_div_l; [exact H2|]. rewrite Qmult_0_l. discriminate.
  - apply Qle_shift_div_r; [exact H2|]. rewrite Qmult_1_l.
    change 2 with (inject_Z 2). rewrite <- Zle_Qle. lia.
Qed.

Lemma ema_seed_len (prices : list Q) period :
  (1 <= period)%Z -> prices <> [] ->
  let n := Z.of_nat (List.length prices) in
  let s := if (n <? period)%Z then n else period in
  (1 <= s)%Z /\ List.length (firstn (Z.to_nat s) prices) = Z.to_nat s.
Proof.
  intros Hp Hne n s.
  assert (Hn : (1 <= n)%Z) by (destruct prices; [congruence|cbn [List.length] in n; unfold n; lia]).
  unfold s; destruct (Z.ltb_spec n period); split; try lia;
    rewrite firstn_length_le; try lia; unfold n in *; lia.
Qed.

Lemma EMA_Q_length prices period :
  (1 <= period)%Z -> List.length (Indicators.EMA_Q prices period) = List.length prices.
Proof.
  intros Hp. unfold Indicators.EMA_Q, Indicators.EMA.
  destruct prices as [|x r]; [reflexivity|].
  replace ((Z.of_nat (List.length (x :: r)) =? 0)%Z || (period <=? 0)%Z) with false
    by (symmetry; apply orb_false_iff; split; [apply Z.eqb_neq; cbn [List.length]; lia|apply Z.leb_gt; lia]).
  cbn [List.length]. rewrite ema_from_length. reflexivity.
Qed.

Lemma EMA_Q_bounds (P : Q -> Prop) prices period :
  (1 <= period)%Z ->
  (forall x y, x == y -> P x -> P y) ->
  (forall k x p, 0 <= k -> k <= 1 -> P x -> P p -> P (x * k + p * (1 - k))) ->
  (forall m (l : list Q), (1 <= m)%Z -> List.length l = Z.to_nat m -> Forall P l ->
     P (fold_left Qplus l 0 / inject_Z m)) ->
  Forall P prices -> Forall P (Indicators.EMA_Q prices period).
Proof.
  intros Hp Hc Hstep Hseed HP. unfold Indicators.EMA_Q, Indicators.EMA.
  destruct prices as [|x r] eqn:E; [constructor|].
  replace ((Z.of_nat (List.length (x :: r)) =? 0)%Z || (period <=? 0)%Z) with false
    by (symmetry; apply orb_false_iff; split; [apply Z.eqb_neq; cbn [List.length]; lia|apply Z.leb_gt; lia]).
  rewrite <- E. destruct (ema_seed_len prices period Hp) as [Hs Hl]; [congruence|].
  rewrite E in *. cbv zeta.
  set (s := if (Z.of_nat (List.length (x :: r)) <? period)%Z then Z.of_nat (List.length (x :: r)) else period) in *.
  assert (Hs0 : P (fold_left Qplus (firstn (Z.to_nat s) (x :: r)) 0 / inject_Z s)).
  { apply Hseed; [exact Hs|exact Hl|]. apply Forall_forall; intros y Hy.
    rewrite Forall_forall in HP. apply HP.
    rewrite <- (firstn_skipn (Z.to_nat s) (x :: r)). apply in_or_app; left; exact Hy. }
  constructor; [exact Hs0|].
  destruct (ema_k_range period Hp).
  apply ema_from_bounds; [intros; apply Hstep; auto|exact Hs0|inversion HP; assumption].
Qed.

Lemma ema_from_length_any (R : Type) (add sub mul : R -> R -> R) (one k prev : R) (xs : list R) :
  List.length (Indicators.ema_from R add sub mul one k prev xs) = List.length xs.
Proof. revert prev; induction xs; intros; cbn; [reflexivity|f_equal; apply IHxs]. Qed.

Lemma sub_each_length (R : Type) (sub : R -> R -> R) (a b : list R) :
  List.length (Indicators.sub_each R sub a b) = Nat.min (List.length a) (List.length b).
Proof.
  revert b; induction a as [|x a IH]; intros [|y b]; cbn; try reflexivity.
  f_equal; apply IH.
Qed.

(** X1: In every arithmetic the indicator kit is instantiated with (exact
    rationals or IEEE binary64), [EMA] returns no value for a period
    [<= 0] and otherwise one value per price, and [MACD] returns one value
    per price. *)
Theorem ema_macd_length (R : Type) (add sub mul div : R -> R -> R) (zero one two : R)
    (of_Z : Z -> R) (prices : list R) (period : Z) :
  List.length (Indicators.EMA R add sub mul div zero one two of_Z prices period) =
    (if (period <=? 0)%Z then 0%nat else List.length prices) /\
  List.length (Indicators.MACD R add sub mul div zero one two of_Z prices) = List.length prices.
Proof.
  assert (HE : forall p,
    List.length (Indicators.EMA R add sub mul div zero one two of_Z prices p) =
    (if (p <=? 0)%Z then 0%nat else List.length prices)).
  { intros p. unfold Indicators.EMA. destruct prices as [|x r].
    - destruct (p <=? 0)%Z; reflexivity.
    - replace (Z.of_nat (List.length (x :: r)) =? 0)%Z with false
        by (symmetry; apply Z.eqb_neq; cbn [List.length]; lia).
      cbn [orb]. destruct (p <=? 0)%Z; [reflexivity|].
      cbn [List.length]. rewrite ema_from_length_any. reflexivity. }
  split; [apply HE|].
  unfold Indicators.MACD. rewrite sub_each_length, !HE. apply Nat.min_id.
Qed.

Lemma rsi_of_range g l : 0 <= g -> 0 <= l -> 0 <= Indicators.rsi_of g l <= 100.
Proof.
  intros Hg Hl. unfold Indicators.rsi_of.
  destruct (Qeq_bool l 0) eqn:E.
  - split; discriminate.
  - assert (Hl' : 0 < l).
    { apply Qle_lteq in Hl as [Hl|Hl]; [exact Hl|].
      exfalso. rewrite <- Hl in E. discriminate. }
    assert (Hrs : 0 <= g / l) by (apply Qle_shift_div_l; [exact Hl'|rewrite Qmult_0_l; exact Hg]).
    assert (Hd : 1 <= 1 + g / l).
    { rewrite <- (Qplus_0_r 1) at 1. apply Qplus_le_compat; [apply Qle_refl|exact Hrs]. }
    assert (Hd0 : 0 < 1 + g / l) by (eapply Qlt_le_trans; [|exact Hd]; reflexivity).
    assert (Hq0 : 0 <= 100 / (1 + g / l))
      by (apply Qle_shift_div_l; [exact Hd0|rewrite Qmult_0_l; discriminate]).
    assert (Hq1 : 100 / (1 + g / l) <= 100).
    { apply Qle_shift_div_r; [exact Hd0|].
      setoid_replace 100 with (100 * 1) at 1 by ring.
      apply Qmult_le_l; [reflexivity|exact Hd]. }
    split.
    + apply Qle_minus_iff in Hq1. setoid_replace (100 - 100 / (1 + g / l))
        with (100 + - (100 / (1 + g / l))) by ring. exact Hq1.
    + apply Qle_minus_iff. setoid_replace (100 + - (100 - 100 / (1 + g / l)))
        with (100 / (1 + g / l)) by ring. exact Hq0.
Qed.

Lemma gain_loss_nonneg c :
  0 <= (if Go.ltb 0 c then c else 0) /\ 0 <= (if Go.ltb 0 c then 0 else Qabs c).
Proof.
  destruct (Go.ltb 0 c) eqn:E.
  - apply Go.ltb_true in E. split; [apply Qlt_le_weak; exact E|apply Qle_refl].
  - split; [apply Qle_refl|apply Qabs_nonneg].
Qed.

Lemma smooth_nonneg p a x : 1 <= p -> 0 <= a -> 0 <= x -> 0 <= (a * (p - 1) + x) / p.
Proof.
  intros Hp Ha Hx.
  apply Qle_shift_div_l; [eapply Qlt_le_trans; [|exact Hp]; reflexivity|].
  rewrite Qmult_0_l. apply (Qplus_le_compat 0 _ 0 _); [|exact Hx].
  apply Qmult_le_0_compat; [exact Ha|]. apply Qle_minus_iff in Hp. exact Hp.
Qed.

Lemma rsi_from_range p g l cs :
  1 <= p -> 0 <= g -> 0 <= l ->
  List.length (Indicators.rsi_from p g l cs) = List.length cs /\
  Forall (fun x => 0 <= x <= 100) (Indicators.rsi_from p g l cs).
Proof.
  revert g l; induction cs as [|c r IH]; intros g l Hp Hg Hl; cbn; [split; [reflexivity|constructor]|].
  destruct (gain_loss_nonneg c) as [Hga Hlo].
  pose proof (smooth_nonneg p g _ Hp Hg Hga) as Hg'.
  pose proof (smooth_nonneg p l _ Hp Hl Hlo) as Hl'.
  destruct (IH _ _ Hp Hg' Hl') as [IH1 IH2].
  split; [f_equal; exact IH1|constructor; [apply rsi_of_range; assumption|exact IH2]].
Qed.

Lemma init_sums_nonneg cs :
  0 <= fst (Indicators.init_sums cs) /\ 0 <= snd (Indicators.init_sums cs).
Proof.
  unfold Indicators.init_sums.
  assert (H : forall acc, 0 <= fst acc /\ 0 <= snd acc ->
    0 <= fst (fold_left (fun '(g, l) c => if Go.ltb 0 c then (g + c, l) else (g, l + Qabs c)) cs acc) /\
    0 <= snd (fold_left (fun '(g, l) c => if Go.ltb 0 c then (g + c, l) else (g, l + Qabs c)) cs acc)).
  { induction cs as [|c r IH]; intros [g l] [Hg Hl]; cbn; [split; assumption|].
    apply IH. destruct (Go.ltb 0 c) eqn:E; cbn.
    - apply Go.ltb_true in E. split; [|exact Hl].
      apply (Qplus_le_compat 0 _ 0 _); [exact Hg|apply Qlt_le_weak; exact E].
    - split; [exact Hg|]. apply (Qplus_le_compat 0 _ 0 _); [exact Hl|apply Qabs_nonneg]. }
  apply H. split; apply Qle_refl.
Qed.

Lemma changes_length x r : List.length (Indicators.changes x r) = List.length r.
Proof. revert x; induction r; intros; cbn; [reflexivity|f_equal; apply IHr]. Qed.

Lemma rsi_init_len (n : nat) period :
  (2 <= n)%nat -> (0 < period)%Z ->
  let initLen := if (Z.of_nat n <=? period)%Z then (n - 1)%nat else Z.to_nat period in
  (1 <= initLen /\ initLen <= n - 1)%nat.
Proof. intros Hn Hp initLen. unfold initLen. destruct (Z.leb_spec (Z.of_nat n) period); lia. Qed.

(** X2: [RSI] returns one value per price, each between 0 and 100, for every
    period and every input. *)
Theorem rsi_range (prices : list Q) (period : Z) :
  List.length (Indicators.RSI prices period) = List.length prices /\
  Forall (fun x => 0 <= x <= 100) (Indicators.RSI prices period).
Proof.
  unfold Indicators.RSI.
  destruct ((List.length prices <? 2)%nat || (period <=? 0)%Z) eqn:E.
  { rewrite repeat_length. split; [reflexivity|].
    apply Forall_forall. intros x Hx. apply repeat_spec in Hx. subst. split; discriminate. }
  apply orb_false_iff in E as [E1 E2]. apply Nat.ltb_ge in E1. apply Z.leb_gt in E2.
  destruct (rsi_init_len _ _ E1 E2) as [Hi1 Hi2].
  set (initLen := if (Z.of_nat (List.length prices) <=? period)%Z then (List.length prices - 1)%nat else Z.to_nat period) in *.
  destruct prices as [|x r]; [cbn in E1; lia|].
  destruct (init_sums_nonneg (firstn initLen (Indicators.changes x r))) as [Hg Hl].
  destruct (Indicators.init_sums (firstn initLen (Indicators.changes x r))) as [g l]. cbn [fst snd] in Hg, Hl.
  assert (Hp : 1 <= inject_Z period) by (change 1 with (inject_Z 1); rewrite <- Zle_Qle; lia).
  assert (Hp0 : 0 < inject_Z period) by (eapply Qlt_le_trans; [|exact Hp]; reflexivity).
  assert (Hg' : 0 <= g / inject_Z period) by (apply Qle_shift_div_l; [exact Hp0|rewrite Qmult_0_l; exact Hg]).
  assert (Hl' : 0 <= l / inject_Z period) by (apply Qle_shift_div_l; [exact Hp0|rewrite Qmult_0_l; exact Hl]).
  destruct (rsi_from_range _ _ _ (skipn initLen (Indicators.changes x r)) Hp Hg' Hl') as [H1 H2].
  pose proof (rsi_of_range _ _ Hg' Hl') as Hv.
  split.
  - cbn [List.length]. rewrite length_app, repeat_length. cbn [List.length].
    rewrite H1, length_skipn, changes_length. cbn [List.length] in Hi2. lia.
  - constructor; [split; discriminate|]. apply Forall_app. split.
    + apply Forall_forall. intros y Hy. apply repeat_spec in Hy. subst. exact Hv.
    + constructor; [exact Hv|exact H2].
Qed.

Lemma changes_nonneg x r : Sorted Qle (x :: r) -> Forall (Qle 0) (Indicators.changes x r).
Proof.
  revert x; induction r as [|y r IH]; intros x Hs; cbn; constructor.
  - apply Sorted_inv in Hs as [_ Hh]. apply HdRel_inv in Hh.
    apply Qle_minus_iff in Hh. unfold Qminus. exact Hh.
  - apply IH. apply Sorted_inv in Hs as [Hs _]. exact Hs.
Qed.

Lemma loss_zero c : 0 <= c -> (if Go.ltb 0 c then 0 else Qabs c) == 0.
Proof.
  intros Hc. destruct (Go.ltb 0 c) eqn:E; [reflexivity|].
  apply Go.ltb_false in E. assert (Hc0 : c == 0) by (apply Qle_antisym; assumption).
  rewrite Hc0. reflexivity.
Qed.

Lemma init_sums_no_loss cs : Forall (Qle 0) cs -> snd (Indicators.init_sums cs) == 0.
Proof.
  unfold Indicators.init_sums.
  assert (H : forall acc, snd acc == 0 ->
    snd (fold_left (fun '(g, l) c => if Go.ltb 0 c then (g + c, l) else (g, l + Qabs c)) cs acc) == 0 \/ ~ Forall (Qle 0) cs).
  { induction cs as [|c r IH]; intros [g l] Hl; cbn; [left; exact Hl|].
    destruct (Qlt_le_dec c 0) as [Hneg|Hc].
    - right. intros Hf. inversion Hf; subst. qcontra.
    - destruct (IH (if Go.ltb 0 c then (g + c, l) else (g, l + Qabs c))) as [H|H].
      + pose proof (loss_zero c Hc) as Hz.
        destruct (Go.ltb 0 c); cbn in *; [exact Hl|]. rewrite Hl, Hz. reflexivity.
      + left; exact H.
      + right. intros Hf. inversion Hf; subst. contradiction. }
  intros Hf. destruct (H (0, 0) (Qeq_refl 0)) as [H'|H']; [exact H'|contradiction].
Qed.

Lemma rsi_of_no_loss g l : l == 0 -> Indicators.rsi_of g l = 100.
Proof. intros Hl. unfold Indicators.rsi_of. rewrite (proj2 (Qeq_bool_iff l 0) Hl). reflexivity. Qed.

Lemma rsi_from_no_loss p g l cs :
  Forall (Qle 0) cs -> l == 0 -> Indicators.rsi_from p g l cs = repeat 100 (List.length cs).
Proof.
  revert g l; induction cs as [|c r IH]; intros g l Hf Hl; cbn; [reflexivity|].
  inversion Hf; subst.
  assert (Hl' : (l * (p - 1) + (if Go.ltb 0 c then 0 else Qabs c)) / p == 0).
  { rewrite Hl, (loss_zero c H1). unfold Qdiv. ring. }
  rewrite (rsi_of_no_loss _ _ Hl'). f_equal. apply IH; assumption.
Qed.

(** X3: For a positive period and a non-decreasing series of at least two
    prices, [RSI] is 50 at index 0 and 100 at every other index. *)
Theorem rsi_rising_series (prices : list Q) (period : Z) :
  (0 < period)%Z -> (2 <= List.length prices)%nat -> Sorted Qle prices ->
  Indicators.RSI prices period = 50 :: repeat 100 (List.length prices - 1).
Proof.
  intros Hp Hn Hs. unfold Indicators.RSI.
  replace ((List.length prices <? 2)%nat || (period <=? 0)%Z) with false
    by (symmetry; apply orb_false_iff; split; [apply Nat.ltb_ge|apply Z.leb_gt]; lia).
  destruct (rsi_init_len _ _ Hn Hp) as [Hi1 Hi2].
  set (initLen := if (Z.of_nat (List.length prices) <=? period)%Z then (List.length prices - 1)%nat else Z.to_nat period) in *.
  destruct prices as [|x r]; [cbn in Hn; lia|].
  pose proof (changes_nonneg x r Hs) as Hc.
  assert (Hl : snd (Indicators.init_sums (firstn initLen (Indicators.changes x r))) == 0).
  { apply init_sums_no_loss. apply Forall_forall. intros y Hy. rewrite Forall_forall in Hc. apply Hc.
    rewrite <- (firstn_skipn initLen (Indicators.changes x r)). apply in_or_app; left; exact Hy. }
  destruct (Indicators.init_sums (firstn initLen (Indicators.changes x r))) as [g l]. cbn [snd] in Hl.
  assert (Hl' : l / inject_Z period == 0) by (rewrite Hl; unfold Qdiv; ring).
  rewrite (rsi_of_no_loss _ _ Hl').
  assert (Hc' : Forall (Qle 0) (skipn initLen (Indicators.changes x r))).
  { apply Forall_forall. intros y Hy. rewrite Forall_forall in Hc. apply Hc.
    rewrite <- (firstn_skipn initLen (Indicators.changes x r)). apply in_or_app; right; exact Hy. }
  rewrite (rsi_from_no_loss _ _ _ _ Hc' Hl').
  f_equal. rewrite length_skipn, changes_length.
  change (100 :: repeat 100 (List.length r - initLen)) with (repeat 100 (S (List.length r - initLen))).
  rewrite <- repeat_app. f_equal. cbn [List.length] in *. lia.
Qed.

Lemma rsi_rising_series_witness :
  Indicators.RSI [1; 2; 2; 5] 2 = [50; 100; 100; 100].
Proof.
  apply (rsi_rising_series [1; 2; 2; 5] 2); [lia|cbn; lia|].
  repeat constructor; vm_compute; discriminate.
Defined.

Lemma true_ranges_spec c hs ls cs :
  (List.length cs <= List.length hs)%nat -> (List.length cs <= List.length ls)%nat ->
  List.length (Indicators.true_ranges c hs ls cs) = List.length cs /\
  Forall (Qle 0) (Indicators.true_ranges c hs ls cs).
Proof.
  revert c hs ls; induction cs as [|c' cs IH]; intros c hs ls H1 H2.
  - destruct hs as [|? ?], ls as [|? ?]; cbn; split; auto.
  - destruct hs as [|h hs]; [cbn in H1; lia|]. destruct ls as [|l ls]; [cbn in H2; lia|].
    cbn [List.length] in H1, H2. destruct (IH c' hs ls ltac:(lia) ltac:(lia)) as [IH1 IH2].
    cbn [Indicators.true_ranges List.length]. split; [f_equal; exact IH1|constructor; [|exact IH2]].
    eapply Qle_trans; [|apply Q.le_max_r]. eapply Qle_trans; [|apply Q.le_max_l]. apply Qabs_nonneg.
Qed.

(** X4: When [highs] and [lows] are at least as long as [closes] and the first
    low does not exceed the first high, [ATR] indexes no slice out of range
    and returns one non-negative value per close. *)
Theorem atr_nonneg (highs lows closes : list Q) (period : Z) :
  (List.length closes <= List.length highs)%nat ->
  (List.length closes <= List.length lows)%nat ->
  nth 0 lows 0 <= nth 0 highs 0 ->
  exists tr, Indicators.ATR highs lows closes period = Some tr /\
    List.length tr = List.length closes /\ Forall (Qle 0) tr.
Proof.
  intros Hh Hl H0. unfold Indicators.ATR.
  destruct ((List.length closes <? 2)%nat || (period <=? 0)%Z) eqn:E.
  { eexists; split; [reflexivity|]. rewrite repeat_length. split; [reflexivity|].
    apply Forall_forall. intros x Hx. apply repeat_spec in Hx. subst. apply Qle_refl. }
  apply orb_false_iff in E as [E1 E2]. apply Nat.ltb_ge in E1. apply Z.leb_gt in E2.
  replace ((List.length highs <? List.length closes)%nat || (List.length lows <? List.length closes)%nat)
    with false by (symmetry; apply orb_false_iff; split; apply Nat.ltb_ge; lia).
  destruct closes as [|c0 cs]; [cbn in E1; lia|].
  destruct highs as [|h0 hs]; [cbn in Hh; lia|]. destruct lows as [|l0 ls]; [cbn in Hl; lia|].
  cbn [List.length] in Hh, Hl. cbn [nth] in H0.
  destruct (true_ranges_spec c0 hs ls cs ltac:(lia) ltac:(lia)) as [T1 T2].
  eexists; split; [reflexivity|]. split.
  - rewrite EMA_Q_length by lia. cbn [List.length]. rewrite T1. reflexivity.
  - apply EMA_Q_bounds; [lia| | | |].
    + intros x y Hxy Hx. rewrite <- Hxy. exact Hx.
    + intros k x p Hk0 Hk1 Hx Hp. apply convex_lower; assumption.
    + intros m l Hm Hlen Hf. apply Qle_shift_div_l; [change 0 with (inject_Z 0); rewrite <- Zlt_Qlt; lia|].
      rewrite Qmult_0_l. eapply Qle_trans; [|apply fold_sum_lower; exact Hf].
      rewrite Qmult_0_r. apply Qle_refl.
    + constructor; [|exact T2]. apply Qle_minus_iff in H0. exact H0.
Qed.

Lemma atr_nonneg_witness :
  exists tr, Indicators.ATR [3; 5; 4] [1; 2; 2] [2; 4; 3] 2 = Some tr /\
    List.length tr = 3%nat /\ Forall (Qle 0) tr.
Proof.
  apply (atr_nonneg [3; 5; 4] [1; 2; 2] [2; 4; 3] 2); [cbn; lia|cbn; lia|vm_compute; discriminate].
Defined.

Lemma spot_collect_filter (raw : list Account.RawSpotBalance) :
  Account.spot_collect
    (fun asset total =>
       Go.ltb 0 total && negb (String.eqb asset "USDT")
       && negb (String.eqb asset "BNB") && negb (String.eqb asset "LDUSDT")) raw =
  filter (fun b => negb (String.eqb (Account.b_Symbol b) "USDT")
                   && negb (String.eqb (Account.b_Symbol b) "BNB")
                   && negb (String.eqb (Account.b_Symbol b) "LDUSDT"))
    (Account.spot_collect (fun _ total => Go.ltb 0 total) raw).
Proof.
  induction raw as [|b r IH]; cbn; [reflexivity|].
  destruct (Go.ltb 0 (Account.rs_Free b + Account.rs_Locked b)); cbn; [|exact IH].
  rewrite IH. reflexivity.
Qed.

Lemma spot_collect_total (raw : list Account.RawSpotBalance) :
  Forall (fun b => 0 < Account.Total b /\ Account.Total b = Account.Free b + Account.Locked b)
    (Account.spot_collect (fun _ total => Go.ltb 0 total) raw).
Proof.
  induction raw as [|b r IH]; cbn; [constructor|].
  destruct (Go.ltb 0 (Account.rs_Free b + Account.rs_Locked b)) eqn:E; [|exact IH].
  constructor; [|exact IH]. cbn. split; [apply Go.ltb_true; exact E|reflexivity].
Qed.

(** X5: On the same reply, the spot [FetchFullBalance] and
    [FetchAccountBalances] fail together or succeed together; then the
    account list is the full list without USDT, BNB and LDUSDT, and every
    full entry has total = free + locked > 0. *)
Theorem spot_account_balances_filter_full (e : Exec.BinanceExecutor)
    (res : Account.Reply (list Account.RawSpotBalance)) :
  match Account.FetchFullBalance e res, Account.FetchAccountBalances e res with
  | inr full, inr acc =>
      acc = filter (fun b => negb (String.eqb (Account.b_Symbol b) "USDT")
                             && negb (String.eqb (Account.b_Symbol b) "BNB")
                             && negb (String.eqb (Account.b_Symbol b) "LDUSDT")) full /\
      Forall (fun b => 0 < Account.Total b /\ Account.Total b = Account.Free b + Account.Locked b) full
  | inl _, inl _ => True
  | _, _ => False
  end.
Proof.
  unfold Account.FetchFullBalance, Account.FetchAccountBalances.
  destruct (String.eqb (Exec.sp_apiKey e) "" || String.eqb (Exec.sp_secretKey e) ""); [exact I|].
  destruct res as [err|err|code body [rerr|] [derr|raw]]; try exact I;
    destruct (negb (code =? 200)%Z); try exact I.
  split; [apply spot_collect_filter|apply spot_collect_total].
Qed.

Lemma futures_collect_filter (raw : list Account.RawFuturesBalance) :
  Account.futures_collect false raw =
  filter (fun b => negb (Qeq_bool (Account.Total b) 0)
                   && (String.eqb (Account.b_Symbol b) "USDT" || Go.ltb 0 (Account.Total b)))
    (Account.futures_collect true raw).
Proof.
  induction raw as [|b r IH]; cbn; [reflexivity|].
  destruct (Qeq_bool (Account.rf_Balance b) 0); cbn; [exact IH|].
  destruct (String.eqb (Account.rf_Asset b) "USDT" || Go.ltb 0 (Account.rf_Balance b)); cbn;
    rewrite IH; reflexivity.
Qed.

(** X6: On the same reply, [fetchFuturesBalance] with and without
    [includeAll] fail together or succeed together; then the account list
    is the full list restricted to non-zero totals that are USDT or
    positive. *)
Theorem futures_account_balances_filter_full (e : Exec.BinanceFuturesExecutor)
    (res : Account.Reply (list Account.RawFuturesBalance)) :
  match Account.fetchFuturesBalance e true res, Account.fetchFuturesBalance e false res with
  | inr full, inr acc =>
      acc = filter (fun b => negb (Qeq_bool (Account.Total b) 0)
                             && (String.eqb (Account.b_Symbol b) "USDT" || Go.ltb 0 (Account.Total b))) full
  | inl _, inl _ => True
  | _, _ => False
  end.
Proof.
  unfold Account.fetchFuturesBalance.
  destruct (Exec.fu_dryRun e).
  { reflexivity. }
  destruct res as [err|err|code body rerr [derr|raw]]; try exact I;
    destruct (300 <=? code)%Z; try exact I.
  apply futures_collect_filter.
Qed.

(** X7: A successful futures [FetchPositionRisk] never returns a negative
    amount. *)
Theorem position_risk_nonneg (e : Exec.BinanceFuturesExecutor) (pair : string)
    (res : Account.Reply (list (string * Q))) (v : Q) :
  Account.FetchPositionRisk e pair res = inr v -> 0 <= v.
Proof.
  unfold Account.FetchPositionRisk. intros H.
  destruct (Exec.fu_dryRun e); [injection H as <-; apply Qle_refl|].
  destruct res as [err|err|code body rerr [derr|ps]]; try discriminate;
    destruct (300 <=? code)%Z; try discriminate.
  destruct (find _ ps) as [p|]; injection H as <-; [apply Qabs_nonneg|apply Qle_refl].
Qed.

(** X8: The spot [FetchTradeHistory] sends at most one request; its [limit]
    parameter lies in 1..1000 and is the requested limit when that is in
    range; its [symbol] is the pair without the slash; every returned trade
    carries that symbol. *)
Theorem spot_trade_history_request (e : Exec.BinanceExecutor) (now_ms : Z) (pair : string) (limit : Z)
    (res : Account.Reply (list Account.RawTrade)) :
  let '(sent, out) := Account.FetchTradeHistory e now_ms pair limit res in
  (List.length sent <= 1)%nat /\
  Forall (fun r => exists l, Exec.param "limit" r = Some (Exec.PStr (Exec.string_of_Z l)) /\
                     (1 <= l <= 1000)%Z /\ ((1 <= limit <= 1000)%Z -> l = limit) /\
                     Exec.param "symbol" r = Some (Exec.PStr (Exec.pairToSymbol pair))) sent /\
  match out with
  | inr trades => Forall (fun t => Account.t_Symbol t = Exec.pairToSymbol pair) trades
  | inl _ => True
  end.
Proof.
  unfold Account.FetchTradeHistory.
  destruct (String.eqb (Exec.sp_apiKey e) "" || String.eqb (Exec.sp_secretKey e) "").
  { split; [cbn; lia|split; constructor]. }
  set (l := if (limit <=? 0)%Z || (1000 <? limit)%Z then 500%Z else limit).
  assert (Hl : (1 <= l <= 1000)%Z /\ ((1 <= limit <= 1000)%Z -> l = limit)).
  { unfold l. destruct (Z.leb_spec limit 0), (Z.ltb_spec 1000 limit); cbn; lia. }
  destruct Hl as [Hl1 Hl2].
  destruct res as [err|err|code body [rerr|] [derr|raw]];
    try destruct (negb (code =? 200)%Z);
    (split; [cbn; lia|split; [repeat constructor; exists l; repeat split; auto; lia|]]);
    try exact I.
  apply Forall_forall. intros t Ht. apply in_map_iff in Ht as [r [<- _]]. reflexivity.
Qed.

(** X9: A live futures close with a positive sell quantity sends only a
    signed POST to the order endpoint with side SELL, reduceOnly true and
    the quantity [futuresQuantityPrecision] gives for the sell quantity in
    float64; with a non-positive sell quantity the order is rejected and
    nothing is sent. *)
Theorem futures_close_request (e : Exec.BinanceFuturesExecutor) (env : Exec.Env)
        (input : Exec.Input) :
  Exec.fu_dryRun e = false ->
  Exec.in_side input = SideClose ->
  let out := Exec.futures_Execute e env input in
  let symbol := Go.drop_slash (Go.ToUpper (Exec.in_pair input)) in
  (0 < Exec.in_sell_quantity input ->
   forall r, In r (Exec.out_sent out) ->
   Exec.req_method r = "POST" /\
   Exec.req_url r = Exec.fu_baseURL e ++ "/fapi/v1/order" /\
   Exec.signed r = true /\
   Exec.param "side" r = Some (Exec.PStr "SELL") /\
   Exec.param "reduceOnly" r = Some (Exec.PStr "true") /\
   Exec.param "quantity" r =
     Some (Exec.PStr (Exec.futuresQuantityPrecision symbol (F64.of_Q (Exec.in_sell_quantity input))))) /\
  (Exec.in_sell_quantity input <= 0 ->
   o_status (Exec.out_order out) = "rejected" /\ Exec.out_sent out = []).
Proof.
  intros Hd Hs. cbn zeta. unfold Exec.futures_Execute. rewrite Hd, Hs.
  destruct (String.eqb (Exec.fu_apiKey e) "" || String.eqb (Exec.fu_secretKey e) "").
  { split; [intros _ r []|intros _; split; reflexivity]. }
  cbn [Side_eqb String.eqb Ascii.eqb Bool.eqb].
  destruct (Go.ltb 0 (Exec.in_sell_quantity input)) eqn:Hl.
  - apply Go.ltb_true in Hl. rewrite finish_sent.
    split; [|intros Hle; exfalso; exact (Qlt_not_le _ _ Hl Hle)].
    intros _ r Hr.
    destruct (Exec.env_send env _); cbn in Hr; try contradiction;
      destruct Hr as [<-|[]]; repeat split.
  - apply Go.ltb_false in Hl.
    split; [intros Hlt; exfalso; exact (Qlt_not_le _ _ Hlt Hl)|].
    intros _. split; reflexivity.
Qed.

Lemma find_pair_upsert_other (t : Holdings.Table) (h : Holding) (p : string) :
  h_pair h <> p -> Holdings.find_pair p (Holdings.UpsertHolding t h) = Holdings.find_pair p t.
Proof.
  intros Hne. unfold Holdings.UpsertHolding, Holdings.find_pair.
  destruct (existsb (fun r => String.eqb (h_pair r) (h_pair h)) t).
  - induction t as [|r t IH]; cbn; [reflexivity|].
    destruct (String.eqb (h_pair r) (h_pair h)) eqn:E; cbn.
    + apply String.eqb_eq in E. rewrite E.
      destruct (String.eqb_spec (h_pair h) p); [contradiction|]. exact IH.
    + destruct (String.eqb (h_pair r) p); [reflexivity|exact IH].
  - induction t as [|r t IH]; cbn.
    + destruct (String.eqb_spec (h_pair h) p); [contradiction|reflexivity].
    + destruct (String.eqb (h_pair r) p); [reflexivity|exact IH].
Qed.

Lemma find_pair_upserts_other (hs : list Holding) (t : Holdings.Table) (p : string) :
  ~ In p (map h_pair hs) ->
  Holdings.find_pair p (fold_left Holdings.UpsertHolding hs t) = Holdings.find_pair p t.
Proof.
  revert t; induction hs as [|h hs IH]; intros t Hn; cbn [fold_left map In] in *; [reflexivity|].
  rewrite IH by tauto. apply find_pair_upsert_other. tauto.
Qed.

Lemma pm_get_ok m k a : acc_ok m -> Store.pm_get k m = Some a -> 0 <= fst a /\ 0 <= snd a.
Proof.
  unfold Store.pm_get. intros Hm H.
  destruct (find (fun kv => String.eqb (fst kv) k) m) as [kv|] eqn:E; [|discriminate].
  injection H as <-. apply find_some in E as [Hin _].
  unfold acc_ok in Hm. rewrite Forall_forall in Hm. exact (Hm _ Hin).
Qed.

Lemma pm_set_ok m k v : acc_ok m -> 0 <= fst v /\ 0 <= snd v -> acc_ok (Store.pm_set k v m).
Proof.
  unfold Store.pm_set, acc_ok. intros Hm Hv.
  destruct (existsb _ m).
  - apply Forall_forall. intros kv Hin. apply in_map_iff in Hin as [kv0 [<- Hin]].
    destruct (String.eqb (fst kv0) k); [exact Hv|].
    rewrite Forall_forall in Hm. exact (Hm _ Hin).
  - apply Forall_app. split; [exact Hm|constructor; [exact Hv|constructor]].
Qed.

Lemma close_cost_nonneg acost aqty qty :
  0 <= acost -> 0 < qty ->
  0 <= (if Go.ltb 0 aqty then
          let ratio := qty / aqty in
          let ratio := if Go.ltb 1 ratio then 1 else ratio in
          acost - acost * ratio
        else acost).
Proof.
  intros Hc Hq. destruct (Go.ltb 0 aqty) eqn:Ea; [|exact Hc].
  apply Go.ltb_true in Ea. cbv zeta.
  assert (Hr : forall r, r <= 1 -> 0 <= acost - acost * r).
  { intros r Hr. setoid_replace (acost - acost * r) with (acost * (1 - r)) by ring.
    apply Qmult_le_0_compat; [exact Hc|]. apply Qle_minus_iff in Hr. exact Hr. }
  destruct (Go.ltb 1 (qty / aqty)) eqn:E1; apply Hr; [apply Qle_refl|].
  apply Go.ltb_false in E1. exact E1.
Qed.

Lemma acc_step_ok m r :
  acc_ok m -> 0 < Store.num (Store.or_filled_qty r) -> 0 < Store.num (Store.or_filled_price r) ->
  acc_ok (Store.acc_step m r).
Proof.
  intros Hm Hq Hp. unfold Store.acc_step.
  set (qty := Store.num (Store.or_filled_qty r)) in *.
  set (price := Store.num (Store.or_filled_price r)) in *.
  destruct (match Store.pm_get (Store.or_pair r) m with Some a => a | None => (0, 0) end)
    as [aqty acost] eqn:Eg.
  assert (Ha : 0 <= aqty /\ 0 <= acost).
  { destruct (Store.pm_get (Store.or_pair r) m) as [a|] eqn:E.
    - subst a. exact (pm_get_ok _ _ _ Hm E).
    - injection Eg as <- <-. split; apply Qle_refl. }
  destruct Ha as [Haq Hac]. apply pm_set_ok; [exact Hm|].
  all: destruct (String.eqb (Store.or_side r) "long");
    [split; cbn [fst snd];
       [apply (Qplus_le_compat 0 _ 0 _); [exact Haq|apply Qlt_le_weak; exact Hq]
       |apply (Qplus_le_compat 0 _ 0 _); [exact Hac|apply Qmult_le_0_compat; apply Qlt_le_weak; assumption]]|].
  all: destruct (String.eqb (Store.or_side r) "close"); [|split; assumption].
  all: destruct (Go.ltb (aqty - qty) 0) eqn:Eq; [split; apply Qle_refl|].
  all: apply Go.ltb_false in Eq; split; cbn [fst snd]; [exact Eq|apply close_cost_nonneg; assumption].
Qed.

Lemma aggregate_query_pos t r :
  In r (Store.aggregate_query t) ->
  0 < Store.num (Store.or_filled_qty r) /\ 0 < Store.num (Store.or_filled_price r).
Proof.
  unfold Store.aggregate_query. rewrite sort_desc_In. intros H.
  apply filter_In in H as [_ H]. apply andb_true_iff in H as [H Hp]. apply andb_true_iff in H as [_ Hq].
  destruct (Store.or_filled_qty r) as [q|]; [|discriminate].
  destruct (Store.or_filled_price r) as [p|]; [|discriminate].
  split; apply Go.ltb_true; assumption.
Qed.

Lemma fold_acc_ok rows m :
  acc_ok m -> (forall r, In r rows -> 0 < Store.num (Store.or_filled_qty r) /\ 0 < Store.num (Store.or_filled_price r)) ->
  acc_ok (fold_left Store.acc_step rows m).
Proof.
  revert m; induction rows as [|r rows IH]; intros m Hm Hr; cbn; [exact Hm|].
  apply IH; [|intros; apply Hr; right; assumption].
  destruct (Hr r (or_introl eq_refl)). apply acc_step_ok; assumption.
Qed.

Lemma pm_set_keys k v m : map fst (Store.pm_set k v m) =
  if existsb (fun kv => String.eqb (fst kv) k) m then map fst m else (map fst m ++ [k])%list.
Proof.
  unfold Store.pm_set. destruct (existsb _ m); [|rewrite map_app; reflexivity].
  rewrite map_map. apply map_ext_in. intros kv _. destruct (String.eqb_spec (fst kv) k); cbn; congruence.
Qed.

Lemma pm_set_nodup k v m : keys_nodup m -> keys_nodup (Store.pm_set k v m).
Proof.
  unfold keys_nodup. rewrite pm_set_keys. intros H.
  destruct (existsb (fun kv => String.eqb (fst kv) k) m) eqn:E; [exact H|].
  apply NoDup_app; [exact H|constructor; [intros []|constructor]|].
  intros x Hx [<-|[]]. apply in_map_iff in Hx as [kv [<- Hin]].
  assert (Hf : existsb (fun kv0 => String.eqb (fst kv0) (fst kv)) m = true)
    by (apply existsb_exists; exists kv; split; [exact Hin|apply String.eqb_refl]).
  congruence.
Qed.

Lemma fold_acc_nodup rows m : keys_nodup m -> keys_nodup (fold_left Store.acc_step rows m).
Proof.
  revert m; induction rows as [|r rows IH]; intros m Hm; cbn; [exact Hm|].
  apply IH. unfold Store.acc_step.
  destruct (Store.pm_get (Store.or_pair r) m) as [[aqty acost]|]; apply pm_set_nodup; exact Hm.
Qed.

Lemma holdings_of_spec m :
  acc_ok m -> keys_nodup m ->
  Forall (fun h => 0 < Quantity h /\ 0 <= TotalCost h /\ AvgPrice h = TotalCost h / Quantity h /\
                   h_source h = "local" /\ h_symbol h = Holdings.split_base (h_pair h))
    (Store.holdings_of m) /\
  NoDup (map h_pair (Store.holdings_of m)) /\
  incl (map h_pair (Store.holdings_of m)) (map fst m).
Proof.
  induction m as [|[k [q c]] m IH]; intros Hok Hnd; cbn; [split; [constructor|split; [constructor|intros x []]]|].
  inversion Hok as [|? ? [Hq Hc] Hok']; subst. inversion Hnd as [|? ? Hnin Hnd']; subst.
  destruct (IH Hok' Hnd') as [IH1 [IH2 IH3]].
  destruct (Go.leb q 0) eqn:El.
  - split; [exact IH1|split; [exact IH2|]]. intros x Hx. right. apply IH3. exact Hx.
  - apply Go.leb_false in El.
    split; [|split].
    + constructor; [|exact IH1]. cbn.
      rewrite (proj2 (Go.ltb_true 0 q) El). repeat split; auto.
    + cbn. constructor; [|exact IH2]. intros Hin. apply Hnin. apply IH3. exact Hin.
    + intros x [<-|Hx]; [left; reflexivity|right; apply IH3; exact Hx].
Qed.

Lemma aggregate_holdings_wf (t : list Store.OrderRow) :
  Forall (fun h => 0 < Quantity h /\ 0 <= TotalCost h /\ AvgPrice h = TotalCost h / Quantity h /\
                   h_source h = "local" /\ h_symbol h = Holdings.split_base (h_pair h))
    (Store.AggregateHoldingsFromOrders t) /\
  NoDup (map h_pair (Store.AggregateHoldingsFromOrders t)).
Proof.
  unfold Store.AggregateHoldingsFromOrders.
  destruct (holdings_of_spec (fold_left Store.acc_step (Store.aggregate_query t) []))
    as [H1 [H2 _]].
  - apply fold_acc_ok; [constructor|apply aggregate_query_pos].
  - apply fold_acc_nodup. constructor.
  - split; assumption.
Qed.

(** X10: Every holding [AggregateHoldingsFromOrders] returns has a positive
    quantity, a non-negative total cost, avg price = total cost / quantity,
    source "local" and the pair's base as symbol; no pair appears twice. *)
Theorem aggregate_holdings_wellformed (t : list Store.OrderRow) :
  Forall (fun h => 0 < Quantity h /\ 0 <= TotalCost h /\ AvgPrice h = TotalCost h / Quantity h /\
                   h_source h = "local" /\ h_symbol h = Holdings.split_base (h_pair h))
    (Store.AggregateHoldingsFromOrders t) /\
  NoDup (map h_pair (Store.AggregateHoldingsFromOrders t)).
Proof. exact (aggregate_holdings_wf t). Qed.

Lemma existsb_false_notin {A} (f : A -> bool) l x :
  existsb f l = false -> In x l -> f x = false.
Proof.
  intros H Hin. destruct (f x) eqn:E; [|reflexivity].
  assert (existsb f l = true) by (apply existsb_exists; exists x; auto). congruence.
Qed.

Lemma InsertOrder_Some t o c t' :
  Store.InsertOrder t o c = Some t' ->
  t' = (t ++ [Store.order_row o c])%list /\ ~ In (o_id o) (map Store.or_id t) /\
  ~ In (ClientOrderID o) (map Store.or_client_order_id t).
Proof.
  unfold Store.InsertOrder.
  destruct (existsb _ t) eqn:E; [discriminate|]. intros H; injection H as <-.
  split; [reflexivity|split]; intros Hin; apply in_map_iff in Hin as [r [Hr Hin]];
    pose proof (existsb_false_notin _ _ _ E Hin) as Hf; cbn beta in Hf;
    apply orb_false_iff in Hf as [H1 H2];
    [rewrite Hr, String.eqb_refl in H1|rewrite Hr, String.eqb_refl in H2]; discriminate.
Qed.

Lemma import_trades_spec uuid pair trades : forall k t,
  let '(n, t') := Store.import_trades uuid k pair t trades in
  exists added, t' = (t ++ added)%list /\ n = Z.of_nat (List.length added) /\
    NoDup (map Store.or_client_order_id added) /\
    Forall (fun r => ~ In (Store.or_client_order_id r) (map Store.or_client_order_id t) /\
                     Store.or_status r = "filled" /\
                     In (Store.or_client_order_id r) (map trade_client trades)) added.
Proof.
  induction trades as [|tr rest IH]; intros k t; cbn [Store.import_trades].
  - exists []. rewrite app_nil_r. repeat split; constructor.
  - assert (Hw : forall k' t0, t0 = t \/ (exists r, t0 = (t ++ [r])%list /\
                   ~ In (Store.or_client_order_id r) (map Store.or_client_order_id t) /\
                   Store.or_status r = "filled" /\ Store.or_client_order_id r = trade_client tr) ->
       let '(n, t') := Store.import_trades uuid k' pair t0 rest in
       exists added, t' = (t0 ++ added)%list /\ n = Z.of_nat (List.length added) /\
         NoDup (map Store.or_client_order_id added) /\
         Forall (fun r => ~ In (Store.or_client_order_id r) (map Store.or_client_order_id t0) /\
                          Store.or_status r = "filled" /\
                          In (Store.or_client_order_id r) (map trade_client (tr :: rest))) added).
    { intros k' t0 _. specialize (IH k' t0).
      destruct (Store.import_trades uuid k' pair t0 rest) as [n t'].
      destruct IH as [added [H1 [H2 [H3 H4]]]]. exists added. repeat split; try assumption.
      eapply Forall_impl; [|exact H4]. cbn. intros r [? [? ?]]. tauto. }
    destruct (Store.OrderExistsByExchangeID t _).
    + exact (Hw k t (or_introl eq_refl)).
    + destruct (Store.InsertOrder t _ _) as [t1|] eqn:Ei.
      * apply InsertOrder_Some in Ei as [-> [_ Hc]].
        specialize (IH (S k) (t ++ [Store.order_row (Store.trade_order (uuid k) pair tr) (Account.t_Timestamp tr)])%list).
        destruct (Store.import_trades uuid (S k) pair _ rest) as [n t'].
        destruct IH as [added [H1 [H2 [H3 H4]]]].
        exists (Store.order_row (Store.trade_order (uuid k) pair tr) (Account.t_Timestamp tr) :: added).
        rewrite H1, <- app_assoc. split; [reflexivity|]. split; [rewrite H2; cbn [List.length]; lia|].
        rewrite map_app in H4. split.
        -- constructor; [|exact H3]. intros Hin. apply in_map_iff in Hin as [r [Hr Hin]].
           rewrite Forall_forall in H4. destruct (H4 r Hin) as [Hn _]. apply Hn.
           apply in_or_app. right. left. exact (eq_sym Hr).
        -- constructor.
           ++ split; [exact Hc|split; [reflexivity|left; reflexivity]].
           ++ eapply Forall_impl; [|exact H4]. cbn. intros r [Hn [Hs Hin]].
              split; [intros Hx; apply Hn, in_or_app; left; exact Hx|split; [exact Hs|right; exact Hin]].
      * exact (Hw (S k) t (or_introl eq_refl)).
Qed.

(** X15: A successful [SyncTradesFromExchange] only appends rows to the orders
    table; it returns the number appended; each appended row has status
    "filled" and a client order id not used before; the number is at most
    the number of distinct "binance-ord-<orderId>" ids among the trades. *)
Theorem sync_trades_append_only t ht uuid pair trades n t' ht' :
  Store.SyncTradesFromExchange t ht uuid pair (inr trades) = inr (n, t', ht') ->
  exists added, t' = (t ++ added)%list /\ n = Z.of_nat (List.length added) /\
    Forall (fun r => ~ In (Store.or_client_order_id r) (map Store.or_client_order_id t) /\
                     Store.or_status r = "filled") added /\
    (n <= Z.of_nat (List.length (nodup string_dec (map trade_client trades))))%Z.
Proof.
  unfold Store.SyncTradesFromExchange. intros H.
  pose proof (import_trades_spec uuid pair trades 0 t) as Hs.
  destruct (Store.import_trades uuid 0 pair t trades) as [n0 t0].
  injection H as <- <- _.
  destruct Hs as [added [H1 [H2 [H3 H4]]]]. exists added.
  split; [exact H1|split; [exact H2|split]].
  - eapply Forall_impl; [|exact H4]. cbn. tauto.
  - rewrite H2. apply Nat2Z.inj_le. rewrite <- (length_map Store.or_client_order_id added).
    apply NoDup_incl_length; [exact H3|]. intros x Hx. apply nodup_In.
    apply in_map_iff in Hx as [r [<- Hr]]. rewrite Forall_forall in H4. apply (H4 r Hr).
Qed.

Lemma trade_covered_app t added tr : trade_covered t tr -> trade_covered (t ++ added)%list tr.
Proof.
  unfold trade_covered, Store.OrderExistsByExchangeID. rewrite existsb_app, map_app.
  intros [H|H]; [left; rewrite H; reflexivity|right; apply in_or_app; left; exact H].
Qed.

Lemma import_trades_snd uuid k pair t trades :
  exists added, snd (Store.import_trades uuid k pair t trades) = (t ++ added)%list.
Proof.
  pose proof (import_trades_spec uuid pair trades k t) as H.
  destruct (Store.import_trades uuid k pair t trades) as [n t'].
  destruct H as [added [H _]]. exists added. exact H.
Qed.

Lemma import_trades_covers uuid t0 pair
  (Hfresh : forall j, ~ In (uuid j) (map Store.or_id t0))
  (Hinj : forall i j, uuid i = uuid j -> i = j) trades : forall k t,
  (forall r, In r t -> In (Store.or_id r) (map Store.or_id t0) \/ exists j, (j < k)%nat /\ Store.or_id r = uuid j) ->
  forall tr, In tr trades -> trade_covered (snd (Store.import_trades uuid k pair t trades)) tr.
Proof.
  induction trades as [|tr1 rest IH]; intros k t Ht tr Htr; [destruct Htr|].
  cbn [Store.import_trades].
  destruct (Store.OrderExistsByExchangeID t _) eqn:Ex.
  - destruct Htr as [<-|Htr]; [|exact (IH k t Ht tr Htr)].
    destruct (import_trades_snd uuid k pair t rest) as [added ->].
    apply trade_covered_app. left. exact Ex.
  - destruct (Store.InsertOrder t _ _) as [t1|] eqn:Ei.
    + pose proof Ei as Ei'. apply InsertOrder_Some in Ei' as [-> _].
      assert (Ht1 : forall r, In r (t ++ [Store.order_row (Store.trade_order (uuid k) pair tr1) (Account.t_Timestamp tr1)])%list ->
                In (Store.or_id r) (map Store.or_id t0) \/ exists j, (j < S k)%nat /\ Store.or_id r = uuid j).
      { intros r Hr. apply in_app_or in Hr as [Hr|[<-|[]]].
        - destruct (Ht r Hr) as [H|[j [Hj H]]]; [left; exact H|right; exists j; split; [lia|exact H]].
        - right. exists k. split; [lia|reflexivity]. }
      destruct (Store.import_trades uuid (S k) pair _ rest) as [n t'] eqn:Er.
      destruct Htr as [<-|Htr]; cbn [snd].
      * pose proof (import_trades_snd uuid (S k) pair
          (t ++ [Store.order_row (Store.trade_order (uuid k) pair tr1) (Account.t_Timestamp tr1)])%list rest) as [added Ha].
        rewrite Er in Ha. cbn [snd] in Ha. rewrite Ha. apply trade_covered_app.
        left. unfold Store.OrderExistsByExchangeID. rewrite existsb_app. apply orb_true_iff. right.
        cbn. rewrite String.eqb_refl. reflexivity.
      * pose proof (IH (S k) _ Ht1 tr Htr) as H. rewrite Er in H. exact H.
    + destruct Htr as [<-|Htr]; [|apply (IH (S k) t); [|exact Htr]].
      * destruct (import_trades_snd uuid (S k) pair t rest) as [added ->].
        apply trade_covered_app. right.
        unfold Store.InsertOrder in Ei. destruct (existsb _ t) eqn:E; [|discriminate].
        apply existsb_exists in E as [r [Hr Hm]]. apply orb_true_iff in Hm as [Hm|Hm];
          apply String.eqb_eq in Hm; cbn in Hm.
        -- exfalso. destruct (Ht r Hr) as [H|[j [Hj H]]].
           ++ rewrite Hm in H. exact (Hfresh k H).
           ++ rewrite Hm in H. apply Hinj in H. lia.
        -- apply in_map_iff. exists r. split; [exact Hm|exact Hr].
      * intros r Hr. destruct (Ht r Hr) as [H|[j [Hj H]]]; [left; exact H|right; exists j; split; [lia|exact H]].
Qed.

Lemma import_trades_covered uuid pair trades : forall k t,
  (forall tr, In tr trades -> trade_covered t tr) ->
  Store.import_trades uuid k pair t trades = (0%Z, t).
Proof.
  induction trades as [|tr rest IH]; intros k t Hc; [reflexivity|].
  cbn [Store.import_trades].
  assert (Hr : forall tr', In tr' rest -> trade_covered t tr') by (intros; apply Hc; right; assumption).
  destruct (Store.OrderExistsByExchangeID t _) eqn:Ex; [exact (IH k t Hr)|].
  destruct (Hc tr (or_introl eq_refl)) as [H|H]; [unfold trade_exid in H; congruence|].
  unfold Store.InsertOrder. destruct (existsb _ t) eqn:E; [exact (IH (S k) t Hr)|].
  exfalso. apply in_map_iff in H as [r [Hr' Hin]].
  pose proof (existsb_false_notin _ _ _ E Hin) as Hf. cbn beta in Hf.
  apply orb_false_iff in Hf as [_ Hf]. cbn in Hf. rewrite Hr' in Hf.
  unfold trade_client in Hf. rewrite String.eqb_refl in Hf. discriminate.
Qed.

(** X16: When the UUIDs drawn by a [SyncTradesFromExchange] run are distinct and
    not ids of the orders table, a second run with the same trades on the
    resulting tables imports nothing and changes neither table. *)
Theorem sync_trades_idempotent t0 ht0 uuid1 uuid2 pair trades n t1 ht1 :
  (forall j, ~ In (uuid1 j) (map Store.or_id t0)) ->
  (forall i j, uuid1 i = uuid1 j -> i = j) ->
  Store.SyncTradesFromExchange t0 ht0 uuid1 pair (inr trades) = inr (n, t1, ht1) ->
  Store.SyncTradesFromExchange t1 ht1 uuid2 pair (inr trades) = inr (0%Z, t1, ht1).
Proof.
  intros Hfresh Hinj H. unfold Store.SyncTradesFromExchange in *.
  pose proof (import_trades_covers uuid1 t0 pair Hfresh Hinj trades 0 t0) as Hc.
  destruct (Store.import_trades uuid1 0 pair t0 trades) as [n0 t'] eqn:E1.
  injection H as <- <- <-. cbn [snd] in Hc.
  rewrite (import_trades_covered uuid2 pair trades 0 t').
  - reflexivity.
  - apply Hc. intros r Hr. left. apply in_map. exact Hr.
Qed.

(** X17: An order inserted into an empty orders table is listed by
    [ListPositions], with its signal and cycle rows, as the only position,
    with the order's id, pair, side, exchange id and filled price; its
    quantity is the filled quantity when non-zero, and stake / price when
    the filled quantity is zero and price and stake are positive. *)
Theorem insert_then_list_positions (o : Order) (ts : Z) (s : Store.SignalRow) (c : Store.CycleStatusRow) (limit : Z) :
  Store.sr_cycle_id s = o_cycle_id o -> Store.cs_id c = o_cycle_id o ->
  Store.InsertOrder [] o ts = Some [Store.order_row o ts] /\
  exists v, Store.ListPositions [Store.order_row o ts] [s] [c] limit = [v] /\
    Store.pv_OrderID v = o_id o /\ Store.pv_Pair v = o_pair o /\
    Store.pv_Side v = Store.side_string (o_side o) /\ Store.pv_ExchangeOrderID v = ExchangeOrderID o /\
    Store.pv_FilledPrice v == FilledPrice o /\
    (~ FilledQuantity o == 0 -> Store.pv_FilledQuantity v == FilledQuantity o) /\
    (FilledQuantity o == 0 -> 0 < FilledPrice o -> 0 < StakeUSDT o ->
     Store.pv_FilledQuantity v == StakeUSDT o / FilledPrice o) /\
    Store.pv_SignalReason v = Store.sr_reason s /\ Store.pv_CycleStatus v = Store.cs_status c /\
    Store.pv_CreatedAt v = ts.
Proof.
  intros Hs Hc. split; [reflexivity|].
  unfold Store.ListPositions, Store.join_positions.
  cbn [flat_map filter]. cbn [Store.or_cycle_id Store.order_row].
  rewrite Hs, Hc, String.eqb_refl. cbn [flat_map filter map app].
  unfold Holdings.sort_desc. cbn [fold_left Holdings.insert_desc].
  destruct (Z.to_nat (if (limit <=? 0)%Z then 50%Z else limit)) as [|m] eqn:El.
  { exfalso. destruct (limit <=? 0)%Z eqn:E; [discriminate|]. apply Z.leb_gt in E. lia. }
  cbn [firstn map]. rewrite firstn_nil. eexists. split; [reflexivity|].
  unfold Store.scan_position, Store.order_row, Store.nullableFloat, Store.nullableString.
  cbn [Store.pv_OrderID Store.pv_Pair Store.pv_Side Store.pv_ExchangeOrderID Store.pv_FilledPrice
       Store.pv_FilledQuantity Store.pv_SignalReason Store.pv_CycleStatus Store.pv_CreatedAt
       Store.or_id Store.or_pair Store.or_side Store.or_exchange_order_id Store.or_filled_price
       Store.or_filled_qty Store.or_stake Store.or_created_at].
  repeat split.
  - destruct (String.eqb_spec (ExchangeOrderID o) ""); [symmetry; assumption|reflexivity].
  - destruct (Qeq_bool (FilledPrice o) 0) eqn:E; [|reflexivity].
    apply Qeq_bool_iff in E. rewrite E. reflexivity.
  - intros Hn. destruct (Qeq_bool (FilledQuantity o) 0) eqn:E; [|reflexivity].
    apply Qeq_bool_iff in E. contradiction.
  - intros Hz Hp Hst. destruct (Qeq_bool (FilledQuantity o) 0) eqn:E.
    + destruct (Qeq_bool (FilledPrice o) 0) eqn:Ep.
      * apply Qeq_bool_iff in Ep. exfalso. rewrite Ep in Hp. exact (Qlt_irrefl 0 Hp).
      * rewrite (proj2 (Go.ltb_true 0 _) Hp), (proj2 (Go.ltb_true 0 _) Hst). reflexivity.
    + apply Qeq_bool_neq in E. contradiction.
Qed.

Lemma clamp_bounds v lo hi : lo <= hi -> lo <= SignalAgent.clamp v lo hi <= hi.
Proof.
  intros H. unfold SignalAgent.clamp.
  destruct (Go.ltb v lo) eqn:E1; [split; [apply Qle_refl|exact H]|].
  apply Go.ltb_false in E1.
  destruct (Go.ltb hi v) eqn:E2; [split; [exact H|apply Qle_refl]|].
  apply Go.ltb_false in E2. split; assumption.
Qed.

Lemma clamp_le_upper v lo hi u : lo <= u -> v <= u -> SignalAgent.clamp v lo hi <= u.
Proof.
  intros H1 H2. unfold SignalAgent.clamp.
  destruct (Go.ltb v lo) eqn:E1; [exact H1|].
  destruct (Go.ltb hi v) eqn:E2; [|exact H2].
  apply Go.ltb_true in E2. apply Qlt_le_weak. exact (Qlt_le_trans _ _ _ E2 H2).
Qed.

Lemma clampInt_bounds v lo hi : (lo <= hi)%Z -> (lo <= SignalAgent.clampInt v lo hi <= hi)%Z.
Proof.
  intros H. unfold SignalAgent.clampInt.
  destruct (v <? lo)%Z eqn:E1; [lia|]. destruct (hi <? v)%Z eqn:E2; [lia|].
  apply Z.ltb_ge in E1, E2. lia.
Qed.

Lemma side_of_not_short s x : SignalAgent.side_of s = Some x -> x <> SideShort.
Proof.
  unfold SignalAgent.side_of. destruct (_ || _); [intros H; injection H as <-; discriminate|].
  destruct (_ || _); [intros H; injection H as <-; discriminate|discriminate].
Qed.

Lemma normalizeSide_not_short s g : SignalAgent.normalizeSide s g <> SideShort.
Proof.
  unfold SignalAgent.normalizeSide.
  destruct (SignalAgent.side_of (SignalAgent.ToLower (SignalAgent.TrimSpace s))) as [x|] eqn:E;
    [exact (side_of_not_short _ _ E)|].
  destruct (SignalAgent.side_of (SignalAgent.ToLower (SignalAgent.TrimSpace g))) as [x|] eqn:E2;
    [exact (side_of_not_short _ _ E2)|discriminate].
Qed.

(** X19: [LangChainAgent.Generate] never returns an error or a short side; the
    confidence lies in [0, 1], the TTL in [60, 1800], and a side-none
    signal has confidence at most 0.55. *)
Theorem langchain_signal_bounds (adaptSystemPrompt : SignalAgent.Agent -> string)
        (a : SignalAgent.Agent) (env : SignalAgent.Env) (input : SignalAgent.Input) :
  let out := SignalAgent.Generate adaptSystemPrompt a env input in
  snd out = None /\
  sig_side (fst out) <> SideShort /\
  0 <= sig_confidence (fst out) <= 1 /\
  (60 <= sig_ttl_seconds (fst out) <= 1800)%Z /\
  (sig_side (fst out) = SideNone -> sig_confidence (fst out) <= 55 # 100).
Proof.
  cbn zeta. unfold SignalAgent.Generate.
  assert (Hf : forall r, let out := SignalAgent.fallbackGenerate env input r in
     snd out = None /\ sig_side (fst out) <> SideShort /\ 0 <= sig_confidence (fst out) <= 1 /\
     (60 <= sig_ttl_seconds (fst out) <= 1800)%Z /\
     (sig_side (fst out) = SideNone -> sig_confidence (fst out) <= 55 # 100)).
  { intros r. cbn. repeat split; try discriminate; try lia; intros; discriminate. }
  destruct (SignalAgent.env_model env _ _) as [msg|[|c cs]]; try apply Hf.
  destruct (SignalAgent.extractTokenUsage _) as [[pt ct] tt].
  destruct (SignalAgent.parseLLMOutput _ _) as [err|parsed]; [apply Hf|].
  cbn [fst snd sig_side sig_confidence sig_ttl_seconds].
  split; [reflexivity|split; [apply normalizeSide_not_short|split; [|split]]].
  - apply clamp_bounds. discriminate.
  - apply clampInt_bounds. lia.
  - intros Hn. rewrite Hn. cbn [Side_eqb].
    apply clamp_le_upper; [discriminate|apply Q.le_min_r].
Qed.

(** X18: [RuleBasedAgent.Generate] goes long iff change >= 1.2 and funding <=
    0.01, short iff change <= -1.2 and funding >= -0.01, never close; the
    confidence lies in [0.5, 0.9] and is at least 0.55 for a long or short;
    the TTL is 300 and the model name "rule-based". *)
Theorem rule_signal_spec (uuid : string) (input : SignalAgent.Input) :
  let s := RuleSignal.Generate uuid input in
  let change := SignalAgent.in_Change24h input in
  let funding := SignalAgent.in_FundingRate input in
  (sig_side s = SideLong <-> 12 # 10 <= change /\ funding <= 1 # 100) /\
  (sig_side s = SideShort <-> change <= - (12 # 10) /\ - (1 # 100) <= funding) /\
  sig_side s <> SideClose /\
  1 # 2 <= sig_confidence s <= 9 # 10 /\
  (sig_side s <> SideNone -> 55 # 100 <= sig_confidence s) /\
  sig_ttl_seconds s = 300%Z /\ sig_model_name s = "rule-based".
Proof.
  cbn zeta. unfold RuleSignal.Generate.
  set (change := SignalAgent.in_Change24h input).
  set (funding := SignalAgent.in_FundingRate input).
  set (conf := SignalAgent.clamp ((55 # 100) + Qabs change / 25) (55 # 100) (9 # 10)).
  assert (Hc : 55 # 100 <= conf <= 9 # 10) by (apply clamp_bounds; discriminate).
  assert (Hc' : 1 # 2 <= conf <= 9 # 10).
  { split; [|apply Hc]. apply (Qle_trans _ (55 # 100)); [discriminate|apply Hc]. }
  destruct (Go.leb (12 # 10) change) eqn:L1; destruct (Go.leb funding (1 # 100)) eqn:L2;
  destruct (Go.leb change (- (12 # 10))) eqn:S1; destruct (Go.leb (- (1 # 100)) funding) eqn:S2;
  cbn [andb sig_side sig_confidence sig_ttl_seconds sig_model_name];
  repeat match goal with H : Go.leb _ _ = true |- _ => apply Go.leb_true in H
                       | H : Go.leb _ _ = false |- _ => apply Go.leb_false in H end.
  all: try (exfalso; assert (X : 12 # 10 <= - (12 # 10)) by (apply (Qle_trans _ change); assumption);
            apply X; reflexivity).
  all: repeat split; try discriminate; try assumption; try apply Hc; try apply Hc';
       try (intros [? ?]; qcontra); try (intros; discriminate).
  all: first [intros _; apply Hc | intros H; exfalso; apply H; reflexivity].
Qed.

(** X20: The risk agent's [Evaluate] gives a short signal the decision it gives
    the same signal with side long. *)
Theorem risk_short_as_long (a : Risk.RuleAgent) (fresh : string) (cyc : string) (p : PortfolioState)
        (id cid pr : string) (conf : Q) (reason thinking : string) (pt ct tt : Z) (model : string) (ttl : Z) :
  Risk.Evaluate a fresh (Risk.mkInput cyc (mkSignal id cid pr SideShort conf reason thinking pt ct tt model ttl) p) =
  Risk.Evaluate a fresh (Risk.mkInput cyc (mkSignal id cid pr SideLong conf reason thinking pt ct tt model ttl) p).
Proof. reflexivity. Qed.

Lemma finish_out_indep o1 o2 req res f1 f2 :
  Exec.out_sent (Exec.finish o1 req res f1) = Exec.out_sent (Exec.finish o2 req res f2) /\
  Exec.out_err (Exec.finish o1 req res f1) = Exec.out_err (Exec.finish o2 req res f2).
Proof.
  destruct res as [| |code body [r|]]; cbn; try (split; reflexivity);
    destruct (300 <=? code)%Z; split; reflexivity.
Qed.

(** X21: Out of dry-run mode, the spot and futures executors send for a short
    input the requests they send for the same long input (a BUY order) and
    return the same error. *)
Theorem live_executors_buy_on_short (e : Exec.BinanceExecutor) (f : Exec.BinanceFuturesExecutor) (env : Exec.Env)
        (cyc sid pair : string) (stake est sellq : Q) :
  Exec.sp_dryRun e = false -> Exec.fu_dryRun f = false ->
  let short := Exec.mkInput cyc sid pair SideShort stake est sellq in
  let long := Exec.mkInput cyc sid pair SideLong stake est sellq in
  Exec.out_sent (Exec.spot_Execute e env short) = Exec.out_sent (Exec.spot_Execute e env long) /\
  Exec.out_err (Exec.spot_Execute e env short) = Exec.out_err (Exec.spot_Execute e env long) /\
  Exec.out_sent (Exec.futures_Execute f env short) = Exec.out_sent (Exec.futures_Execute f env long) /\
  Exec.out_err (Exec.futures_Execute f env short) = Exec.out_err (Exec.futures_Execute f env long).
Proof.
  intros Hs Hf. cbn zeta. unfold Exec.spot_Execute, Exec.futures_Execute. rewrite Hs, Hf.
  cbn [Exec.in_side Exec.in_stake Exec.in_pair Exec.in_sell_quantity Exec.in_estimated_fill
       Exec.in_cycle_id Exec.in_signal_id Side_eqb ClientOrderID].
  change (String.eqb "BUY" "BUY") with true. cbv iota.
  destruct (String.eqb (Exec.sp_apiKey e) "" || String.eqb (Exec.sp_secretKey e) "");
    [split; [reflexivity|split; [reflexivity|]]|split; [apply finish_out_indep|split; [apply finish_out_indep|]]].
  all: destruct (String.eqb (Exec.fu_apiKey f) "" || String.eqb (Exec.fu_secretKey f) "");
    [split; reflexivity|].
  all: destruct (Go.ltb 0 est); [|split; reflexivity].
  all: apply finish_out_indep.
Qed.

Lemma find_pair_upsert_same (t : Holdings.Table) (h : Holding) :
  exists r, Holdings.find_pair (h_pair h) (Holdings.UpsertHolding t h) = Some r /\
    Quantity r = Quantity h /\ AvgPrice r = AvgPrice h /\ TotalCost r = TotalCost h /\
    h_source r = h_source h.
Proof.
  unfold Holdings.UpsertHolding, Holdings.find_pair.
  destruct (existsb (fun r => String.eqb (h_pair r) (h_pair h)) t) eqn:He;
    induction t as [|x r IH]; cbn in *; try discriminate.
  - destruct (String.eqb (h_pair x) (h_pair h)) eqn:E; cbn.
    + rewrite E. eexists. repeat split.
    + rewrite E. exact (IH He).
  - rewrite String.eqb_refl. eexists. repeat split.
  - apply orb_false_iff in He as [E He]. rewrite E. exact (IH He).
Qed.

Lemma find_pair_upserts_in (hs : list Holding) (t : Holdings.Table) (h : Holding) :
  NoDup (map h_pair hs) -> In h hs ->
  exists r, Holdings.find_pair (h_pair h) (fold_left Holdings.UpsertHolding hs t) = Some r /\
    Quantity r = Quantity h /\ AvgPrice r = AvgPrice h /\ TotalCost r = TotalCost h /\
    h_source r = h_source h.
Proof.
  revert t; induction hs as [|h0 hs IH]; intros t Hnd Hin; [destruct Hin|].
  cbn [fold_left]. inversion Hnd as [|? ? Hn Hnd']; subst.
  destruct Hin as [<-|Hin].
  - rewrite find_pair_upserts_other by exact Hn. apply find_pair_upsert_same.
  - exact (IH _ Hnd' Hin).
Qed.

(** X12: After [syncHoldingsFromOrders], the row of each aggregated pair has the
    aggregated quantity, avg price and cost with source "local", and the
    row of every other pair, such as a pair sold out, is left unchanged. *)
Theorem sync_holdings_from_orders_rows (ht : Holdings.Table) (t : list Store.OrderRow) :
  (forall h, In h (Store.AggregateHoldingsFromOrders t) ->
     exists r, Holdings.find_pair (h_pair h) (Store.syncHoldingsFromOrders ht t) = Some r /\
       Quantity r = Quantity h /\ AvgPrice r = AvgPrice h /\ TotalCost r = TotalCost h /\
       h_source r = "local") /\
  (forall p, ~ In p (map h_pair (Store.AggregateHoldingsFromOrders t)) ->
     Holdings.find_pair p (Store.syncHoldingsFromOrders ht t) = Holdings.find_pair p ht).
Proof.
  destruct (aggregate_holdings_wf t) as [Hf Hnd]. split.
  - intros h Hin. destruct (find_pair_upserts_in _ ht h Hnd Hin) as [r [H1 [H2 [H3 [H4 H5]]]]].
    exists r. rewrite Forall_forall in Hf. destruct (Hf h Hin) as [_ [_ [_ [Hs _]]]].
    repeat split; try assumption. congruence.
  - intros p Hn. apply find_pair_upserts_other. exact Hn.
Qed.

Lemma string_app_cancel_r (s1 s2 x : string) : (s1 ++ x = s2 ++ x)%string -> s1 = s2.
Proof.
  assert (Hl : forall s y, String.length (s ++ y) = (String.length s + String.length y)%nat)
    by (induction s as [|c s IH]; intros y; cbn; [reflexivity|rewrite IH; reflexivity]).
  revert s2; induction s1 as [|c1 r1 IH]; intros [|c2 r2] H; cbn in H.
  - reflexivity.
  - apply (f_equal String.length) in H. cbn in H. rewrite Hl in H. lia.
  - apply (f_equal String.length) in H. cbn in H. rewrite Hl in H. lia.
  - injection H as -> H. f_equal. exact (IH _ H).
Qed.

Lemma syncExchange_fold ht bs t :
  Store.syncHoldingsFromExchange ht (inr bs) t =
  fold_left Holdings.UpsertHolding (map exchange_holding bs) ht.
Proof.
  unfold Store.syncHoldingsFromExchange. revert ht.
  induction bs as [|b bs IH]; intros ht; cbn; [reflexivity|]. apply IH.
Qed.

(** X13: After a successful spot [FetchAccountBalances] with distinct assets,
    [syncHoldingsFromExchange] gives each asset's row "<asset>/USDT" the
    asset's positive total with zero avg price and cost and source
    "exchange", and leaves the rows USDT/USDT, BNB/USDT and LDUSDT/USDT as
    they were. *)
Theorem sync_exchange_spot_rows (e : Exec.BinanceExecutor) (res : Account.Reply (list Account.RawSpotBalance))
        (bs : list Account.Balance) (ht : Holdings.Table) (t : list Store.OrderRow) :
  Account.FetchAccountBalances e res = inr bs ->
  NoDup (map Account.b_Symbol bs) ->
  (forall b, In b bs ->
     exists r, Holdings.find_pair (Account.b_Symbol b ++ "/USDT") (Store.syncHoldingsFromExchange ht (inr bs) t) = Some r /\
       Quantity r = Account.Total b /\ 0 < Quantity r /\ AvgPrice r = 0 /\ TotalCost r = 0 /\
       h_source r = "exchange") /\
  (forall q, In q ["USDT"; "BNB"; "LDUSDT"] ->
     Holdings.find_pair (q ++ "/USDT") (Store.syncHoldingsFromExchange ht (inr bs) t) =
     Holdings.find_pair (q ++ "/USDT") ht).
Proof.
  intros Hf Hnd. rewrite syncExchange_fold.
  assert (Hm : forall b, In b bs ->
            0 < Account.Total b /\ Account.b_Symbol b <> "USDT" /\ Account.b_Symbol b <> "BNB" /\
            Account.b_Symbol b <> "LDUSDT").
  { unfold Account.FetchAccountBalances in Hf.
    destruct (String.eqb (Exec.sp_apiKey e) "" || String.eqb (Exec.sp_secretKey e) ""); [discriminate|].
    destruct res as [err|err|code body [rerr|] [derr|raw]]; try discriminate;
      destruct (negb (code =? 200)%Z); try discriminate.
    injection Hf as <-. intros b Hb. rewrite spot_collect_filter in Hb.
    apply filter_In in Hb as [Hb Hk].
    pose proof (spot_collect_total raw) as Ht. rewrite Forall_forall in Ht.
    destruct (Ht b Hb) as [Hp _].
    apply andb_true_iff in Hk as [Hk H3]. apply andb_true_iff in Hk as [H1 H2].
    apply negb_true_iff, String.eqb_neq in H1, H2, H3. auto. }
  assert (Hnd' : NoDup (map h_pair (map exchange_holding bs))).
  { rewrite map_map. apply (NoDup_map_inv (fun s => s)). rewrite map_map.
    clear -Hnd. induction bs as [|b bs IH]; cbn in *; [constructor|].
    inversion Hnd as [|? ? Hn Hnd']; subst. constructor; [|exact (IH Hnd')].
    intros Hin. apply Hn. apply in_map_iff in Hin as [b' [Heq Hb']].
    apply string_app_cancel_r in Heq. rewrite <- Heq. apply in_map. exact Hb'. }
  split.
  - intros b Hb. destruct (find_pair_upserts_in _ ht (exchange_holding b) Hnd' (in_map _ _ _ Hb))
      as [r [H1 [H2 [H3 [H4 H5]]]]].
    exists r. cbn in *. repeat split; try assumption.
    rewrite H2. apply (Hm b Hb).
  - intros q Hq. apply find_pair_upserts_other. rewrite map_map. intros Hin.
    apply in_map_iff in Hin as [b [Heq Hb]]. cbn in Heq. apply string_app_cancel_r in Heq.
    destruct (Hm b Hb) as [_ [H1 [H2 H3]]].
    destruct Hq as [<-|[<-|[<-|[]]]]; contradiction.
Qed.











Lemma sync_exchange_lookup (bs : list Account.Balance) (ht : Holdings.Table) (t : list Store.OrderRow) (b : Account.Balance) :
  NoDup (map Account.b_Symbol bs) -> In b bs ->
  exists r, Holdings.find_pair (Account.b_Symbol b ++ "/USDT") (Store.syncHoldingsFromExchange ht (inr bs) t) = Some r /\
    Quantity r = Account.Total b /\ AvgPrice r = 0 /\ TotalCost r = 0 /\ h_source r = "exchange".
Proof.
  intros Hnd Hb. rewrite syncExchange_fold.
  assert (Hnd' : NoDup (map h_pair (map exchange_holding bs))).
  { rewrite map_map. clear -Hnd. induction bs as [|b bs IH]; cbn in *; [constructor|].
    inversion Hnd as [|? ? Hn Hnd']; subst. constructor; [|exact (IH Hnd')].
    intros Hin. apply Hn. apply in_map_iff in Hin as [b' [Heq Hb']].
    apply string_app_cancel_r in Heq. rewrite <- Heq. apply in_map. exact Hb'. }
  destruct (find_pair_upserts_in _ ht (exchange_holding b) Hnd' (in_map _ _ _ Hb))
    as [r [H1 [H2 [H3 [H4 H5]]]]].
  exists r. cbn in *. repeat split; assumption.
Qed.

(** X14: After a successful futures [fetchFuturesBalance(false)] with distinct
    assets, the exchange sync gives each asset's row "<asset>/USDT" the
    asset's non-zero wallet balance with source "exchange"; it is positive
    except for USDT, so a USDT/USDT row is written, possibly negative. *)
Theorem sync_exchange_futures_rows (e : Exec.BinanceFuturesExecutor) (res : Account.Reply (list Account.RawFuturesBalance))
        (bs : list Account.Balance) (ht : Holdings.Table) (t : list Store.OrderRow) :
  Account.fetchFuturesBalance e false res = inr bs ->
  NoDup (map Account.b_Symbol bs) ->
  forall b, In b bs ->
    exists r, Holdings.find_pair (Account.b_Symbol b ++ "/USDT") (Store.syncHoldingsFromExchange ht (inr bs) t) = Some r /\
      Quantity r = Account.Total b /\ ~ Quantity r == 0 /\
      (Account.b_Symbol b <> "USDT" -> 0 < Quantity r) /\ h_source r = "exchange".
Proof.
  intros Hf Hnd b Hb.
  assert (Hm : ~ Account.Total b == 0 /\ (Account.b_Symbol b <> "USDT" -> 0 < Account.Total b)).
  { unfold Account.fetchFuturesBalance in Hf. destruct (Exec.fu_dryRun e).
    - injection Hf as <-. destruct Hb as [<-|[]]. cbn. split; [discriminate|intros H; contradiction H; reflexivity].
    - destruct res as [err|err|code body rerr [derr|raw]]; try discriminate;
        destruct (300 <=? code)%Z; try discriminate.
      injection Hf as <-. rewrite futures_collect_filter in Hb. apply filter_In in Hb as [_ Hk].
      apply andb_true_iff in Hk as [H1 H2]. apply negb_true_iff in H1. split.
      + intros Hz. apply Qeq_bool_iff in Hz. congruence.
      + intros Hn. apply orb_true_iff in H2 as [H2|H2]; [apply String.eqb_eq in H2; contradiction|].
        apply Go.ltb_true. exact H2. }
  destruct (sync_exchange_lookup bs ht t b Hnd Hb) as [r [H1 [H2 [_ [_ H5]]]]].
  exists r. rewrite H2. repeat split; try apply Hm; assumption.
Qed.

Lemma insert_desc_perm {A} (ge : A -> A -> bool) x l : Permutation (Holdings.insert_desc ge x l) (x :: l).
Proof.
  induction l as [|y l IH]; cbn; [reflexivity|].
  destruct (ge x y); [reflexivity|]. rewrite IH. apply perm_swap.
Qed.

Lemma sort_desc_perm {A} (ge : A -> A -> bool) l : Permutation (Holdings.sort_desc ge l) l.
Proof.
  unfold Holdings.sort_desc.
  assert (H : forall acc, Permutation (fold_left (fun acc x => Holdings.insert_desc ge x acc) l acc) (l ++ acc)).
  { induction l as [|x l IH]; intros acc; cbn; [reflexivity|].
    rewrite IH, insert_desc_perm. symmetry. apply Permutation_middle. }
  rewrite H. rewrite app_nil_r. reflexivity.
Qed.

Lemma perm_filter {A} (f : A -> bool) l1 l2 : Permutation l1 l2 -> Permutation (filter f l1) (filter f l2).
Proof.
  induction 1; cbn.
  - reflexivity.
  - destruct (f x); [apply perm_skip|]; assumption.
  - destruct (f x), (f y); try reflexivity. apply perm_swap.
  - etransitivity; eassumption.
Qed.

Lemma filter_filter_and {A} (f g : A -> bool) l : filter f (filter g l) = filter (fun x => f x && g x) l.
Proof.
  induction l as [|x l IH]; cbn; [reflexivity|].
  destruct (g x) eqn:E1; destruct (f x) eqn:E2; cbn; rewrite ?E1, ?E2, ?IH; reflexivity.
Qed.

Lemma qsum_perm f l1 l2 : Permutation l1 l2 -> qsum f l1 == qsum f l2.
Proof.
  induction 1; cbn.
  - reflexivity.
  - rewrite IHPermutation. reflexivity.
  - ring.
  - rewrite IHPermutation1. exact IHPermutation2.
Qed.

Lemma pm_get_set_same k v m : Store.pm_get k (Store.pm_set k v m) = Some v.
Proof.
  unfold Store.pm_get, Store.pm_set.
  destruct (existsb (fun kv => String.eqb (fst kv) k) m) eqn:E.
  - induction m as [|[k' v'] m IH]; cbn in *; [discriminate|].
    destruct (String.eqb k' k) eqn:Ek; cbn; [rewrite String.eqb_refl; reflexivity|].
    rewrite Ek. exact (IH E).
  - induction m as [|[k' v'] m IH]; cbn in *; [rewrite String.eqb_refl; reflexivity|].
    apply orb_false_iff in E as [E1 E2]. rewrite E1. exact (IH E2).
Qed.

Lemma pm_get_set_other k k' v m : k <> k' -> Store.pm_get k' (Store.pm_set k v m) = Store.pm_get k' m.
Proof.
  intros Hne. unfold Store.pm_get, Store.pm_set.
  assert (Hk : String.eqb k k' = false) by (apply String.eqb_neq; exact Hne).
  destruct (existsb (fun kv => String.eqb (fst kv) k) m).
  - induction m as [|[k0 v0] m IH]; cbn; [reflexivity|].
    destruct (String.eqb k0 k) eqn:E0; cbn.
    + apply String.eqb_eq in E0. subst k0. rewrite Hk. exact IH.
    + destruct (String.eqb k0 k'); [reflexivity|exact IH].
  - induction m as [|[k0 v0] m IH]; cbn; [rewrite Hk; reflexivity|].
    destruct (String.eqb k0 k'); [reflexivity|exact IH].
Qed.

Lemma pm_get_acc_other m r k : Store.or_pair r <> k -> Store.pm_get k (Store.acc_step m r) = Store.pm_get k m.
Proof.
  intros Hne. unfold Store.acc_step.
  destruct (match Store.pm_get (Store.or_pair r) m with Some a => a | None => (0, 0) end) as [aqty acost].
  apply pm_get_set_other. exact Hne.
Qed.

Lemma pm_get_acc_long m r :
  Store.or_side r = "long" ->
  Store.pm_get (Store.or_pair r) (Store.acc_step m r) =
  Some (let '(aqty, acost) := match Store.pm_get (Store.or_pair r) m with Some a => a | None => (0, 0) end in
        (aqty + Store.num (Store.or_filled_qty r),
         acost + Store.num (Store.or_filled_qty r) * Store.num (Store.or_filled_price r))).
Proof.
  intros Hl. unfold Store.acc_step. rewrite Hl. cbn [String.eqb Ascii.eqb Bool.eqb].
  destruct (match Store.pm_get (Store.or_pair r) m with Some a => a | None => (0, 0) end) as [aqty acost].
  apply pm_get_set_same.
Qed.

Lemma fold_acc_long_sums p rows m :
  Forall (fun r => Store.or_pair r = p -> Store.or_side r = "long") rows ->
  let rp := filter (fun r => String.eqb (Store.or_pair r) p) rows in
  rp <> [] ->
  exists q c, Store.pm_get p (fold_left Store.acc_step rows m) = Some (q, c) /\
    q == fst (match Store.pm_get p m with Some a => a | None => (0, 0) end) + qsum (fun r => Store.num (Store.or_filled_qty r)) rp /\
    c == snd (match Store.pm_get p m with Some a => a | None => (0, 0) end) +
         qsum (fun r => Store.num (Store.or_filled_qty r) * Store.num (Store.or_filled_price r)) rp.
Proof.
  cbn zeta. revert m. induction rows as [|r rows IH]; intros m Hl Hne; [contradiction Hne; reflexivity|].
  inversion Hl as [|? ? Hr Hl']; subst. cbn [fold_left filter] in *.
  destruct (String.eqb_spec (Store.or_pair r) p) as [Ep|Ep].
  - pose proof (pm_get_acc_long m r (Hr Ep)) as Hg. rewrite Ep in Hg.
    destruct (filter (fun r0 => String.eqb (Store.or_pair r0) p) rows) as [|r1 rs] eqn:Ef.
    + assert (Hs : Store.pm_get p (fold_left Store.acc_step rows (Store.acc_step m r)) =
                   Store.pm_get p (Store.acc_step m r)).
      { clear -Ef. generalize (Store.acc_step m r). induction rows as [|x rows IH]; intros m0; cbn in *; [reflexivity|].
        destruct (String.eqb_spec (Store.or_pair x) p); [discriminate|].
        rewrite IH by exact Ef. apply pm_get_acc_other. assumption. }
      rewrite Hs, Hg. destruct (match Store.pm_get p m with Some a => a | None => (0, 0) end) as [aq ac].
      eexists _, _. split; [reflexivity|]. cbn. split; ring.
    + destruct (IH (Store.acc_step m r) Hl' ltac:(discriminate)) as [q [c [H1 [H2 H3]]]].
      exists q, c. split; [exact H1|]. rewrite Hg in H2, H3.
      destruct (match Store.pm_get p m with Some a => a | None => (0, 0) end) as [aq ac].
      cbn [fst snd qsum fold_right] in *. split; [rewrite H2|rewrite H3]; ring.
  - pose proof (IH (Store.acc_step m r) Hl' Hne) as H.
    rewrite (pm_get_acc_other m r p Ep) in H. exact H.
Qed.

Lemma holdings_of_find m p q c :
  keys_nodup m -> Store.pm_get p m = Some (q, c) -> 0 < q ->
  Holdings.find_pair p (Store.holdings_of m) =
  Some (mkHolding p (Holdings.split_base p) q (c / q) c "local").
Proof.
  unfold keys_nodup, Store.pm_get, Holdings.find_pair. intros Hnd Hg Hq.
  induction m as [|[k [q0 c0]] m IH]; cbn in *; [discriminate|].
  inversion Hnd as [|? ? Hn Hnd']; subst.
  destruct (String.eqb_spec k p) as [<-|Ek].
  - cbn in Hg. injection Hg as -> ->. destruct (Go.leb q 0) eqn:El.
    + apply Go.leb_true in El. qcontra.
    + cbn. rewrite String.eqb_refl, (proj2 (Go.ltb_true 0 q) Hq). reflexivity.
  - destruct (Go.leb q0 0); [exact (IH Hnd' Hg)|]. cbn.
    destruct (String.eqb_spec k p); [contradiction|]. exact (IH Hnd' Hg).
Qed.

(** X11: When a pair has counted order rows (status filled or simulated_filled,
    positive quantity and price) and all of them are buys, its aggregated
    holding has the sum of their quantities as quantity and the sum of
    quantity * price as total cost. *)
Theorem aggregate_long_only_sums (t : list Store.OrderRow) (p : string) :
  let rows := filter (fun r => String.eqb (Store.or_pair r) p && agg_counted r) t in
  rows <> [] -> Forall (fun r => Store.or_side r = "long") rows ->
  exists h, Holdings.find_pair p (Store.AggregateHoldingsFromOrders t) = Some h /\
    Quantity h == qsum (fun r => Store.num (Store.or_filled_qty r)) rows /\
    TotalCost h == qsum (fun r => Store.num (Store.or_filled_qty r) * Store.num (Store.or_filled_price r)) rows /\
    AvgPrice h = TotalCost h / Quantity h /\ h_source h = "local".
Proof.
  cbn zeta. intros Hne Hl. unfold Store.AggregateHoldingsFromOrders.
  set (Q0 := Store.aggregate_query t).
  assert (HQ : forall r, In r Q0 <-> In r t /\ agg_counted r = true).
  { intros r. unfold Q0, Store.aggregate_query. rewrite sort_desc_In, filter_In. reflexivity. }
  assert (Hperm : Permutation (filter (fun r => String.eqb (Store.or_pair r) p) Q0)
                              (filter (fun r => String.eqb (Store.or_pair r) p && agg_counted r) t)).
  { unfold Q0, Store.aggregate_query. rewrite (perm_filter _ _ _ (sort_desc_perm _ _)).
    rewrite filter_filter_and. reflexivity. }
  assert (HlQ : Forall (fun r => Store.or_pair r = p -> Store.or_side r = "long") Q0).
  { apply Forall_forall. intros r Hr Hp. rewrite Forall_forall in Hl. apply Hl.
    apply HQ in Hr as [Hr Hc]. apply filter_In. split; [exact Hr|]. rewrite Hp, String.eqb_refl. exact Hc. }
  assert (HneQ : filter (fun r => String.eqb (Store.or_pair r) p) Q0 <> []).
  { intros H. rewrite H in Hperm. apply Permutation_nil in Hperm. exact (Hne Hperm). }
  destruct (fold_acc_long_sums p Q0 [] HlQ HneQ) as [q [c [Hg [Hq Hc]]]].
  cbn [Store.pm_get find option_map fst snd] in Hq, Hc.
  rewrite (qsum_perm _ _ _ Hperm) in Hq. rewrite (qsum_perm _ _ _ Hperm) in Hc.
  assert (Hpos : 0 < q).
  { rewrite Hq. destruct (filter _ t) as [|r rs] eqn:Ef; [contradiction|].
    assert (Hall : forall x, In x (r :: rs) -> 0 < Store.num (Store.or_filled_qty x)).
    { intros x Hx. rewrite <- Ef in Hx. apply filter_In in Hx as [_ Hx].
      apply andb_true_iff in Hx as [_ Hx]. unfold agg_counted in Hx.
      apply andb_true_iff in Hx as [Hx _]. apply andb_true_iff in Hx as [_ Hx].
      destruct (Store.or_filled_qty x); [apply Go.ltb_true; exact Hx|discriminate]. }
    clear -Hall. setoid_replace (0 + qsum (fun r0 => Store.num (Store.or_filled_qty r0)) (r :: rs))
      with (qsum (fun r0 => Store.num (Store.or_filled_qty r0)) (r :: rs)) by ring.
    revert r Hall. induction rs as [|r' rs IH]; intros r Hall; cbn.
    - rewrite Qplus_0_r. apply Hall. left. reflexivity.
    - apply (Qlt_le_trans _ (Store.num (Store.or_filled_qty r) + 0)); [rewrite Qplus_0_r; apply Hall; left; reflexivity|].
      apply Qplus_le_compat; [apply Qle_refl|]. apply Qlt_le_weak. apply (IH r'). intros x Hx. apply Hall. right. exact Hx. }
  rewrite (holdings_of_find _ p q c (fold_acc_nodup Q0 [] (NoDup_nil string)) Hg Hpos).
  eexists. split; [reflexivity|]. cbn [Quantity TotalCost AvgPrice h_source].
  split; [rewrite Hq; ring|split; [rewrite Hc; ring|split; reflexivity]].
Qed.

Lemma position_risk_nonneg_witness :
  Account.FetchPositionRisk Samples.futures_live "btc/usdt"
    (Account.Response 200 "" None (inr [("ETHUSDT", 2); ("BTCUSDT", - (3 # 2))])) = inr (3 # 2) /\
  0 <= 3 # 2.
Proof.
  split; [reflexivity|].
  apply (position_risk_nonneg Samples.futures_live "btc/usdt"
           (Account.Response 200 "" None (inr [("ETHUSDT", 2); ("BTCUSDT", - (3 # 2))]))).
  reflexivity.
Defined.

Lemma futures_close_request_witness :
  Exec.fu_dryRun Samples.futures_live = false /\
  Exec.in_side Samples.eth_close = SideClose /\
  Exec.out_sent (Exec.futures_Execute Samples.futures_live Samples.accepting Samples.eth_close)
    <> [] /\
  (forall r, In r (Exec.out_sent
     (Exec.futures_Execute Samples.futures_live Samples.accepting Samples.eth_close)) ->
   Exec.param "quantity" r = Some (Exec.PStr "0.500")).
Proof.
  destruct (futures_close_request Samples.futures_live Samples.accepting Samples.eth_close
              eq_refl eq_refl) as [H _].
  split; [reflexivity|]. split; [reflexivity|]. split; [vm_compute; discriminate|].
  intros r Hr. destruct (H ltac:(reflexivity) r Hr) as [_ [_ [_ [_ [_ Hq]]]]].
  rewrite Hq. vm_compute. reflexivity.
Defined.

Lemma sync_trades_append_only_witness :
  exists n t' ht', Store.SyncTradesFromExchange [] [] Samples.trade_uuid "DOGE/USDT" (inr Samples.doge_trades) = inr (n, t', ht') /\
    n = 2%Z /\ (n <= Z.of_nat (List.length (nodup string_dec (map trade_client Samples.doge_trades))))%Z.
Proof.
  destruct (Store.SyncTradesFromExchange [] [] Samples.trade_uuid "DOGE/USDT" (inr Samples.doge_trades))
    as [err|[[n t'] ht']] eqn:E; [vm_compute in E; discriminate|].
  exists n, t', ht'. split; [reflexivity|]. split.
  - vm_compute in E. injection E as <- _ _. reflexivity.
  - destruct (sync_trades_append_only _ _ _ _ _ _ _ _ E) as [added [_ [_ [_ H]]]]. exact H.
Defined.

Lemma sync_trades_idempotent_witness :
  exists n t1 ht1, Store.SyncTradesFromExchange [] [] Samples.trade_uuid "DOGE/USDT" (inr Samples.doge_trades) = inr (n, t1, ht1) /\
    Store.SyncTradesFromExchange t1 ht1 Samples.trade_uuid "DOGE/USDT" (inr Samples.doge_trades) = inr (0%Z, t1, ht1).
Proof.
  destruct (Store.SyncTradesFromExchange [] [] Samples.trade_uuid "DOGE/USDT" (inr Samples.doge_trades))
    as [err|[[n t1] ht1]] eqn:E; [vm_compute in E; discriminate|].
  exists n, t1, ht1. split; [reflexivity|].
  apply (sync_trades_idempotent [] [] Samples.trade_uuid Samples.trade_uuid "DOGE/USDT" Samples.doge_trades n t1 ht1).
  - intros j [].
  - intros i j H. unfold Samples.trade_uuid in H. apply (f_equal String.length) in H. cbn in H.
    assert (Hl : forall k, String.length (Samples.tally k) = k) by (induction k; cbn; [reflexivity|rewrite IHk; reflexivity]).
    rewrite !Hl in H. injection H as H. exact H.
  - exact E.
Defined.

Lemma insert_then_list_positions_witness :
  Store.InsertOrder [] Samples.pending_bnb 7 = Some [Store.order_row Samples.pending_bnb 7] /\
  exists v, Store.ListPositions [Store.order_row Samples.pending_bnb 7]
              [Store.mkSignalRow "cycle-7" "breakout" (7 # 10)] [Store.mkCycleStatusRow "cycle-7" "completed"] 0 = [v] /\
            Store.pv_FilledQuantity v == 1 # 10.
Proof.
  destruct (insert_then_list_positions Samples.pending_bnb 7 (Store.mkSignalRow "cycle-7" "breakout" (7 # 10))
              (Store.mkCycleStatusRow "cycle-7" "completed") 0 eq_refl eq_refl)
    as [Hi [v [Hl [_ [_ [_ [_ [_ [_ [Hq _]]]]]]]]]].
  split; [exact Hi|]. exists v. split; [exact Hl|].
  rewrite (Hq (Qeq_refl 0) ltac:(reflexivity) ltac:(reflexivity)). reflexivity.
Defined.

Lemma live_executors_buy_on_short_witness :
  Exec.out_sent (Exec.spot_Execute Samples.spot_live Samples.accepting
                   (Exec.mkInput "c" "s" "SOL/USDT" SideShort 25 150 0)) =
  Exec.out_sent (Exec.spot_Execute Samples.spot_live Samples.accepting
                   (Exec.mkInput "c" "s" "SOL/USDT" SideLong 25 150 0)).
Proof.
  apply (live_executors_buy_on_short Samples.spot_live Samples.futures_live Samples.accepting
           "c" "s" "SOL/USDT" 25 150 0); reflexivity.
Defined.

Lemma sync_exchange_spot_rows_witness :
  Account.FetchAccountBalances Samples.spot_live
    (Account.Response 200 "" None (inr [Account.mkRawSpot "USDT" 500 0; Account.mkRawSpot "ETH" (1 # 2) (1 # 2);
                                        Account.mkRawSpot "DOGE" 0 0])) =
    inr [Account.mkBalance "ETH" (1 # 2) (1 # 2) ((1 # 2) + (1 # 2))] /\
  Holdings.find_pair "USDT/USDT"
    (Store.syncHoldingsFromExchange [mkHolding "USDT/USDT" "USDT" 7 1 7 "local"]
       (inr [Account.mkBalance "ETH" (1 # 2) (1 # 2) ((1 # 2) + (1 # 2))]) []) =
  Some (mkHolding "USDT/USDT" "USDT" 7 1 7 "local").
Proof.
  split; [reflexivity|].
  destruct (sync_exchange_spot_rows Samples.spot_live
              (Account.Response 200 "" None (inr [Account.mkRawSpot "USDT" 500 0; Account.mkRawSpot "ETH" (1 # 2) (1 # 2);
                                                  Account.mkRawSpot "DOGE" 0 0]))
              [Account.mkBalance "ETH" (1 # 2) (1 # 2) ((1 # 2) + (1 # 2))]
              [mkHolding "USDT/USDT" "USDT" 7 1 7 "local"] [] eq_refl) as [_ H].
  - repeat constructor. intros [].
  - exact (H "USDT" (or_introl eq_refl)).
Defined.


Lemma sync_exchange_futures_rows_witness :
  exists r, Holdings.find_pair "USDT/USDT"
    (Store.syncHoldingsFromExchange []
       (inr [Account.mkBalance "USDT" 0 (-5 - 0) (-5); Account.mkBalance "BNB" 2 (2 - 2) 2]) []) = Some r /\
    Quantity r = -5.
Proof.
  destruct (sync_exchange_futures_rows Samples.futures_live
              (Account.Response 200 "" None (inr [Account.mkRawFutures "USDT" (-5) 0; Account.mkRawFutures "BNB" 2 2]))
              [Account.mkBalance "USDT" 0 (-5 - 0) (-5); Account.mkBalance "BNB" 2 (2 - 2) 2] [] [] eq_refl)
    with (b := Account.mkBalance "USDT" 0 (-5 - 0) (-5)) as [r [H1 [H2 _]]].
  - repeat constructor; cbn; [intros [H|[]]; discriminate H|intros []].
  - left. reflexivity.
  - exists r. split; [exact H1|exact H2].
Defined.

Lemma aggregate_long_only_sums_witness :
  exists h, Holdings.find_pair "ETH/USDT"
    (Store.AggregateHoldingsFromOrders [Store.order_row Samples.eth_buy 1; Store.order_row Samples.eth_buy2 2]) = Some h /\
    Quantity h == 2 /\ TotalCost h == 200.
Proof.
  destruct (aggregate_long_only_sums [Store.order_row Samples.eth_buy 1; Store.order_row Samples.eth_buy2 2] "ETH/USDT")
    as [h [H1 [H2 [H3 _]]]].
  - discriminate.
  - repeat constructor.
  - exists h. split; [exact H1|]. rewrite H2, H3. split; reflexivity.
Defined.
